(** * jsonschema2md: the schema-to-Markdown traversal of [jsonschema2md/__init__.py]

    A shallow embedding of [Parser] (constructor, [_construct_description_line],
    [_construct_examples], [append_line], [_parse_object], [parse_schema] with its
    local [gather_props]) together with the Python built-ins these functions rely
    on, followed by the properties established about them.

    Modelling conventions.
    - A Python [str] is a [string] whose characters are the code points 0..255;
      code points above 255 are outside the model.
    - A value produced by [json.load] is a [json]; numbers are integers ([Z]),
      numbers with a fraction or an exponent are outside the model.
    - A [dict] is an association list in insertion order; lookups take the first
      binding of a key.
    - A call either returns ([Ok]), raises ([Raise]) or, for the two recursive
      functions [_parse_object] and [gather_props], which take a fuel counter,
      runs out of fuel ([Timeout]).  Fuel above the nesting depth of the schema
      always suffices ([parse_object_returns], [parse_schema_returns]) and more
      fuel never changes a result ([parse_object_more_fuel],
      [parse_schema_more_fuel]).
    - The source mutates one list and returns it; here the list is passed in and
      the extended list is returned.
    - The limits of the interpreter are outside the model: the recursion limit,
      for which the fuel stands, and the number of digits [str] prints. *)

From Stdlib Require Import String Ascii List ZArith Lia Bool Arith DecimalString.
Import ListNotations.

Local Open Scope list_scope.
Local Open Scope string_scope.

(** ** Characters and strings as Python sees them *)

Module PyStr.

Definition nl : string := String (ascii_of_nat 10) "".
Definition dquote : string := String (ascii_of_nat 34) "".

Definition code (c : ascii) : nat := nat_of_ascii c.

Definition in_range (lo hi : nat) (c : ascii) : bool :=
  ((lo <=? code c) && (code c <=? hi))%nat.

(** [str.isspace] on one character: TAB..CR, FS..US, SPACE, NEL, NBSP. *)
Definition is_space (c : ascii) : bool :=
  in_range 9 13 c || in_range 28 32 c || (code c =? 133)%nat || (code c =? 160)%nat.

(** [s.lstrip()] *)
Fixpoint lstrip (s : string) : string :=
  match s with
  | String c r => if is_space c then lstrip r else s
  | EmptyString => EmptyString
  end.

(** [s[:n]] *)
Fixpoint take (n : nat) (s : string) : string :=
  match n, s with
  | S n', String c r => String c (take n' r)
  | _, _ => EmptyString
  end.

(** [x in l] for a string [x] and a list of strings [l] *)
Definition mem (x : string) (l : list string) : bool :=
  existsb (String.eqb x) l.

(** [x not in l] *)
Definition not_in (x : string) (l : list string) : bool := negb (mem x l).

(** [" " * n] *)
Fixpoint spaces (n : nat) : string :=
  match n with
  | O => ""
  | S n' => String " " (spaces n')
  end.

(** [sep.join(l)] *)
Definition join (sep : string) (l : list string) : string := String.concat sep l.

(** [s[::-1]], used to phrase the suffix operations. *)
Fixpoint rev (s : string) : string :=
  match s with
  | EmptyString => EmptyString
  | String c r => rev r ++ String c ""
  end.

(** [s.endswith(suf)] *)
Definition endswith (suf s : string) : bool := prefix (rev suf) (rev s).

(** [s.rstrip()] *)
Definition rstrip (s : string) : string := rev (lstrip (rev s)).

(** [s[:-n]] for [n > 0] *)
Definition drop_last (n : nat) (s : string) : string :=
  take (String.length s - n) s.

End PyStr.
Import PyStr.

(** ** [Parser.append_line] (lines 163-172) *)

(** [new_lines[-1]], when [new_lines] is not empty. *)
Definition last_line (new_lines : list string) : option string :=
  match List.rev new_lines with
  | [] => None
  | l :: _ => Some l
  end.

Definition append_line (line : string) (new_lines : list string) : list string :=
  match last_line new_lines with
  | Some last =>
      let last_indent := String.length last - String.length (lstrip last) in
      let indentation := String.length line - String.length (lstrip line) in
      if negb (last_indent =? indentation)%nat
         && negb (not_in (take 2 (lstrip last)) ["- "; "* "])
      then (new_lines ++ [nl]) ++ [line]
      else new_lines ++ [line]
  | None => new_lines ++ [line]
  end.

(** The two notions the append rule is phrased with. *)
Definition indent_width (s : string) : nat :=
  String.length s - String.length (lstrip s).

Definition is_bullet (s : string) : bool :=
  prefix "- " (lstrip s) || prefix "* " (lstrip s).

(** ** Values, exceptions and results *)

#[warnings="-register-all"]
Inductive json : Type :=
| JNull
| JBool (b : bool)
| JNum (n : Z)
| JStr (s : string)
| JArr (l : list json)
| JObj (d : list (string * json)).

Definition dict : Type := list (string * json).

(** The exceptions the code can raise.  [ValueError] and [TypeError] carry the
    message built by the two [raise] statements of the source; the other three
    are raised by built-in operations applied to a value of the wrong type, and
    their messages are not modelled. *)
Inductive exn : Type :=
| ValueError (msg : string)
| TypeError (msg : string)
| BuiltinTypeError
| BuiltinAttributeError
| BuiltinKeyError.

Inductive res (A : Type) : Type :=
| Ok (a : A)
| Raise (e : exn)
| Timeout.

Arguments Ok {A} a.
Arguments Raise {A} e.
Arguments Timeout {A}.

Definition bind {A B : Type} (m : res A) (k : A -> res B) : res B :=
  match m with
  | Ok a => k a
  | Raise e => Raise e
  | Timeout => Timeout
  end.

Notation "x <- m ;; k" := (bind m (fun x => k))
  (at level 61, m at next level, right associativity).

(** [l.append(x)] and [l.extend(m)], on the value of the list. *)
Abbreviation lappend l x := (app l (cons x nil)) (only parsing).
Abbreviation lextend l m := (app l m) (only parsing).

(** A [for] loop whose body may raise: the loop state is threaded through. *)
Fixpoint for_each {A St : Type} (l : list A) (s : St) (body : A -> St -> res St)
  : res St :=
  match l with
  | [] => Ok s
  | x :: r => s' <- body x s ;; for_each r s' body
  end.

(** ** Python built-ins used by the source *)

Module Py.

(** [d.get(k)]: the first binding of [k]; [k in d] and [d[k]] are read off it. *)
Fixpoint get (k : string) (d : dict) : option json :=
  match d with
  | [] => None
  | (k', v) :: r => if String.eqb k k' then Some v else get k r
  end.

Definition contains (k : string) (d : dict) : bool :=
  match get k d with Some _ => true | None => false end.

(** [del d[k]] on a copy: every binding of [k] removed. *)
Fixpoint remove (k : string) (d : dict) : dict :=
  match d with
  | [] => []
  | (k', v) :: r => if String.eqb k k' then remove k r else (k', v) :: remove k r
  end.

Fixpoint string_map (f : ascii -> string) (s : string) : string :=
  match s with
  | EmptyString => EmptyString
  | String c r => f c ++ string_map f r
  end.

Fixpoint has_char (c : ascii) (s : string) : bool :=
  match s with
  | EmptyString => false
  | String c' r => Ascii.eqb c c' || has_char c r
  end.

Definition hex_digit (upper : bool) (n : nat) : ascii :=
  if (n <? 10)%nat then ascii_of_nat (48 + n)
  else ascii_of_nat ((if upper then 55 else 87) + n).

Definition hex2 (upper : bool) (n : nat) : string :=
  String (hex_digit upper (n / 16)) (String (hex_digit upper (n mod 16)) "").

(** [str.isprintable] on one character. *)
Definition is_printable (c : ascii) : bool :=
  in_range 32 126 c || in_range 161 172 c || in_range 174 255 c.

(** [repr] of a string: quote selection and escapes. *)
Definition repr_char (q : ascii) (c : ascii) : string :=
  if Ascii.eqb c q || Ascii.eqb c "\"%char then String "\" (String c "")
  else if (code c =? 9)%nat then "\t"
  else if (code c =? 10)%nat then "\n"
  else if (code c =? 13)%nat then "\r"
  else if is_printable c then String c ""
  else "\x" ++ hex2 false (code c).

Definition repr_str (s : string) : string :=
  let q := if has_char "'" s && negb (has_char (ascii_of_nat 34) s)
           then ascii_of_nat 34 else "'"%char in
  String q (string_map (repr_char q) s ++ String q "").

Definition str_of_Z (n : Z) : string := NilZero.string_of_int (Z.to_int n).

(** [repr(v)] *)
Fixpoint repr (v : json) : string :=
  match v with
  | JNull => "None"
  | JBool true => "True"
  | JBool false => "False"
  | JNum n => str_of_Z n
  | JStr s => repr_str s
  | JArr l => "[" ++ join ", " (map repr l) ++ "]"
  | JObj d =>
      "{" ++ join ", " (map (fun kv : string * json => let (k, x) := kv in
                                       (repr_str k ++ ": " ++ repr x)%string) d) ++ "}"
  end.

(** [str(v)], which is what an f-string field [{v}] inserts. *)
Definition str (v : json) : string :=
  match v with
  | JStr s => s
  | _ => repr v
  end.

(** [str(name)] for an [Optional[str]]. *)
Definition str_opt (name : option string) : string :=
  match name with
  | Some s => s
  | None => "None"
  end.

(** [json.dumps]: string escapes with [ensure_ascii] on. *)
Definition json_escape_char (c : ascii) : string :=
  if (code c =? 34)%nat then String "\" dquote
  else if Ascii.eqb c "\"%char then "\\"
  else if (code c =? 10)%nat then "\n"
  else if (code c =? 13)%nat then "\r"
  else if (code c =? 9)%nat then "\t"
  else if (code c =? 8)%nat then "\b"
  else if (code c =? 12)%nat then "\f"
  else if in_range 32 126 c then String c ""
  else "\u00" ++ hex2 false (code c).

Definition json_str (s : string) : string :=
  dquote ++ string_map json_escape_char s ++ dquote.

(** [json.dumps(v)] *)
Fixpoint dumps (v : json) : string :=
  match v with
  | JNull => "null"
  | JBool true => "true"
  | JBool false => "false"
  | JNum n => str_of_Z n
  | JStr s => json_str s
  | JArr l => "[" ++ join ", " (map dumps l) ++ "]"
  | JObj d =>
      "{" ++ join ", " (map (fun kv : string * json => let (k, x) := kv in
                                       (json_str k ++ ": " ++ dumps x)%string) d) ++ "}"
  end.

(** [json.dumps(v, indent=4)] at nesting [level]. *)
Fixpoint dumps_indent (level : nat) (v : json) : string :=
  match v with
  | JArr [] => "[]"
  | JArr l =>
      let newline_indent := (nl ++ spaces (4 * (level + 1)))%string in
      "[" ++ newline_indent
          ++ join ("," ++ newline_indent) (map (dumps_indent (level + 1)) l)
          ++ nl ++ spaces (4 * level) ++ "]"
  | JObj [] => "{}"
  | JObj d =>
      let newline_indent := (nl ++ spaces (4 * (level + 1)))%string in
      "{" ++ newline_indent
          ++ join ("," ++ newline_indent)
               (map (fun kv : string * json => let (k, x) := kv in
                               (json_str k ++ ": " ++ dumps_indent (level + 1) x)%string) d)
          ++ nl ++ spaces (4 * level) ++ "}"
  | _ => dumps v
  end.

(** [a == b] *)
Fixpoint py_eq (a b : json) {struct a} : bool :=
  match a, b with
  | JNull, JNull => true
  | JBool x, JBool y => Bool.eqb x y
  | JBool x, JNum n => (n =? (if x then 1 else 0))%Z
  | JNum n, JBool x => (n =? (if x then 1 else 0))%Z
  | JNum n, JNum m => (n =? m)%Z
  | JStr s, JStr t => String.eqb s t
  | JArr l, JArr m =>
      (fix all2 (l : list json) (m : list json) : bool :=
         match l, m with
         | [], [] => true
         | x :: l', y :: m' => py_eq x y && all2 l' m'
         | _, _ => false
         end) l m
  | JObj d, JObj e =>
      (List.length d =? List.length e)%nat
      && (fix all (d : dict) : bool :=
            match d with
            | [] => true
            | (k, x) :: d' =>
                match get k e with
                | Some y => py_eq x y
                | None => false
                end && all d'
            end) d
  | _, _ => false
  end.

(** [bool(v)] *)
Definition truthy (v : json) : bool :=
  match v with
  | JNull => false
  | JBool b => b
  | JNum n => negb (n =? 0)%Z
  | JStr s => negb (String.eqb s "")
  | JArr l => match l with [] => false | _ => true end
  | JObj d => match d with [] => false | _ => true end
  end.

(** [x in s] for two strings *)
Fixpoint is_substring (x s : string) : bool :=
  prefix x s
  || match s with
     | String _ r => is_substring x r
     | EmptyString => false
     end.

(** [iter(v)]: what a [for] loop over [v] visits. *)
Definition py_iter (v : json) : res (list json) :=
  match v with
  | JArr l => Ok l
  | JObj d => Ok (map (fun kv => JStr (fst kv)) d)
  | JStr s => Ok (map (fun c => JStr (String c "")) (list_ascii_of_string s))
  | _ => Raise BuiltinTypeError
  end.

(** [x in v] for a string [x] *)
Definition py_contains (x : string) (v : json) : res bool :=
  match v with
  | JArr l => Ok (existsb (py_eq (JStr x)) l)
  | JObj d => Ok (contains x d)
  | JStr s => Ok (is_substring x s)
  | _ => Raise BuiltinTypeError
  end.

(** [v[k]] for a string [k] *)
Definition py_getitem (v : json) (k : string) : res json :=
  match v with
  | JObj d => match get k d with Some x => Ok x | None => Raise BuiltinKeyError end
  | _ => Raise BuiltinTypeError
  end.

(** [v.items()] *)
Definition py_items (v : json) : res dict :=
  match v with
  | JObj d => Ok d
  | _ => Raise BuiltinAttributeError
  end.

(** [s.lower()] *)
Definition lower_char (c : ascii) : ascii :=
  if in_range 65 90 c || (in_range 192 222 c && negb (code c =? 215)%nat)
  then ascii_of_nat (code c + 32) else c.

Definition lower (s : string) : string :=
  string_map (fun c => String (lower_char c) "") s.

(** [s.capitalize()], for the ASCII keyword constants it is applied to. *)
Definition capitalize (s : string) : string :=
  match s with
  | EmptyString => EmptyString
  | String c r =>
      String (if in_range 97 122 c then ascii_of_nat (code c - 32) else c) (lower r)
  end.

(** [urllib.parse.quote(s)] with the default [safe="/"]. *)
Definition always_safe (c : ascii) : bool :=
  in_range 65 90 c || in_range 97 122 c || in_range 48 57 c || has_char c "_.-~".

Definition utf8 (c : ascii) : list nat :=
  if (code c <? 128)%nat then [code c]
  else [192 + code c / 64; 128 + code c mod 64]%nat.

Definition quote_char (c : ascii) : string :=
  if always_safe c || Ascii.eqb c "/"%char then String c ""
  else String.concat "" (map (fun b => ("%" ++ hex2 true b)%string) (utf8 c)).

Definition quote (s : string) : string := string_map quote_char s.

(** [re.search(r"[.?!;]$", s)] finds a match: [$] also matches just before a
    final newline. *)
Definition is_end_mark (c : ascii) : bool := has_char c ".?!;".

Definition search_end_mark (s : string) : bool :=
  match PyStr.rev s with
  | String c r =>
      is_end_mark c
      || ((code c =? 10)%nat
          && match r with String c' _ => is_end_mark c' | EmptyString => false end)
  | EmptyString => false
  end.

(** [os.path.basename(p)] (POSIX): what follows the last slash. *)
Fixpoint until_slash (s : string) : string :=
  match s with
  | EmptyString => EmptyString
  | String c r => if Ascii.eqb c "/"%char then EmptyString else String c (until_slash r)
  end.

Definition basename (p : string) : string := PyStr.rev (until_slash (PyStr.rev p)).

(** [s.replace("\n\n", by)] *)
Fixpoint replace_double_newline (by_ : string) (s : string) : string :=
  match s with
  | EmptyString => EmptyString
  | String c1 t =>
      match t with
      | String c2 r =>
          if ((code c1 =? 10) && (code c2 =? 10))%nat
          then by_ ++ replace_double_newline by_ r
          else String c1 (replace_double_newline by_ t)
      | EmptyString => s
      end
  end.

(** [io.StringIO(s).readlines()]: the lines of [s], each keeping its newline. *)
Fixpoint readlines_from (cur : string) (s : string) : list string :=
  match s with
  | EmptyString => match cur with EmptyString => [] | _ => [cur] end
  | String c r =>
      if (code c =? 10)%nat then (cur ++ nl) :: readlines_from "" r
      else readlines_from (cur ++ String c "") r
  end.

Definition readlines (s : string) : list string := readlines_from "" s.

End Py.
Import Py.

(** ** [class Parser] *)

Record Parser : Type := {
  examples_as_yaml : bool;
  show_examples : string
}.

Definition tab_size : nat := 2.

Definition valid_show_examples_options : list string :=
  ["all"; "object"; "properties"].

(** An argument left out at a call is [None] and takes the default of the
    signature. *)
Definition or_default {A : Type} (given : option A) (default : A) : A :=
  match given with
  | Some a => a
  | None => default
  end.

(** [Parser.__init__] (lines 43-66) *)
Definition __init__ (examples_as_yaml : option bool) (show_examples : option string)
  : res Parser :=
  let examples_as_yaml := or_default examples_as_yaml false in
  let show_examples := or_default show_examples "all" in
  let show_examples := lower show_examples in
  if mem show_examples valid_show_examples_options
  then Ok {| examples_as_yaml := examples_as_yaml; show_examples := show_examples |}
  else Raise (ValueError
                ("`show_examples` option should be one of "
                 ++ "`" ++ repr (JArr (map JStr valid_show_examples_options))
                 ++ "`; `" ++ show_examples ++ "` was passed.")).

(** *** [Parser._construct_description_line] (lines 68-124)

    Each block of the method appends zero or one fragment (the loop over the two
    extra-properties keywords: one per keyword) to [description_line]; the blocks
    are given one definition each, in the order of the source. *)

(** lines 74-76 *)
Definition description_fragment (obj : dict) : res (list string) :=
  match get "description" obj with
  | Some d =>
      match d with
      | JStr s =>
          let ending := if search_end_mark s then "" else "." in
          Ok [str d ++ ending]
      | _ => Raise BuiltinTypeError
      end
  | None => Ok []
  end.

(** lines 77-79 *)
Definition type_fragment (obj : dict) (add_type : bool) : list string :=
  if add_type then
    match get "type" obj with
    | Some t => ["Must be of type *" ++ str t ++ "*."]
    | None => []
    end
  else [].

(** lines 80-87, one keyword *)
Definition bound_fragment (key label : string) (obj : dict) : list string :=
  match get key obj with
  | Some v => [label ++ ": `" ++ str v ++ "`."]
  | None => []
  end.

(** lines 88-100 *)
Definition length_fragment (obj : dict) : list string :=
  if contains "minItems" obj || contains "maxItems" obj then
    let length_description := "Length must be " in
    let length_description :=
      match get "minItems" obj, get "maxItems" obj with
      | Some mn, None => length_description ++ "at least " ++ str mn ++ "."
      | None, Some mx => length_description ++ "at most " ++ str mx ++ "."
      | Some mn, Some mx =>
          if py_eq mn mx
          then length_description ++ "equal to " ++ str mn ++ "."
          else length_description
               ++ "between " ++ str mn ++ " and " ++ str mx ++ " (inclusive)."
      | None, None => length_description
      end in
    [length_description]
  else [].

(** lines 101-104 and 117-118, one keyword *)
Definition dumps_fragment (key label : string) (obj : dict) : list string :=
  match get key obj with
  | Some v => [label ++ ": `" ++ dumps v ++ "`."]
  | None => []
  end.

(** lines 106-110, the body of the loop for one [extra_props] *)
Definition extra_props_fragment (extra_props : string) (obj : dict) : list string :=
  match get (extra_props ++ "Properties") obj with
  | Some v =>
      if truthy v
      then ["Can contain " ++ extra_props ++ " properties."]
      else ["Cannot contain " ++ extra_props ++ " properties."]
  | None => []
  end.

(** lines 111-116 *)
Definition ref_fragment (obj : dict) : res (list string) :=
  match get "$ref" obj with
  | Some (JStr dest) =>
      let dest := if endswith ".json" dest then drop_last 5 dest else dest in
      let title := basename dest in
      Ok ["Includes all of *[" ++ title ++ "](" ++ quote dest ++ ".md)*."]
  | Some _ => Raise BuiltinAttributeError
  | None => Ok []
  end.

Definition _construct_description_line (obj : dict) (add_type : bool)
  : res (list string) :=
  let description_line : list string := [] in
  fragment <- description_fragment obj ;;
  let description_line := (description_line ++ fragment)%list in
  let description_line := (description_line ++ type_fragment obj add_type)%list in
  let description_line :=
    (description_line ++ bound_fragment "minimum" "Minimum" obj)%list in
  let description_line :=
    (description_line
       ++ bound_fragment "exclusiveMinimum" "Exclusive minimum" obj)%list in
  let description_line :=
    (description_line ++ bound_fragment "maximum" "Maximum" obj)%list in
  let description_line :=
    (description_line
       ++ bound_fragment "exclusiveMaximum" "Exclusive maximum" obj)%list in
  let description_line := (description_line ++ length_fragment obj)%list in
  let description_line :=
    (description_line ++ dumps_fragment "enum" "Must be one of" obj)%list in
  let description_line :=
    (description_line ++ dumps_fragment "const" "Must be" obj)%list in
  let description_line :=
    fold_left (fun description_line extra_props =>
                 (description_line ++ extra_props_fragment extra_props obj)%list)
              ["additional"; "unevaluated"] description_line in
  fragment <- ref_fragment obj ;;
  let description_line := (description_line ++ fragment)%list in
  let description_line :=
    (description_line ++ dumps_fragment "default" "Default" obj)%list in
  Ok description_line.

Section Traversal.

(** [yaml.dump(v, sort_keys=False, indent=4)]; PyYAML's emitter is not part of the
    repository and is left abstract. *)
Variable yaml_dump : json -> string.

(** *** [Parser._construct_examples] (lines 126-161) *)

Definition dump_json_with_line_head (obj : json) (line_head : string) : string :=
  join "" (map (fun line => line_head ++ line) (readlines (dumps_indent 0 obj))).

Definition dump_yaml_with_line_head (obj : json) (line_head : string) : string :=
  rstrip (join "" (map (fun line => line_head ++ line) (readlines (yaml_dump obj)))).

Definition _construct_examples (self : Parser) (obj : dict) (indent_level : nat)
  (add_header : bool) : res (list string) :=
  let example_lines : list string := [] in
  match get "examples" obj with
  | Some examples =>
      let example_indentation := spaces (tab_size * indent_level) in
      let example_lines :=
        if add_header
        then lappend example_lines (nl ++ example_indentation ++ "Examples:" ++ nl)
        else example_lines in
      examples <- py_iter examples ;;
      Ok (fold_left
            (fun example_lines example =>
               let (lang, dump_fn) :=
                 if examples_as_yaml self
                 then ("yaml", dump_yaml_with_line_head)
                 else ("json", dump_json_with_line_head) in
               let example_str := dump_fn example example_indentation in
               lappend example_lines (example_indentation ++ "```" ++ lang ++ nl
                      ++ example_str ++ nl
                      ++ example_indentation ++ "```" ++ nl ++ nl))
            examples example_lines)
  | None => Ok example_lines
  end.

(** *** [Parser._parse_object] (lines 174-301)

    [parsed_lines] is the list the source threads through the recursion and
    returns; [None] and the empty list are both replaced by a fresh empty list on
    entry, so both are [[]] here.  [path] is [[]] for [None]. *)

Definition schema_composition_keyword_map : list (string * string) :=
  [("allOf", "All of"); ("anyOf", "Any of"); ("oneOf", "One of")].

Definition non_object_message (name : option string) (obj : json) : string :=
  "Non-object type found in properties list: `"
  ++ str_opt name ++ ": " ++ str obj ++ "`.".

(** The blocks of the method, in source order and named after their comments.
    [parse] is the method itself, as the recursive calls reach it. *)
Section Blocks.

Variable parse :
  json -> option string -> bool -> list string -> nat -> list string -> bool ->
  res (list string).

(** "Construct full description line", "Add full line to output" (lines 210-237):
    the line appended for the node itself. *)
Definition full_line (obj : dict) (name : option string) (name_monospace : bool)
  (indent_level : nat) (path : list string) (required : bool)
  (description_line_base : list string) : string :=
  let indentation := spaces (tab_size * indent_level) in
  let indentation_items := spaces (tab_size * (indent_level + 1)) in
  let description_line_list :=
    map (replace_double_newline ("<br>" ++ indentation_items))
        description_line_base in
  let description_line := join " " description_line_list in
  let optional_format :=
    match get "format" obj with
    | Some f => ", format: " ++ str f
    | None => ""
    end in
  let (obj_type, name_formatted) :=
    match name with
    | None =>
        (match get "type" obj with
         | Some t => "*" ++ str t ++ optional_format ++ "*"
         | None => ""
         end, "")
    | Some name =>
        let required_str := if required then ", required" else "" in
        (match get "type" obj with
         | Some t => " *(" ++ str t ++ optional_format ++ required_str ++ ")*"
         | None => ""
         end,
         if name_monospace then "**`" ++ name ++ "`**" else "**" ++ name ++ "**")
    end in
  let anchor :=
    match path with
    | [] => ""
    | _ => "<a id=" ++ dquote ++ quote (join "/" path) ++ dquote ++ "></a>"
    end in
  indentation ++ "- " ++ anchor ++ name_formatted ++ obj_type
              ++ description_line ++ nl.

(** "Recursively parse subschemas following schema composition keywords"
    (lines 239-258) *)
Definition parse_composition (obj : dict) (parsed_lines : list string)
  (indent_level : nat) : res (list string) :=
  let indentation_items := spaces (tab_size * (indent_level + 1)) in
  for_each schema_composition_keyword_map parsed_lines
    (fun (kl : string * string) parsed_lines =>
       let (key, label) := kl in
       match get key obj with
       | Some children =>
           let parsed_lines :=
             append_line (indentation_items ++ "- **" ++ label ++ "**" ++ nl)
                         parsed_lines in
           children <- py_iter children ;;
           for_each children parsed_lines
             (fun child_obj parsed_lines =>
                parse child_obj None false parsed_lines (indent_level + 2) [] false)
       | None => Ok parsed_lines
       end).

(** "Recursively add items and definitions" (lines 260-269) *)
Definition parse_items_and_definitions (obj : dict) (parsed_lines : list string)
  (indent_level : nat) : res (list string) :=
  for_each ["items"; "definitions"; "$defs"] parsed_lines
    (fun property_name parsed_lines =>
       match get property_name obj with
       | Some sub =>
           parse sub (Some (capitalize property_name)) false parsed_lines
                 (indent_level + 1) [] false
       | None => Ok parsed_lines
       end).

(** "Recursively add additional child properties" (lines 271-281) *)
Definition parse_extra_properties (obj : dict) (parsed_lines : list string)
  (indent_level : nat) : res (list string) :=
  for_each ["additional"; "unevaluated"] parsed_lines
    (fun extra_props parsed_lines =>
       let property_name := extra_props ++ "Properties" in
       match get property_name obj with
       | Some (JObj sub) =>
           parse (JObj sub) (Some (capitalize extra_props ++ " properties"))
                 false parsed_lines (indent_level + 1) [] false
       | _ => Ok parsed_lines
       end).

(** [property_name in obj.get("required", [])] (line 292) *)
Definition listed_as_required (property_name : string) (obj : dict) : res bool :=
  match get "required" obj with
  | Some r => py_contains property_name r
  | None => py_contains property_name (JArr [])
  end.

(** "Recursively add child properties" (lines 283-293) *)
Definition parse_child_properties (obj : dict) (parsed_lines : list string)
  (indent_level : nat) : res (list string) :=
  for_each ["properties"; "patternProperties"] parsed_lines
    (fun property_name parsed_lines =>
       match get property_name obj with
       | Some props =>
           items <- py_items props ;;
           for_each items parsed_lines
             (fun (item : string * json) parsed_lines =>
                let (property_name, property_obj) := item in
                required <- listed_as_required property_name obj ;;
                parse property_obj (Some property_name) true parsed_lines
                      (indent_level + 1) [] required)
       | None => Ok parsed_lines
       end).

End Blocks.

(** "Add examples" (lines 295-299) *)
Definition add_examples (self : Parser) (obj : dict) (parsed_lines : list string)
  (indent_level : nat) : res (list string) :=
  if mem (show_examples self) ["all"; "properties"]
  then
    example_lines <- _construct_examples self obj indent_level true ;;
    Ok (lextend parsed_lines example_lines)
  else Ok parsed_lines.

Fixpoint _parse_object (fuel : nat) (self : Parser) (obj : json)
  (name : option string) (name_monospace : bool) (parsed_lines : list string)
  (indent_level : nat) (path : list string) (required : bool)
  {struct fuel} : res (list string) :=
  match fuel with
  | O => Timeout
  | S fuel =>
      let indentation := spaces (tab_size * indent_level) in
      match obj with
      | JArr elements =>
          let parsed_lines :=
            append_line (indentation ++ "- **" ++ str_opt name ++ "**:" ++ nl)
                        parsed_lines in
          for_each elements parsed_lines
            (fun element parsed_lines =>
               _parse_object fuel self element None false parsed_lines
                             (indent_level + 1) [] false)
      | JObj obj =>
          description_line_base <- _construct_description_line obj false ;;
          let parsed_lines :=
            append_line (full_line obj name name_monospace indent_level path
                                   required description_line_base)
                        parsed_lines in
          parsed_lines <-
            parse_composition (_parse_object fuel self) obj parsed_lines
                              indent_level ;;
          parsed_lines <-
            parse_items_and_definitions (_parse_object fuel self) obj parsed_lines
                                        indent_level ;;
          parsed_lines <-
            parse_extra_properties (_parse_object fuel self) obj parsed_lines
                                   indent_level ;;
          parsed_lines <-
            parse_child_properties (_parse_object fuel self) obj parsed_lines
                                   indent_level ;;
          add_examples self obj parsed_lines indent_level
      | _ => Raise (TypeError (non_object_message name obj))
      end
  end.

(** *** [Parser.parse_schema] (lines 303-391) *)

(** The local function [gather_props] (lines 306-315). *)
Fixpoint gather_props (fuel : nat) (obj : json) (prop : string) {struct fuel}
  : res (list json) :=
  match fuel with
  | O => Timeout
  | S fuel =>
      let res : list json := [] in
      found <- py_contains prop obj ;;
      res <- (if found : bool
              then v <- py_getitem obj prop ;; Ok (res ++ [v])%list
              else Ok res) ;;
      found <- py_contains "allOf" obj ;;
      if found : bool then
        all_of <- py_getitem obj "allOf" ;;
        sub_objs <- py_iter all_of ;;
        for_each sub_objs res
          (fun sub_obj res =>
             more <- gather_props fuel sub_obj prop ;;
             Ok (res ++ more)%list)
      else Ok res
  end.

(** The sections of the method, in source order and named after their
    comments; each takes the [output_lines] built so far and returns them
    extended. *)

(** "Add title and description" (lines 319-326) *)
Definition add_title_and_description (schema_object_master : dict)
  (output_lines : list string) : list string :=
  let output_lines :=
    match get "title" schema_object_master with
    | Some title => lappend output_lines ("# " ++ str title ++ nl ++ nl)
    | None => lappend output_lines ("# JSON Schema" ++ nl ++ nl)
    end in
  match get "description" schema_object_master with
  | Some description =>
      lappend output_lines ("*" ++ str description ++ "*" ++ nl ++ nl)
  | None => output_lines
  end.

(** "Add items" (lines 328-335) *)
Definition add_items (fuel : nat) (self : Parser) (schema_object_master : dict)
  (output_lines : list string) : res (list string) :=
  let first := false in
  gathered <- gather_props fuel (JObj schema_object_master) "items" ;;
  state <-
    for_each gathered (first, output_lines)
      (fun schema_object (state : bool * list string) =>
         let (first, output_lines) := state in
         let (first, output_lines) :=
           if negb first
           then (true, lappend output_lines ("## Items" ++ nl ++ nl))
           else (first, output_lines) in
         new_lines <- _parse_object fuel self schema_object (Some "Items") false
                                    [] 0 [] false ;;
         Ok (first, lextend output_lines new_lines)) ;;
  Ok (snd state).

(** "Add additional/unevaluated properties" (lines 337-350) *)
Definition add_extra_properties (fuel : nat) (self : Parser)
  (schema_object_master : dict) (output_lines : list string) : res (list string) :=
  for_each ["additional"; "unevaluated"] output_lines
    (fun extra_props output_lines =>
       let property_name := extra_props ++ "Properties" in
       let title_ := capitalize extra_props ++ " Properties" in
       match get property_name schema_object_master with
       | Some (JObj sub) =>
           let output_lines := lappend output_lines ("## " ++ title_ ++ nl ++ nl) in
           new_lines <- _parse_object fuel self (JObj sub) (Some title_) false
                                      [] 0 [] false ;;
           Ok (lextend output_lines new_lines)
       | _ => Ok output_lines
       end).

(** "Add pattern properties" (lines 352-360) *)
Definition add_pattern_properties (fuel : nat) (self : Parser)
  (schema_object_master : dict) (output_lines : list string) : res (list string) :=
  let first := false in
  gathered <- gather_props fuel (JObj schema_object_master) "patternProperties" ;;
  state <-
    for_each gathered (first, output_lines)
      (fun schema_object (state : bool * list string) =>
         let (first, output_lines) := state in
         let (first, output_lines) :=
           if negb first
           then (true, lappend output_lines ("## Pattern Properties" ++ nl ++ nl))
           else (first, output_lines) in
         items <- py_items schema_object ;;
         output_lines <-
           for_each items output_lines
             (fun (item : string * json) output_lines =>
                let (obj_name, obj) := item in
                new_lines <- _parse_object fuel self obj (Some obj_name) true
                                           [] 0 [] false ;;
                Ok (lextend output_lines new_lines)) ;;
         Ok (first, output_lines)) ;;
  Ok (snd state).

(** "Add properties" (lines 362-371).  [schema_object] is a gathered
    [properties] mapping, and it is this mapping that line 369 asks for a
    [required] entry. *)
Definition add_properties (fuel : nat) (self : Parser)
  (schema_object_master : dict) (output_lines : list string) : res (list string) :=
  let first := true in
  gathered <- gather_props fuel (JObj schema_object_master) "properties" ;;
  state <-
    for_each gathered (first, output_lines)
      (fun schema_object (state : bool * list string) =>
         let (first, output_lines) := state in
         let (first, output_lines) :=
           if first : bool
           then (false, lappend output_lines ("## Properties" ++ nl ++ nl))
           else (first, output_lines) in
         items <- py_items schema_object ;;
         output_lines <-
           for_each items output_lines
             (fun (item : string * json) output_lines =>
                let (obj_name, obj) := item in
                required <- listed_as_required obj_name items ;;
                new_lines <- _parse_object fuel self obj (Some obj_name) true
                                           [] 0 [] required ;;
                Ok (lextend output_lines new_lines)) ;;
         Ok (first, output_lines)) ;;
  Ok (snd state).

(** "Add definitions / $defs" (lines 373-378) *)
Definition add_definitions (fuel : nat) (self : Parser)
  (schema_object_master : dict) (output_lines : list string) : res (list string) :=
  for_each ["definitions"; "$defs"] output_lines
    (fun name output_lines =>
       match get name schema_object_master with
       | Some defs =>
           items <- py_items defs ;;
           for_each items output_lines
             (fun (item : string * json) output_lines =>
                let (obj_name, obj) := item in
                new_lines <- _parse_object fuel self obj (Some obj_name) true
                                           [] 0 [name; obj_name] false ;;
                Ok (lextend output_lines new_lines))
       | None => Ok output_lines
       end).

(** "Add examples" (lines 380-389) *)
Definition add_root_examples (self : Parser) (schema_object_master : dict)
  (output_lines : list string) : res (list string) :=
  if contains "examples" schema_object_master
     && mem (show_examples self) ["all"; "object"]
  then
    let output_lines := lappend output_lines ("## Examples" ++ nl ++ nl) in
    new_lines <- _construct_examples self schema_object_master 0 false ;;
    Ok (lextend output_lines new_lines)
  else Ok output_lines.

Definition parse_schema (fuel : nat) (self : Parser) (schema_object_master : dict)
  : res (list string) :=
  let output_lines : list string := [] in
  let output_lines := add_title_and_description schema_object_master output_lines in
  output_lines <- add_items fuel self schema_object_master output_lines ;;
  output_lines <- add_extra_properties fuel self schema_object_master output_lines ;;
  output_lines <- add_pattern_properties fuel self schema_object_master output_lines ;;
  output_lines <- add_properties fuel self schema_object_master output_lines ;;
  output_lines <- add_definitions fuel self schema_object_master output_lines ;;
  add_root_examples self schema_object_master output_lines.

End Traversal.

(** ** Notions the statements below are phrased with *)

(** The sentence the description carries for [minItems] and [maxItems], as the
    specification words it. *)
Definition length_sentence (min_items max_items : option json) : list string :=
  match min_items, max_items with
  | Some n, None => ["Length must be at least " ++ str n ++ "."]
  | None, Some n => ["Length must be at most " ++ str n ++ "."]
  | Some mn, Some mx =>
      if py_eq mn mx
      then ["Length must be equal to " ++ str mn ++ "."]
      else ["Length must be between " ++ str mn ++ " and " ++ str mx ++ " (inclusive)."]
  | None, None => []
  end.

(** A node with its two length keywords deleted. *)
Definition without_lengths (obj : dict) : dict :=
  remove "minItems" (remove "maxItems" obj).

(** What a value of [additionalProperties] or [unevaluatedProperties] says about
    extra properties: a boolean allows or forbids them, and a schema with at
    least one keyword allows them and describes them.  Other values, the empty
    object among them, settle nothing here. *)
Definition extra_props_policy (v : json) : option bool :=
  match v with
  | JBool allowed => Some allowed
  | JObj (_ :: _) => Some true
  | _ => None
  end.

(** The sentence for a policy. *)
Definition extra_props_sentence (extra_props : string) (allowed : bool) : string :=
  if allowed
  then "Can contain " ++ extra_props ++ " properties."
  else "Cannot contain " ++ extra_props ++ " properties.".

(** The lines [_parse_object] appends: a blank line, a bullet line, the header of
    an examples block, or a fenced block. *)
Inductive walker_line : string -> Prop :=
| blank_line : walker_line nl
| bullet_line (n : nat) (rest : string) : walker_line (spaces n ++ "- " ++ rest)
| examples_header (rest : string) : walker_line (nl ++ rest)
| fence_line (n : nat) (rest : string) : walker_line (spaces n ++ "```" ++ rest).

(** [out] is [lines] followed by lines that satisfy [P]. *)
Definition extends (P : string -> Prop) (lines out : list string) : Prop :=
  exists suffix, out = (lines ++ suffix)%list /\ Forall P suffix.

(** The values on which [_parse_object] raises its [TypeError]. *)
Definition is_container (v : json) : bool :=
  match v with
  | JArr _ | JObj _ => true
  | _ => false
  end.

(** An exception raised by a built-in operation. *)
Definition builtin (e : exn) : Prop :=
  e = BuiltinTypeError \/ e = BuiltinAttributeError \/ e = BuiltinKeyError.


(** Nesting depth of a value; the fuel a traversal needs is bounded by it. *)
Fixpoint depth (v : json) : nat :=
  match v with
  | JArr l => S (list_max (map depth l))
  | JObj d => S (list_max (map (fun kv : string * json => depth (snd kv)) d))
  | _ => 0
  end.

(** Sample arguments: a YAML dumper for runs that do not use one, and the parser
    [Parser()] builds. *)
Definition yaml_unused (v : json) : string := "".
Definition default_parser : Parser :=
  {| examples_as_yaml := false; show_examples := "all" |}.

(** The parts of the line of a named, typed property, as the specification
    words them: [*(type[, format: F][, required])*]. *)
Definition optional_format (obj : dict) : string :=
  match get "format" obj with
  | Some f => ", format: " ++ str f
  | None => ""
  end.

Definition joined_description (indent_level : nat) (fragments : list string) : string :=
  join " " (map (replace_double_newline ("<br>" ++ spaces (tab_size * (indent_level + 1))))
                fragments).

Definition typed_property_line (indent_level : nat) (key ty format marker : string)
  (description : string) : string :=
  spaces (tab_size * indent_level) ++ "- "
  ++ ("**`" ++ key ++ "`**")
  ++ (" *(" ++ ty ++ format ++ marker ++ ")*")
  ++ description ++ nl.

(** The line of a named property without [type]: no annotation. *)
Definition untyped_property_line (indent_level : nat) (key description : string)
  : string :=
  spaces (tab_size * indent_level) ++ "- "
  ++ ("**`" ++ key ++ "`**")
  ++ description ++ nl.

(** Gathering through [allOf], as the specification words it: the value the
    keyword has in the node itself, then, branch after branch, what is gathered
    in the same way from each branch of the node's [allOf] list. *)
Fixpoint gathered_through_all_of (prop : string) (v : json) {struct v} : list json :=
  match v with
  | JObj d =>
      (match get prop d with
       | Some x => [x]
       | None => []
       end
       ++ (fix branches (d : dict) : list json :=
             match d with
             | [] => []
             | (k, x) :: rest =>
                 if String.eqb "allOf" k
                 then match x with
                      | JArr xs => flat_map (gathered_through_all_of prop) xs
                      | _ => []
                      end
                 else branches rest
             end) d)%list
  | _ => []
  end.

(** The header of the properties section and, as the specification words the
    section, the entries under it: every gathered mapping in order, every
    property of a mapping in order, each rendered on its own and the results
    concatenated. *)
Definition properties_header : string := "## Properties" ++ nl ++ nl.

Fixpoint concat_results {A : Type} (rs : list (res (list A))) : res (list A) :=
  match rs with
  | [] => Ok []
  | r :: rest =>
      lines <- r ;;
      more <- concat_results rest ;;
      Ok (lines ++ more)%list
  end.

Section Entries.
Variable yaml_dump : json -> string.

Definition render_property (fuel : nat) (self : Parser) (mapping : dict)
  (item : string * json) : res (list string) :=
  let (obj_name, obj) := item in
  required <- listed_as_required obj_name mapping ;;
  _parse_object yaml_dump fuel self obj (Some obj_name) true [] 0 [] required.

Definition render_mapping (fuel : nat) (self : Parser) (schema_object : json)
  : res (list string) :=
  items <- py_items schema_object ;;
  concat_results (map (render_property fuel self items) items).

Definition render_gathered (fuel : nat) (self : Parser) (gathered : list json)
  : res (list string) :=
  concat_results (map (render_mapping fuel self) gathered).
End Entries.

(** A line other than the header of the properties section. *)
Definition not_header (line : string) : Prop := line <> properties_header.

(** ** Notions the further properties are phrased with *)

(** [s] ends in one of the marks [. ? ! ;], possibly followed by one final
    newline. *)
Definition ends_sentence (s : string) : Prop :=
  exists (p : string) (c : ascii),
    In c ["."; "?"; "!"; ";"]%char
    /\ (s = p ++ String c "" \/ s = p ++ String c nl).

(** The keywords [_construct_description_line] reads. *)
Definition description_keywords : list string :=
  ["description"; "type"; "minimum"; "exclusiveMinimum"; "maximum";
   "exclusiveMaximum"; "minItems"; "maxItems"; "enum"; "const";
   "additionalProperties"; "unevaluatedProperties"; "$ref"; "default"].

(** The keywords rendered as [Label: `value`.], with their label and the
    rendering of the value: [str] for the four bounds, [json.dumps] for the
    rest. *)
Definition labelled_keywords : list (string * string * (json -> string)) :=
  [("minimum", "Minimum", str);
   ("exclusiveMinimum", "Exclusive minimum", str);
   ("maximum", "Maximum", str);
   ("exclusiveMaximum", "Exclusive maximum", str);
   ("enum", "Must be one of", dumps);
   ("const", "Must be", dumps);
   ("default", "Default", dumps)].

Definition is_str (v : json) : bool :=
  match v with
  | JStr _ => true
  | _ => false
  end.

(** [head] put in front of every line of a text: at the start of the text when
    [at_start] holds, and after every newline that is followed by more text. *)
Fixpoint prefix_lines (head : string) (at_start : bool) (s : string) : string :=
  match s with
  | EmptyString => EmptyString
  | String c r =>
      (if at_start then head else "")
      ++ String c (prefix_lines head (code c =? 10)%nat r)
  end.

(** One fenced block of [_construct_examples]. *)
Definition example_block (indentation lang body : string) : string :=
  indentation ++ "```" ++ lang ++ nl ++ body ++ nl ++ indentation ++ "```" ++ nl ++ nl.

(** [append_line] called for each of [lines] in turn. *)
Definition append_lines (lines new_lines : list string) : list string :=
  fold_left (fun new_lines line => append_line line new_lines) lines new_lines.

Definition not_blank (line : string) : bool := negb (String.eqb line nl).

(** A line that is blank or indented by at least [tab_size * indent_level]
    whitespace characters, as [append_line] measures indentation. *)
Definition indented_at (indent_level : nat) (line : string) : Prop :=
  line = nl \/ tab_size * indent_level <= indent_width line.

(** A blank line or a bullet line. *)
Definition bullet_or_blank (line : string) : Prop :=
  line = nl \/ exists n rest, line = spaces n ++ "- " ++ rest.

(** The line [_parse_object] appends for the node itself: the header of a list
    node, the full line of an object node. *)
Definition own_line (obj : json) (name : option string) (name_monospace : bool)
  (indent_level : nat) (path : list string) (required : bool) : option string :=
  match obj with
  | JObj d =>
      match _construct_description_line d false with
      | Ok description_line_base =>
          Some (full_line d name name_monospace indent_level path required
                          description_line_base)
      | _ => None
      end
  | JArr _ =>
      Some (spaces (tab_size * indent_level) ++ "- **" ++ str_opt name ++ "**:" ++ nl)
  | _ => None
  end.

(** Values a [for] loop and the [in] operator accept. *)
Definition is_iterable (v : json) : bool :=
  match v with
  | JStr _ | JArr _ | JObj _ => true
  | _ => false
  end.

Definition is_dict (v : json) : bool :=
  match v with
  | JObj _ => true
  | _ => false
  end.

(** The value of [key], when there is one, passes [test]. *)
Definition key_ok (test : json -> bool) (key : string) (d : dict) : bool :=
  match get key d with
  | Some v => test v
  | None => true
  end.

(** Some [properties] or [patternProperties] mapping of the node has an entry. *)
Definition has_property (d : dict) : bool :=
  existsb (fun key => match get key d with
                      | Some (JObj (_ :: _)) => true
                      | _ => false
                      end)
          ["properties"; "patternProperties"].

(** What [_parse_object] asks of the keywords of an object node itself. *)
Definition node_ok (self : Parser) (d : dict) : bool :=
  key_ok is_str "description" d
  && key_ok is_str "$ref" d
  && forallb (fun key => key_ok is_iterable key d) ["allOf"; "anyOf"; "oneOf"]
  && forallb (fun key => key_ok is_dict key d) ["properties"; "patternProperties"]
  && (negb (has_property d) || key_ok is_iterable "required" d)
  && (negb (mem (show_examples self) ["all"; "properties"])
      || key_ok is_iterable "examples" d).

(** The nodes [_parse_object] calls itself on from an object node. *)
Inductive child (d : dict) : json -> Prop :=
| child_branch (key : string) (children : json) (xs : list json) (x : json) :
    In key ["allOf"; "anyOf"; "oneOf"] -> get key d = Some children ->
    py_iter children = Ok xs -> In x xs -> child d x
| child_keyword (key : string) (sub : json) :
    In key ["items"; "definitions"; "$defs"] -> get key d = Some sub ->
    child d sub
| child_extra (key : string) (sub : dict) :
    In key ["additionalProperties"; "unevaluatedProperties"] ->
    get key d = Some (JObj sub) -> child d (JObj sub)
| child_property (key : string) (props : dict) (k : string) (x : json) :
    In key ["properties"; "patternProperties"] -> get key d = Some (JObj props) ->
    In (k, x) props -> child d x.

(** Schemas [_parse_object] renders: lists and objects all the way down, with
    keywords of the kinds the method relies on. *)
Inductive well_typed (self : Parser) : json -> Prop :=
| well_typed_list (l : list json) :
    (forall x, In x l -> well_typed self x) -> well_typed self (JArr l)
| well_typed_object (d : dict) :
    node_ok self d = true ->
    (forall v, child d v -> well_typed self v) ->
    well_typed self (JObj d).

(** A line that opens with a Markdown heading mark. *)
Definition is_hash (line : string) : bool := prefix "#" line.

Definition optional (b : bool) (line : string) : list string :=
  if b then [line] else [].

Definition nonempty {A : Type} (l : list A) : bool :=
  match l with
  | [] => false
  | _ :: _ => true
  end.

Definition title_line (schema_object_master : dict) : string :=
  "# " ++ match get "title" schema_object_master with
          | Some title => str title
          | None => "JSON Schema"
          end ++ nl ++ nl.

Definition description_lines (schema_object_master : dict) : list string :=
  match get "description" schema_object_master with
  | Some description => ["*" ++ str description ++ "*" ++ nl ++ nl]
  | None => []
  end.

(** The value of [key] is there and is an object. *)
Definition holds_dict (key : string) (d : dict) : bool :=
  match get key d with
  | Some (JObj _) => true
  | _ => false
  end.

(** The section headings of a document, for the values [gather_props] found
    under [items], [patternProperties] and [properties]. *)
Definition section_headings (self : Parser) (schema_object_master : dict)
  (items pattern_properties properties : list json) : list string :=
  (optional (nonempty items) ("## Items" ++ nl ++ nl)
   ++ optional (holds_dict "additionalProperties" schema_object_master)
               ("## Additional Properties" ++ nl ++ nl)
   ++ optional (holds_dict "unevaluatedProperties" schema_object_master)
               ("## Unevaluated Properties" ++ nl ++ nl)
   ++ optional (nonempty pattern_properties) ("## Pattern Properties" ++ nl ++ nl)
   ++ optional (nonempty properties) ("## Properties" ++ nl ++ nl)
   ++ optional (contains "examples" schema_object_master
                && mem (show_examples self) ["all"; "object"])
               ("## Examples" ++ nl ++ nl))%list.

(** [out] is [lines] followed by lines whose headings are [headings]. *)
Definition grows (headings lines out : list string) : Prop :=
  exists suffix, out = (lines ++ suffix)%list /\ filter is_hash suffix = headings.

(** The keys of the root object [parse_schema] reads. *)
Definition root_keywords : list string :=
  ["title"; "description"; "items"; "allOf"; "additionalProperties";
   "unevaluatedProperties"; "patternProperties"; "properties"; "definitions";
   "$defs"; "examples"].

(** [all_of_reach obj v]: [v] is [obj] or is reached from it through [allOf]
    branches, the nodes [gather_props] visits. *)
Inductive all_of_reach : json -> json -> Prop :=
| reach_self (v : json) : all_of_reach v v
| reach_branch (d : dict) (all_of : json) (xs : list json) (x v : json) :
    get "allOf" d = Some all_of -> py_iter all_of = Ok xs -> In x xs ->
    all_of_reach x v -> all_of_reach (JObj d) v.

(** ** The calls of [_parse_object] *)

(** The rendering context of a call: the arguments besides the node and the
    lines. *)
Record context : Type := {
  ctx_name : option string;
  ctx_monospace : bool;
  ctx_indent : nat;
  ctx_path : list string;
  ctx_required : bool
}.

(** The contexts of the calls the method makes from a call in context [c]: for
    an element of a list node (lines 195-202), a child of a composition keyword
    (lines 251-258), the value of [items], [definitions] or [$defs] (lines
    261-269), an object under [additionalProperties] or [unevaluatedProperties]
    (lines 272-281), and an entry of [properties] or [patternProperties] (lines
    284-293). *)
Definition element_context (c : context) : context :=
  {| ctx_name := None; ctx_monospace := false; ctx_indent := ctx_indent c + 1;
     ctx_path := []; ctx_required := false |}.

Definition branch_context (c : context) : context :=
  {| ctx_name := None; ctx_monospace := false; ctx_indent := ctx_indent c + 2;
     ctx_path := []; ctx_required := false |}.

Definition keyword_context (property_name : string) (c : context) : context :=
  {| ctx_name := Some (capitalize property_name); ctx_monospace := false;
     ctx_indent := ctx_indent c + 1; ctx_path := []; ctx_required := false |}.

Definition extra_context (extra_props : string) (c : context) : context :=
  {| ctx_name := Some (capitalize extra_props ++ " properties");
     ctx_monospace := false; ctx_indent := ctx_indent c + 1; ctx_path := [];
     ctx_required := false |}.

Definition property_context (property_name : string) (required : bool)
  (c : context) : context :=
  {| ctx_name := Some property_name; ctx_monospace := true;
     ctx_indent := ctx_indent c + 1; ctx_path := []; ctx_required := required |}.

(** [calls v c x cx]: rendering [v] in context [c], the method calls itself on
    [x] in context [cx]. *)
Inductive calls : json -> context -> json -> context -> Prop :=
| calls_element (l : list json) (c : context) (x : json) :
    In x l -> calls (JArr l) c x (element_context c)
| calls_branch (d : dict) (c : context) (key : string) (children : json)
    (xs : list json) (x : json) :
    In key ["allOf"; "anyOf"; "oneOf"] -> get key d = Some children ->
    py_iter children = Ok xs -> In x xs ->
    calls (JObj d) c x (branch_context c)
| calls_keyword (d : dict) (c : context) (key : string) (sub : json) :
    In key ["items"; "definitions"; "$defs"] -> get key d = Some sub ->
    calls (JObj d) c sub (keyword_context key c)
| calls_extra (d : dict) (c : context) (extra_props : string) (sub : dict) :
    In extra_props ["additional"; "unevaluated"] ->
    get (extra_props ++ "Properties") d = Some (JObj sub) ->
    calls (JObj d) c (JObj sub) (extra_context extra_props c)
| calls_property (d : dict) (c : context) (key : string) (props : dict)
    (k : string) (x : json) (listed : bool) :
    In key ["properties"; "patternProperties"] -> get key d = Some (JObj props) ->
    In (k, x) props -> listed_as_required k d = Ok listed ->
    calls (JObj d) c x (property_context k listed c).

(** [visits v c x cx]: the traversal of [v] in context [c] reaches the node [x],
    be it [v] itself, and renders it in context [cx]. *)
Inductive visits : json -> context -> json -> context -> Prop :=
| visits_self (v : json) (c : context) : visits v c v c
| visits_child (v : json) (c : context) (v1 : json) (c1 : context)
    (x : json) (cx : context) :
    calls v c v1 c1 -> visits v1 c1 x cx -> visits v c x cx.

(** The own line of a node rendered in a context. *)
Definition own_line_in (v : json) (c : context) : option string :=
  own_line v (ctx_name c) (ctx_monospace c) (ctx_indent c) (ctx_path c)
           (ctx_required c).





(** [raises_at self x cx e]: rendering the node [x] in context [cx], the method
    raises [e] by itself, before or between the calls it makes on the children
    of [x]: its [TypeError] on a node that is neither an object nor a list, and
    on an object the exception of one of the operations it applies to the
    keywords (lines 211, 251, 286, 292 and 298). *)
Definition raises_at (self : Parser) (x : json) (cx : context) (e : exn) : Prop :=
  match x with
  | JArr _ => False
  | JObj d =>
      _construct_description_line d false = Raise e
      \/ (exists key children,
             In key ["allOf"; "anyOf"; "oneOf"] /\ get key d = Some children
             /\ py_iter children = Raise e)
      \/ (exists key props,
             In key ["properties"; "patternProperties"] /\ get key d = Some props
             /\ py_items props = Raise e)
      \/ (exists key props k v,
             In key ["properties"; "patternProperties"]
             /\ get key d = Some (JObj props) /\ In (k, v) props
             /\ listed_as_required k d = Raise e)
      \/ (mem (show_examples self) ["all"; "properties"] = true
          /\ exists examples,
              get "examples" d = Some examples /\ py_iter examples = Raise e)
  | _ => e = TypeError (non_object_message (ctx_name cx) x)
  end.

(** * Properties of the embedding *)

(** ** The append rule *)

Lemma last_line_snoc (acc : list string) (prev : string) :
  last_line (acc ++ [prev]) = Some prev.
Proof. unfold last_line. rewrite rev_app_distr. reflexivity. Qed.

Lemma take_eqb_prefix (p x : string) :
  String.eqb (take (String.length p) x) p = prefix p x.
Proof.
  revert x. induction p as [|a p IH]; intros x; simpl.
  - destruct x; reflexivity.
  - destruct x as [|b r]; simpl; [reflexivity|].
    destruct (ascii_dec a b) as [->|Hne].
    + rewrite Ascii.eqb_refl. apply IH.
    + apply not_eq_sym in Hne. apply Ascii.eqb_neq in Hne. rewrite Hne. reflexivity.
Qed.

(** The guard [not last[:2] not in ["- ", "* "]] of [append_line] holds exactly
    for a bullet item: [not] applies to the whole [not in] test. *)
Lemma bullet_test (s : string) :
  negb (not_in (take 2 (lstrip s)) ["- "; "* "]) = is_bullet s.
Proof.
  unfold not_in, mem, is_bullet, existsb. rewrite negb_involutive.
  pose proof (take_eqb_prefix "- " (lstrip s)) as H1.
  pose proof (take_eqb_prefix "* " (lstrip s)) as H2.
  cbn [String.length] in H1, H2. rewrite H1, H2, orb_false_r.
  reflexivity.
Qed.

(** C1 (as the code has it): appending [line] after a last line [prev] inserts
    exactly one blank line between the two when their leading-whitespace widths
    differ and [prev] IS a bullet item; when the widths are equal, or [prev] is
    not a bullet item, or nothing has been appended yet, no blank line is
    inserted. *)
Theorem append_line_blank_line_rule (line prev : string) (acc : list string) :
  append_line line [] = [line]
  /\ append_line line (acc ++ [prev])%list =
     if negb (indent_width prev =? indent_width line)%nat && is_bullet prev
     then (acc ++ [prev; nl; line])%list
     else (acc ++ [prev; line])%list.
Proof.
  split; [reflexivity|].
  unfold append_line. rewrite last_line_snoc, bullet_test.
  fold (indent_width prev) (indent_width line).
  destruct (negb (indent_width prev =? indent_width line)%nat && is_bullet prev);
    rewrite <- ?app_assoc; reflexivity.
Qed.

(** C1 as stated fails both ways: after a line that is not a bullet no blank line
    is inserted although the widths differ, and after a bullet one is. *)
Lemma append_line_plain_then_bullet :
  (indent_width ("text" ++ nl) <> indent_width ("  - item" ++ nl)
   /\ is_bullet ("text" ++ nl) = false
   /\ append_line ("  - item" ++ nl) ["text" ++ nl] = ["text" ++ nl; "  - item" ++ nl])
  /\ (indent_width ("- a" ++ nl) <> indent_width ("  - b" ++ nl)
      /\ is_bullet ("- a" ++ nl) = true
      /\ append_line ("  - b" ++ nl) ["- a" ++ nl] = ["- a" ++ nl; nl; "  - b" ++ nl]).
Proof. repeat split; try reflexivity; vm_compute; discriminate. Qed.

(** ** The constructor *)

Lemma lower_char_idem (c : ascii) : lower_char (lower_char c) = lower_char c.
Proof. destruct c as [[] [] [] [] [] [] [] []]; reflexivity. Qed.

Lemma lower_idem (s : string) : lower (lower s) = lower s.
Proof.
  unfold lower. induction s as [|c s IH]; simpl; [reflexivity|].
  rewrite lower_char_idem. f_equal. exact IH.
Qed.

(** C8 (as the code has it): construction fails with a [ValueError] whose
    message enumerates the valid set exactly when the LOWERCASED [show_examples]
    is outside {"all", "object", "properties"}; it succeeds whenever the
    lowercased value is in the set, in particular for every member of the set;
    and with [show_examples] left out the parser is built with "all". *)
Theorem init_validates_lowercased_show_examples
  (examples_as_yaml : option bool) (s : string) :
  (mem (lower s) valid_show_examples_options = false ->
   __init__ examples_as_yaml (Some s) =
   Raise (ValueError ("`show_examples` option should be one of "
                      ++ "`['all', 'object', 'properties']`; `"
                      ++ lower s ++ "` was passed.")))
  /\ (mem (lower s) valid_show_examples_options = true ->
      __init__ examples_as_yaml (Some s) =
      Ok {| examples_as_yaml := or_default examples_as_yaml false;
            show_examples := lower s |})
  /\ (In s valid_show_examples_options ->
      __init__ examples_as_yaml (Some s) =
      Ok {| examples_as_yaml := or_default examples_as_yaml false;
            show_examples := s |})
  /\ __init__ examples_as_yaml None =
     Ok {| examples_as_yaml := or_default examples_as_yaml false;
           show_examples := "all" |}.
Proof.
  repeat split.
  - intros H. unfold __init__, or_default. rewrite H. reflexivity.
  - intros H. unfold __init__, or_default. rewrite H. reflexivity.
  - intros H. simpl in H.
    destruct H as [<-|[<-|[<-|[]]]]; reflexivity.
Qed.

Lemma init_validates_lowercased_show_examples_witness :
  __init__ None (Some "nope") =
  Raise (ValueError ("`show_examples` option should be one of "
                     ++ "`['all', 'object', 'properties']`; `nope` was passed."))
  /\ __init__ None (Some "Object") =
     Ok {| examples_as_yaml := false; show_examples := "object" |}
  /\ __init__ (Some true) (Some "properties") =
     Ok {| examples_as_yaml := true; show_examples := "properties" |}.
Proof.
  split; [|split].
  - apply (proj1 (init_validates_lowercased_show_examples None "nope")). reflexivity.
  - apply (proj1 (proj2 (init_validates_lowercased_show_examples None "Object"))).
    reflexivity.
  - apply (proj1 (proj2 (proj2
             (init_validates_lowercased_show_examples (Some true) "properties")))).
    simpl. auto.
Defined.

(** C8 as stated fails: "ALL" is outside the valid set, yet construction
    succeeds. *)
Lemma init_accepts_uppercase_all :
  ~ In "ALL" valid_show_examples_options
  /\ __init__ None (Some "ALL") = Ok {| examples_as_yaml := false; show_examples := "all" |}.
Proof.
  split; [|reflexivity].
  simpl. intros [H|[H|[H|[]]]]; discriminate H.
Qed.

(** C10: [show_examples] is lowercased before it is validated: constructing with
    [s] is the same as constructing with its lowercase form, any [s] whose
    lowercase form is valid is accepted and stored lowercased, and the
    [ValueError] for an invalid [s] reports the lowercased input. *)
Theorem init_lowercases_show_examples (examples_as_yaml : option bool) (s : string) :
  __init__ examples_as_yaml (Some s) = __init__ examples_as_yaml (Some (lower s))
  /\ (mem (lower s) valid_show_examples_options = true ->
      exists self, __init__ examples_as_yaml (Some s) = Ok self
                   /\ show_examples self = lower s)
  /\ (mem (lower s) valid_show_examples_options = false ->
      exists msg, __init__ examples_as_yaml (Some s) = Raise (ValueError msg)
                  /\ msg = "`show_examples` option should be one of "
                           ++ "`['all', 'object', 'properties']`; `"
                           ++ lower s ++ "` was passed.").
Proof.
  split; [|split].
  - unfold __init__, or_default. rewrite lower_idem. reflexivity.
  - intros H. unfold __init__, or_default. rewrite H. eexists. split; reflexivity.
  - intros H. unfold __init__, or_default. rewrite H. eexists. split; reflexivity.
Qed.

Lemma init_lowercases_show_examples_witness :
  __init__ None (Some "ALL") = __init__ None (Some "all")
  /\ (exists self, __init__ None (Some "Object") = Ok self
                   /\ show_examples self = "object")
  /\ (exists msg, __init__ None (Some "Nope") = Raise (ValueError msg)
                  /\ msg = "`show_examples` option should be one of "
                           ++ "`['all', 'object', 'properties']`; `nope` was passed.").
Proof.
  split; [|split].
  - exact (proj1 (init_lowercases_show_examples None "ALL")).
  - apply (proj1 (proj2 (init_lowercases_show_examples None "Object"))). reflexivity.
  - apply (proj2 (proj2 (init_lowercases_show_examples None "Nope"))). reflexivity.
Defined.

(** ** Suffixes and path segments *)

Lemma append_nil_r (s : string) : s ++ "" = s.
Proof. induction s; simpl; congruence. Qed.

Lemma append_assoc (a b c : string) : (a ++ b) ++ c = a ++ b ++ c.
Proof. induction a; simpl; congruence. Qed.

Lemma length_append (a b : string) :
  String.length (a ++ b) = String.length a + String.length b.
Proof. induction a; simpl; congruence. Qed.

Lemma rev_append (a b : string) : PyStr.rev (a ++ b) = PyStr.rev b ++ PyStr.rev a.
Proof.
  induction a as [|c a IH]; simpl.
  - now rewrite append_nil_r.
  - now rewrite IH, append_assoc.
Qed.

Lemma rev_involutive (s : string) : PyStr.rev (PyStr.rev s) = s.
Proof.
  induction s as [|c s IH]; simpl; [reflexivity|].
  rewrite rev_append, IH. reflexivity.
Qed.

Lemma prefix_append (p s : string) :
  prefix p s = true <-> exists r, s = p ++ r.
Proof.
  revert s. induction p as [|a p IH]; intros s.
  - split; [intros _; now exists s | intros _; destruct s; reflexivity].
  - destruct s as [|b s].
    + split; [discriminate | intros [r H]; discriminate H].
    + change (prefix (String a p) (String b s))
        with (if ascii_dec a b then prefix p s else false).
      destruct (ascii_dec a b) as [->|Hne].
      * split.
        -- intros H. apply IH in H. destruct H as [r ->]. now exists r.
        -- intros [r H]. apply IH. exists r. simpl in H. congruence.
      * split; [discriminate | intros [r H]; simpl in H; congruence].
Qed.

Lemma take_append (a b : string) : take (String.length a) (a ++ b) = a.
Proof. induction a; simpl; [destruct b; reflexivity | congruence]. Qed.

Lemma endswith_append (suf s : string) :
  endswith suf s = true <-> exists x, s = x ++ suf.
Proof.
  unfold endswith. rewrite prefix_append. split.
  - intros [r H]. exists (PyStr.rev r).
    rewrite <- (rev_involutive s), H, rev_append, rev_involutive. reflexivity.
  - intros [x ->]. exists (PyStr.rev x). apply rev_append.
Qed.

Lemma drop_last_append (x suf : string) :
  drop_last (String.length suf) (x ++ suf) = x.
Proof.
  unfold drop_last. rewrite length_append.
  replace (String.length x + String.length suf - String.length suf)
    with (String.length x) by lia.
  apply take_append.
Qed.

Lemma has_char_append (c : ascii) (a b : string) :
  has_char c (a ++ b) = has_char c a || has_char c b.
Proof. induction a; simpl; [reflexivity|]. rewrite IHa. apply orb_assoc. Qed.

Lemma has_char_rev (c : ascii) (s : string) :
  has_char c (PyStr.rev s) = has_char c s.
Proof.
  induction s as [|a s IH]; simpl; [reflexivity|].
  rewrite has_char_append, IH. simpl. rewrite orb_false_r. apply orb_comm.
Qed.

Lemma until_slash_split (s : string) :
  has_char "/" (until_slash s) = false
  /\ exists rest, s = until_slash s ++ rest
                  /\ (rest = "" \/ exists r, rest = String "/" r).
Proof.
  induction s as [|c s [IH1 [rest [IH2 IH3]]]]; cbn [until_slash].
  - split; [reflexivity|]. exists "". auto.
  - destruct (Ascii.eqb c "/") eqn:E.
    + apply Ascii.eqb_eq in E. subst c. split; [reflexivity|].
      exists (String "/" s). split; [reflexivity|]. right. now exists s.
    + cbn [has_char]. rewrite Ascii.eqb_sym, E, IH1. split; [reflexivity|].
      exists rest. split; [cbn [String.append]; congruence | exact IH3].
Qed.

(** [basename p] is the final segment of [p]: it holds no slash, and what
    precedes it in [p] is empty or ends with a slash. *)
Lemma basename_final_segment (p : string) :
  has_char "/" (basename p) = false
  /\ exists dir, p = dir ++ basename p
                 /\ (dir = "" \/ exists d, dir = d ++ "/").
Proof.
  unfold basename.
  destruct (until_slash_split (PyStr.rev p)) as [H1 [rest [H2 H3]]].
  split; [now rewrite has_char_rev|].
  exists (PyStr.rev rest). split.
  - rewrite <- rev_append, <- H2, rev_involutive. reflexivity.
  - destruct H3 as [->|[r ->]]; [now left|].
    right. exists (PyStr.rev r). reflexivity.
Qed.

(** ** Description fragments *)

Lemma get_remove_neq (k k' : string) (d : dict) :
  String.eqb k k' = false -> get k (remove k' d) = get k d.
Proof.
  intros Hne. induction d as [|[k0 v] d IH]; simpl; [reflexivity|].
  destruct (String.eqb k' k0) eqn:E'.
  - apply String.eqb_eq in E'. subst k0. rewrite Hne. exact IH.
  - simpl. destruct (String.eqb k k0); [reflexivity|exact IH].
Qed.

Lemma get_remove_eq (k : string) (d : dict) : get k (remove k d) = None.
Proof.
  induction d as [|[k0 v] d IH]; simpl; [reflexivity|].
  destruct (String.eqb k k0) eqn:E; [exact IH|].
  simpl. rewrite E. exact IH.
Qed.

Lemma cdl_fragments (obj : dict) (add_type : bool) :
  _construct_description_line obj add_type =
  (d <- description_fragment obj ;;
   r <- ref_fragment obj ;;
   Ok ((d ++ type_fragment obj add_type
          ++ bound_fragment "minimum" "Minimum" obj
          ++ bound_fragment "exclusiveMinimum" "Exclusive minimum" obj
          ++ bound_fragment "maximum" "Maximum" obj
          ++ bound_fragment "exclusiveMaximum" "Exclusive maximum" obj)
       ++ length_fragment obj
       ++ (dumps_fragment "enum" "Must be one of" obj
           ++ dumps_fragment "const" "Must be" obj)
       ++ extra_props_fragment "additional" obj
       ++ extra_props_fragment "unevaluated" obj
       ++ r
       ++ dumps_fragment "default" "Default" obj)%list).
Proof.
  unfold _construct_description_line.
  destruct (description_fragment obj) as [d| |]; simpl; try reflexivity.
  destruct (ref_fragment obj) as [r| |]; simpl; try reflexivity.
  rewrite <- !app_assoc. reflexivity.
Qed.

Ltac frame_get :=
  unfold description_fragment, type_fragment, bound_fragment, dumps_fragment,
         extra_props_fragment, ref_fragment, length_fragment, contains;
  cbn [String.append];
  repeat (rewrite get_remove_eq || rewrite get_remove_neq by reflexivity);
  try reflexivity.

Ltac frame o' o :=
  repeat match goal with
  | |- context [description_fragment o'] =>
      replace (description_fragment o') with (description_fragment o) by frame_get
  | |- context [ref_fragment o'] =>
      replace (ref_fragment o') with (ref_fragment o) by frame_get
  | |- context [type_fragment o' ?t] =>
      replace (type_fragment o' t) with (type_fragment o t) by frame_get
  | |- context [bound_fragment ?k ?l o'] =>
      replace (bound_fragment k l o') with (bound_fragment k l o) by frame_get
  | |- context [dumps_fragment ?k ?l o'] =>
      replace (dumps_fragment k l o') with (dumps_fragment k l o) by frame_get
  | |- context [extra_props_fragment ?k o'] =>
      replace (extra_props_fragment k o') with (extra_props_fragment k o) by frame_get
  | |- context [length_fragment o'] =>
      replace (length_fragment o') with (length_fragment o) by frame_get
  end.

Lemma length_fragment_sentence (obj : dict) :
  length_fragment obj = length_sentence (get "minItems" obj) (get "maxItems" obj).
Proof.
  unfold length_fragment, length_sentence, contains.
  destruct (get "minItems" obj), (get "maxItems" obj); simpl; try reflexivity.
  destruct (py_eq j j0); reflexivity.
Qed.

(** C5: the fragments of a node are those of the node without [minItems] and
    [maxItems], with the length sentence inserted at one place: "at least N."
    for [minItems] alone, "at most N." for [maxItems] alone, "equal to N." when
    both are present and equal, "between MIN and MAX (inclusive)." when both are
    present and differ, each prefixed "Length must be ", and nothing when
    neither keyword is present. *)
Theorem length_sentence_once (obj : dict) (add_type : bool) (out : list string) :
  _construct_description_line obj add_type = Ok out ->
  exists pre post : list string,
    _construct_description_line (without_lengths obj) add_type = Ok (pre ++ post)%list
    /\ out = (pre ++ length_sentence (get "minItems" obj) (get "maxItems" obj)
                  ++ post)%list.
Proof.
  intros H. rewrite cdl_fragments in H. rewrite cdl_fragments.
  unfold without_lengths.
  frame (remove "minItems" (remove "maxItems" obj)) obj.
  replace (length_fragment (remove "minItems" (remove "maxItems" obj)))
    with (@nil string) by frame_get.
  destruct (description_fragment obj) as [d| |]; try discriminate H.
  destruct (ref_fragment obj) as [r| |]; try discriminate H.
  simpl in H. injection H as <-. simpl.
  rewrite <- length_fragment_sentence.
  eexists. eexists. split; reflexivity.
Qed.

Lemma length_sentence_once_witness :
  exists pre post : list string,
    _construct_description_line
      (without_lengths [("type", JStr "array"); ("minItems", JNum 2); ("maxItems", JNum 5)])
      true = Ok (pre ++ post)%list
    /\ ["Must be of type *array*."; "Length must be between 2 and 5 (inclusive)."]
       = (pre ++ length_sentence (Some (JNum 2)) (Some (JNum 5)) ++ post)%list.
Proof.
  apply (length_sentence_once
           [("type", JStr "array"); ("minItems", JNum 2); ("maxItems", JNum 5)] true).
  reflexivity.
Defined.

(** The three renderings the specification lists for the length sentence. *)
Example length_sentence_examples :
  _construct_description_line [("minItems", JNum 3); ("maxItems", JNum 3)] false
  = Ok ["Length must be equal to 3."]
  /\ _construct_description_line [("minItems", JNum 2); ("maxItems", JNum 5)] false
     = Ok ["Length must be between 2 and 5 (inclusive)."]
  /\ _construct_description_line [("minItems", JNum 2)] false
     = Ok ["Length must be at least 2."]
  /\ _construct_description_line [("maxItems", JNum 7)] false
     = Ok ["Length must be at most 7."].
Proof. repeat split. Qed.


(** C6: for a node whose [$ref] is the string [dest], the fragments are those of
    the node without [$ref] with exactly one fragment inserted,
    "Includes all of *[title](target.md)*.", where [stripped] is [dest] without
    a trailing ".json" (or [dest] itself when it has no such suffix), [title] is
    the final path segment of [stripped] and [target] is [stripped]
    percent-encoded. *)
Theorem ref_fragment_once (obj : dict) (add_type : bool) (dest : string)
  (out : list string) :
  get "$ref" obj = Some (JStr dest) ->
  _construct_description_line obj add_type = Ok out ->
  exists (stripped title dir : string) (pre post : list string),
    (dest = stripped ++ ".json"
     \/ (stripped = dest /\ forall x, dest <> x ++ ".json"))
    /\ (stripped = dir ++ title
        /\ has_char "/" title = false
        /\ (dir = "" \/ exists d, dir = d ++ "/"))
    /\ _construct_description_line (remove "$ref" obj) add_type = Ok (pre ++ post)%list
    /\ out = (pre ++ [("Includes all of *[" ++ title ++ "]("
                       ++ quote stripped ++ ".md)*.")%string] ++ post)%list.
Proof.
  intros Href H.
  set (stripped := if endswith ".json" dest then drop_last 5 dest else dest).
  exists stripped, (basename stripped).
  destruct (basename_final_segment stripped) as [Hno [dir [Hdir Hd]]].
  exists dir.
  rewrite cdl_fragments in H. rewrite cdl_fragments.
  frame (remove "$ref" obj) obj.
  replace (ref_fragment (remove "$ref" obj)) with (@Ok (list string) [])
    by frame_get.
  assert (Hr : ref_fragment obj =
               Ok ["Includes all of *[" ++ basename stripped ++ "]("
                   ++ quote stripped ++ ".md)*."]).
  { unfold ref_fragment. rewrite Href. reflexivity. }
  rewrite Hr in H.
  destruct (description_fragment obj) as [d| |]; try discriminate H.
  cbn [bind] in H. injection H as <-. cbn [bind].
  exists ((d ++ type_fragment obj add_type
             ++ bound_fragment "minimum" "Minimum" obj
             ++ bound_fragment "exclusiveMinimum" "Exclusive minimum" obj
             ++ bound_fragment "maximum" "Maximum" obj
             ++ bound_fragment "exclusiveMaximum" "Exclusive maximum" obj)
          ++ length_fragment obj
          ++ (dumps_fragment "enum" "Must be one of" obj
              ++ dumps_fragment "const" "Must be" obj)
          ++ extra_props_fragment "additional" obj
          ++ extra_props_fragment "unevaluated" obj)%list.
  exists (dumps_fragment "default" "Default" obj).
  split; [|split; [auto|split; [f_equal; rewrite <- !app_assoc; reflexivity|]]].
  - subst stripped. destruct (endswith ".json" dest) eqn:E.
    + left. apply endswith_append in E. destruct E as [x ->].
      f_equal. symmetry. exact (drop_last_append x ".json").
    + right. split; [reflexivity|]. intros x Hx.
      assert (endswith ".json" dest = true) by (apply endswith_append; now exists x).
      congruence.
  - rewrite <- !app_assoc. reflexivity.
Qed.

Lemma ref_fragment_once_witness :
  exists (stripped title dir : string) (pre post : list string),
    ("./common/address.json" = stripped ++ ".json"
     \/ (stripped = "./common/address.json"
         /\ forall x, "./common/address.json" <> x ++ ".json"))
    /\ (stripped = dir ++ title
        /\ has_char "/" title = false
        /\ (dir = "" \/ exists d, dir = d ++ "/"))
    /\ _construct_description_line
         (remove "$ref" [("$ref", JStr "./common/address.json")]) false
       = Ok (pre ++ post)%list
    /\ ["Includes all of *[address](./common/address.md)*."]
       = (pre ++ [("Includes all of *[" ++ title ++ "]("
                   ++ quote stripped ++ ".md)*.")%string] ++ post)%list.
Proof.
  apply (ref_fragment_once [("$ref", JStr "./common/address.json")] false
           "./common/address.json").
  - reflexivity.
  - reflexivity.
Defined.


Lemma extra_props_fragment_sentence (extra_props : string) (obj : dict) (v : json)
  (allowed : bool) :
  get (extra_props ++ "Properties") obj = Some v ->
  extra_props_policy v = Some allowed ->
  extra_props_fragment extra_props obj = [extra_props_sentence extra_props allowed].
Proof.
  intros H Hv. unfold extra_props_fragment, extra_props_sentence. rewrite H.
  destruct v as [| b | n | s | l |[|? ?]]; try discriminate Hv;
    injection Hv as <-; [destruct b|]; reflexivity.
Qed.

(** C3 (as the code has it): for a node on which [additionalProperties] (resp.
    [unevaluatedProperties]) is present as a boolean or as a non-empty object,
    the fragments are those of the node without the keyword with exactly one
    sentence inserted: "Can contain additional (resp. unevaluated) properties."
    when the value is true or a non-empty object, "Cannot contain ...
    properties." when it is false. *)
Theorem extra_props_sentence_once (extra_props : string) (obj : dict)
  (add_type : bool) (v : json) (allowed : bool) (out : list string) :
  In extra_props ["additional"; "unevaluated"] ->
  get (extra_props ++ "Properties") obj = Some v ->
  extra_props_policy v = Some allowed ->
  _construct_description_line obj add_type = Ok out ->
  exists pre post : list string,
    _construct_description_line (remove (extra_props ++ "Properties") obj) add_type
    = Ok (pre ++ post)%list
    /\ out = (pre ++ [extra_props_sentence extra_props allowed] ++ post)%list.
Proof.
  intros Hin Hget Hv H.
  pose proof (extra_props_fragment_sentence extra_props obj v allowed Hget Hv) as Hs.
  rewrite cdl_fragments in H. rewrite cdl_fragments.
  destruct Hin as [<-|[<-|[]]]; cbn [String.append] in *.
  - frame (remove "additionalProperties" obj) obj.
    replace (extra_props_fragment "additional" (remove "additionalProperties" obj))
      with (@nil string) by frame_get.
    destruct (description_fragment obj) as [d| |]; try discriminate H.
    destruct (ref_fragment obj) as [r| |]; try discriminate H.
    cbn [bind] in H. injection H as <-. cbn [bind]. rewrite Hs.
    exists ((d ++ type_fragment obj add_type
               ++ bound_fragment "minimum" "Minimum" obj
               ++ bound_fragment "exclusiveMinimum" "Exclusive minimum" obj
               ++ bound_fragment "maximum" "Maximum" obj
               ++ bound_fragment "exclusiveMaximum" "Exclusive maximum" obj)
            ++ length_fragment obj
            ++ (dumps_fragment "enum" "Must be one of" obj
                ++ dumps_fragment "const" "Must be" obj))%list.
    exists (extra_props_fragment "unevaluated" obj ++ r
            ++ dumps_fragment "default" "Default" obj)%list.
    split; [f_equal|]; rewrite <- !app_assoc; reflexivity.
  - frame (remove "unevaluatedProperties" obj) obj.
    replace (extra_props_fragment "unevaluated" (remove "unevaluatedProperties" obj))
      with (@nil string) by frame_get.
    destruct (description_fragment obj) as [d| |]; try discriminate H.
    destruct (ref_fragment obj) as [r| |]; try discriminate H.
    cbn [bind] in H. injection H as <-. cbn [bind]. rewrite Hs.
    exists ((d ++ type_fragment obj add_type
               ++ bound_fragment "minimum" "Minimum" obj
               ++ bound_fragment "exclusiveMinimum" "Exclusive minimum" obj
               ++ bound_fragment "maximum" "Maximum" obj
               ++ bound_fragment "exclusiveMaximum" "Exclusive maximum" obj)
            ++ length_fragment obj
            ++ (dumps_fragment "enum" "Must be one of" obj
                ++ dumps_fragment "const" "Must be" obj)
            ++ extra_props_fragment "additional" obj)%list.
    exists (r ++ dumps_fragment "default" "Default" obj)%list.
    split; [f_equal|]; rewrite <- !app_assoc; reflexivity.
Qed.

Lemma extra_props_sentence_once_witness :
  (exists pre post : list string,
      _construct_description_line
        (remove "additionalProperties"
                [("description", JStr "Free-form");
                 ("additionalProperties", JBool false)])
        false = Ok (pre ++ post)%list
      /\ ["Free-form."; "Cannot contain additional properties."]
         = (pre ++ [extra_props_sentence "additional" false] ++ post)%list)
  /\ (exists pre post : list string,
         _construct_description_line
           (remove "unevaluatedProperties"
                   [("unevaluatedProperties", JObj [("type", JStr "string")]);
                    ("default", JNum 1)])
           false = Ok (pre ++ post)%list
         /\ ["Can contain unevaluated properties."; "Default: `1`."]
            = (pre ++ [extra_props_sentence "unevaluated" true] ++ post)%list).
Proof.
  split.
  - apply (extra_props_sentence_once "additional"
             [("description", JStr "Free-form"); ("additionalProperties", JBool false)]
             false (JBool false) false).
    + simpl. auto.
    + reflexivity.
    + reflexivity.
    + reflexivity.
  - apply (extra_props_sentence_once "unevaluated"
             [("unevaluatedProperties", JObj [("type", JStr "string")]);
              ("default", JNum 1)]
             false (JObj [("type", JStr "string")]) true).
    + simpl. auto.
    + reflexivity.
    + reflexivity.
    + reflexivity.
Defined.

(** C3 as stated fails: a keyword present as an object does yield a sentence. *)
Lemma extra_props_object_gets_sentence :
  _construct_description_line
    [("additionalProperties", JObj [("type", JStr "string")])] false
  = Ok ["Can contain additional properties."]
  /\ _construct_description_line
       [("unevaluatedProperties", JObj [("type", JStr "string")])] false
     = Ok ["Can contain unevaluated properties."].
Proof. split; reflexivity. Qed.

(** The empty object is a case of its own: lines 106-110 read it as false and
    say that the node cannot contain additional properties, while lines 274-281
    go on to render it as the node's "Additional properties" child. *)
Example extra_props_empty_object_is_read_as_false :
  _construct_description_line [("additionalProperties", JObj [])] false
  = Ok ["Cannot contain additional properties."]
  /\ _parse_object yaml_unused 3 default_parser
       (JObj [("additionalProperties", JObj [])]) (Some "o") true [] 0 [] false
     = Ok ["- **`o`**Cannot contain additional properties." ++ nl; nl;
           "  - **Additional properties**" ++ nl].
Proof. split; reflexivity. Qed.

(** ** Results and loops *)

Lemma bind_ok {A B : Type} (m : res A) (k : A -> res B) (b : B) :
  bind m k = Ok b -> exists a, m = Ok a /\ k a = Ok b.
Proof. destruct m as [a| |]; simpl; [eauto | discriminate | discriminate]. Qed.

Lemma bind_raise {A B : Type} (m : res A) (k : A -> res B) (e : exn) :
  bind m k = Raise e -> m = Raise e \/ exists a, m = Ok a /\ k a = Raise e.
Proof. destruct m as [a| |]; simpl; [eauto | intros [= ->]; auto | discriminate]. Qed.

Lemma bind_timeout {A B : Type} (m : res A) (k : A -> res B) :
  bind m k = Timeout -> m = Timeout \/ exists a, m = Ok a /\ k a = Timeout.
Proof. destruct m as [a| |]; simpl; [eauto | discriminate | auto]. Qed.

Lemma for_each_raise {A St : Type} (l : list A) (body : A -> St -> res St) (e : exn) :
  forall s, for_each l s body = Raise e ->
            exists x s1, In x l /\ body x s1 = Raise e.
Proof.
  induction l as [|x l IH]; intros s H; simpl in H; [discriminate H|].
  apply bind_raise in H. destruct H as [H|[s1 [_ H]]].
  - exists x, s. split; [now left | exact H].
  - destruct (IH _ H) as [y [s2 [Hy H2]]]. exists y, s2. split; [now right | exact H2].
Qed.

Lemma for_each_timeout {A St : Type} (l : list A) (body : A -> St -> res St) :
  forall s, for_each l s body = Timeout ->
            exists x s1, In x l /\ body x s1 = Timeout.
Proof.
  induction l as [|x l IH]; intros s H; simpl in H; [discriminate H|].
  apply bind_timeout in H. destruct H as [H|[s1 [_ H]]].
  - exists x, s. split; [now left | exact H].
  - destruct (IH _ H) as [y [s2 [Hy H2]]]. exists y, s2. split; [now right | exact H2].
Qed.

Lemma for_each_app {A St : Type} (l1 l2 : list A) (body : A -> St -> res St) (s : St) :
  for_each (l1 ++ l2) s body = (s1 <- for_each l1 s body ;; for_each l2 s1 body).
Proof.
  revert s. induction l1 as [|x l1 IH]; intros s; simpl; [reflexivity|].
  destruct (body x s) as [s1| |]; simpl; [apply IH | reflexivity | reflexivity].
Qed.

(** ** Output that only grows *)

Section Extends.

Variable P : string -> Prop.

Lemma extends_refl (lines : list string) : extends P lines lines.
Proof. exists []. split; [now rewrite app_nil_r | constructor]. Qed.

Lemma extends_trans (a b c : list string) :
  extends P a b -> extends P b c -> extends P a c.
Proof.
  intros [s1 [-> H1]] [s2 [-> H2]]. exists (s1 ++ s2)%list.
  split; [now rewrite app_assoc | now apply Forall_app].
Qed.

Lemma extends_app (lines more : list string) :
  Forall P more -> extends P lines (lines ++ more).
Proof. intros H. now exists more. Qed.

Lemma extends_In (lines out : list string) (x : string) :
  extends P lines out -> In x lines -> In x out.
Proof. intros [s [-> _]] H. apply in_or_app. now left. Qed.

Lemma extends_append_line (line : string) (lines : list string) :
  P nl -> P line -> extends P lines (append_line line lines).
Proof.
  intros Hnl Hline. unfold append_line.
  destruct (last_line lines) as [last|].
  - destruct (_ && _).
    + rewrite <- app_assoc. apply extends_app. repeat constructor; assumption.
    + apply extends_app. repeat constructor; assumption.
  - apply extends_app. repeat constructor; assumption.
Qed.

Lemma for_each_extends {A : Type} (l : list A)
  (body : A -> list string -> res (list string)) :
  (forall x s s', In x l -> body x s = Ok s' -> extends P s s') ->
  forall s s', for_each l s body = Ok s' -> extends P s s'.
Proof.
  induction l as [|x l IH]; intros Hbody s s' H; simpl in H.
  - injection H as <-. apply extends_refl.
  - apply bind_ok in H. destruct H as [s1 [H1 H2]].
    apply extends_trans with s1.
    + apply (Hbody x); [now left | exact H1].
    + apply IH; [|exact H2]. intros y t t' Hy. apply Hbody. now right.
Qed.

(** The iteration for a given element of the list took place, and what it
    returned is kept. *)
Lemma for_each_In {A : Type} (l : list A)
  (body : A -> list string -> res (list string)) (x : A) :
  (forall y s s', In y l -> body y s = Ok s' -> extends P s s') ->
  In x l ->
  forall s s', for_each l s body = Ok s' ->
               exists s1 s2, body x s1 = Ok s2 /\ extends P s s1 /\ extends P s2 s'.
Proof.
  intros Hbody Hin s s' H.
  apply in_split in Hin. destruct Hin as [l1 [l2 ->]].
  rewrite for_each_app in H. apply bind_ok in H. destruct H as [s1 [H1 H2]].
  simpl in H2. apply bind_ok in H2. destruct H2 as [s2 [Hx H2]].
  exists s1, s2. split; [exact Hx|]. split.
  - eapply for_each_extends; [|exact H1]. intros y t t' Hy. apply Hbody.
    apply in_or_app. now left.
  - eapply for_each_extends; [|exact H2]. intros y t t' Hy. apply Hbody.
    apply in_or_app. right. now right.
Qed.

End Extends.

Lemma extends_weaken (P Q : string -> Prop) (a b : list string) :
  (forall x, P x -> Q x) -> extends P a b -> extends Q a b.
Proof.
  intros HPQ [s [-> H]]. exists s. split; [reflexivity|].
  eapply Forall_impl; [exact HPQ | exact H].
Qed.

Lemma In_append_line (line : string) (lines : list string) :
  In line (append_line line lines).
Proof.
  unfold append_line. destruct (last_line lines); [destruct (_ && _)|];
    apply in_or_app; right; now left.
Qed.

Lemma full_line_is_bullet (obj : dict) (name : option string) (name_monospace : bool)
  (indent_level : nat) (path : list string) (required : bool)
  (description_line_base : list string) :
  walker_line (full_line obj name name_monospace indent_level path required
                         description_line_base).
Proof.
  unfold full_line.
  match goal with
  | |- context [let (_, _) := ?X in _] => destruct X as [obj_type name_formatted]
  end.
  apply bullet_line.
Qed.

Ltac after_append_line :=
  match goal with
  | |- extends _ ?pl _ =>
      match goal with
      | H : context [append_line ?line pl] |- _ =>
          apply extends_trans with (append_line line pl);
          [apply extends_append_line;
           [apply blank_line | first [apply bullet_line | apply full_line_is_bullet]]|]
      end
  end.

Section BlocksExtend.

Variable parse :
  json -> option string -> bool -> list string -> nat -> list string -> bool ->
  res (list string).

Hypothesis parse_extends :
  forall obj name name_monospace parsed_lines indent_level path required out,
    parse obj name name_monospace parsed_lines indent_level path required = Ok out ->
    extends walker_line parsed_lines out.

Lemma parse_composition_extends (obj : dict) (parsed_lines : list string)
  (indent_level : nat) (out : list string) :
  parse_composition parse obj parsed_lines indent_level = Ok out ->
  extends walker_line parsed_lines out.
Proof.
  unfold parse_composition. apply for_each_extends.
  intros [key label] s s' _ Hx. cbn beta iota zeta in Hx.
  destruct (get key obj) as [children|].
  - apply bind_ok in Hx. destruct Hx as [xs [_ Hx]].
    after_append_line.
    eapply for_each_extends; [|exact Hx].
    intros x t t' _ Ht. exact (parse_extends _ _ _ _ _ _ _ _ Ht).
  - injection Hx as <-. apply extends_refl.
Qed.

Lemma parse_items_and_definitions_extends (obj : dict) (parsed_lines : list string)
  (indent_level : nat) (out : list string) :
  parse_items_and_definitions parse obj parsed_lines indent_level = Ok out ->
  extends walker_line parsed_lines out.
Proof.
  unfold parse_items_and_definitions. apply for_each_extends.
  intros key s s' _ Hx. cbn beta in Hx.
  destruct (get key obj) as [sub|].
  - exact (parse_extends _ _ _ _ _ _ _ _ Hx).
  - injection Hx as <-. apply extends_refl.
Qed.

Lemma parse_extra_properties_extends (obj : dict) (parsed_lines : list string)
  (indent_level : nat) (out : list string) :
  parse_extra_properties parse obj parsed_lines indent_level = Ok out ->
  extends walker_line parsed_lines out.
Proof.
  unfold parse_extra_properties. apply for_each_extends.
  intros key s s' _ Hx. cbn beta zeta in Hx.
  destruct (get (key ++ "Properties") obj) as [[| | | | |sub]|];
    try (injection Hx as <-; apply extends_refl).
  exact (parse_extends _ _ _ _ _ _ _ _ Hx).
Qed.

Lemma parse_property_extends (obj : dict) (indent_level : nat)
  (item : string * json) (s s' : list string) :
  (let (property_name, property_obj) := item in
   required <- listed_as_required property_name obj ;;
   parse property_obj (Some property_name) true s (indent_level + 1) [] required)
  = Ok s' ->
  extends walker_line s s'.
Proof.
  destruct item as [k x]. intros H.
  apply bind_ok in H. destruct H as [r [_ H]].
  exact (parse_extends _ _ _ _ _ _ _ _ H).
Qed.

Lemma parse_child_properties_extends (obj : dict) (parsed_lines : list string)
  (indent_level : nat) (out : list string) :
  parse_child_properties parse obj parsed_lines indent_level = Ok out ->
  extends walker_line parsed_lines out.
Proof.
  unfold parse_child_properties. apply for_each_extends.
  intros key s s' _ Hx. cbn beta in Hx.
  destruct (get key obj) as [props|].
  - apply bind_ok in Hx. destruct Hx as [items [_ Hx]].
    eapply for_each_extends; [|exact Hx].
    intros item t t' _. apply parse_property_extends.
  - injection Hx as <-. apply extends_refl.
Qed.

(** The call for the key [k] of a [properties] or [patternProperties] mapping
    took place, with the [required] flag read off the node's own [required]
    entry, and its output is kept. *)
Lemma parse_child_properties_In (obj : dict) (parsed_lines : list string)
  (indent_level : nat) (out : list string) (key : string) (props : dict)
  (k : string) (x : json) :
  parse_child_properties parse obj parsed_lines indent_level = Ok out ->
  In key ["properties"; "patternProperties"] ->
  get key obj = Some (JObj props) ->
  In (k, x) props ->
  exists (required : bool) (s1 s2 : list string),
    listed_as_required k obj = Ok required
    /\ parse x (Some k) true s1 (indent_level + 1) [] required = Ok s2
    /\ extends walker_line s2 out.
Proof.
  unfold parse_child_properties. intros H Hkey Hget Hin.
  eapply (for_each_In walker_line) in H; [|clear H|exact Hkey].
  - destruct H as [s1 [s2 [H [_ H2]]]]. cbn beta in H. rewrite Hget in H.
    cbn [py_items bind] in H.
    eapply (for_each_In walker_line) in H; [|clear H|exact Hin].
    + destruct H as [t1 [t2 [H [_ H3]]]]. cbn beta iota in H.
      apply bind_ok in H. destruct H as [r [Hr H]].
      exists r, t1, t2. split; [exact Hr|]. split; [exact H|].
      now apply extends_trans with s2.
    + intros item t t' _. apply parse_property_extends.
  - intros key' s s' _ Hx. cbn beta in Hx.
    destruct (get key' obj) as [props'|].
    + apply bind_ok in Hx. destruct Hx as [items [_ Hx]].
      eapply for_each_extends; [|exact Hx].
      intros item t t' _. apply parse_property_extends.
    + injection Hx as <-. apply extends_refl.
Qed.

End BlocksExtend.

Lemma construct_examples_Forall (yaml_dump : json -> string) (Q : string -> Prop)
  (self : Parser) (obj : dict) (indent_level : nat) (add_header : bool)
  (lines : list string) :
  Q (nl ++ spaces (tab_size * indent_level) ++ "Examples:" ++ nl) ->
  (forall lang body, Q (example_block (spaces (tab_size * indent_level)) lang body)) ->
  _construct_examples yaml_dump self obj indent_level add_header = Ok lines ->
  Forall Q lines.
Proof.
  intros Hh Hb. unfold _construct_examples.
  destruct (get "examples" obj) as [v|]; [|intros [= <-]; constructor].
  intros H. apply bind_ok in H. destruct H as [xs [_ H]]. injection H as <-.
  set (start := if add_header then _ else _).
  assert (Hstart : Forall Q start).
  { subst start. destruct add_header; repeat constructor. exact Hh. }
  revert Hstart. generalize start. clear start.
  induction xs as [|x xs IH]; intros start Hstart; cbn [fold_left]; [exact Hstart|].
  apply IH. destruct (examples_as_yaml self);
    (apply Forall_app; split; [exact Hstart|]); repeat constructor; apply Hb.
Qed.

Section Lines.

Variable yaml_dump : json -> string.

Lemma construct_examples_lines (self : Parser) (obj : dict) (indent_level : nat)
  (add_header : bool) (lines : list string) :
  _construct_examples yaml_dump self obj indent_level add_header = Ok lines ->
  Forall walker_line lines.
Proof.
  unfold _construct_examples. destruct (get "examples" obj) as [examples|].
  - intros H. apply bind_ok in H. destruct H as [l [_ H]]. injection H as <-.
    set (start := if add_header then _ else _).
    assert (Hstart : Forall walker_line start).
    { subst start. destruct add_header; [|constructor].
      constructor; [apply examples_header | constructor]. }
    revert Hstart. generalize start. clear start.
    induction l as [|x l IH]; intros start Hstart; cbn [fold_left]; [exact Hstart|].
    apply IH. destruct (examples_as_yaml self);
      (apply Forall_app; split; [exact Hstart|]);
      constructor; [apply fence_line | constructor | apply fence_line | constructor].
  - intros [= <-]. constructor.
Qed.

Lemma add_examples_extends (self : Parser) (obj : dict) (parsed_lines : list string)
  (indent_level : nat) (out : list string) :
  add_examples yaml_dump self obj parsed_lines indent_level = Ok out ->
  extends walker_line parsed_lines out.
Proof.
  unfold add_examples. destruct (mem (show_examples self) ["all"; "properties"]).
  - intros H. apply bind_ok in H. destruct H as [ex [Hex H]]. injection H as <-.
    apply extends_app. exact (construct_examples_lines _ _ _ _ _ Hex).
  - intros [= <-]. apply extends_refl.
Qed.

(** One unfolding of the method on an object node. *)
Lemma parse_object_dict (fuel : nat) (self : Parser) (obj : dict)
  (name : option string) (name_monospace : bool) (parsed_lines : list string)
  (indent_level : nat) (path : list string) (required : bool) :
  _parse_object yaml_dump (S fuel) self (JObj obj) name name_monospace parsed_lines
                indent_level path required =
  (description_line_base <- _construct_description_line obj false ;;
   parsed_lines <-
     parse_composition (_parse_object yaml_dump fuel self) obj
       (append_line (full_line obj name name_monospace indent_level path required
                               description_line_base) parsed_lines)
       indent_level ;;
   parsed_lines <-
     parse_items_and_definitions (_parse_object yaml_dump fuel self) obj
       parsed_lines indent_level ;;
   parsed_lines <-
     parse_extra_properties (_parse_object yaml_dump fuel self) obj
       parsed_lines indent_level ;;
   parsed_lines <-
     parse_child_properties (_parse_object yaml_dump fuel self) obj
       parsed_lines indent_level ;;
   add_examples yaml_dump self obj parsed_lines indent_level).
Proof. reflexivity. Qed.

(** One unfolding of the method on a list node. *)
Lemma parse_object_list (fuel : nat) (self : Parser) (elements : list json)
  (name : option string) (name_monospace : bool) (parsed_lines : list string)
  (indent_level : nat) (path : list string) (required : bool) :
  _parse_object yaml_dump (S fuel) self (JArr elements) name name_monospace
                parsed_lines indent_level path required =
  for_each elements
    (append_line (spaces (tab_size * indent_level)
                  ++ "- **" ++ str_opt name ++ "**:" ++ nl) parsed_lines)
    (fun element parsed_lines =>
       _parse_object yaml_dump fuel self element None false parsed_lines
                     (indent_level + 1) [] false).
Proof. reflexivity. Qed.

(** What an object node appends after its own line. *)
Lemma parse_object_dict_extends (fuel : nat) (self : Parser) (obj : dict)
  (name : option string) (name_monospace : bool) (parsed_lines : list string)
  (indent_level : nat) (path : list string) (required : bool) (out : list string) :
  (forall obj name name_monospace parsed_lines indent_level path required out,
      _parse_object yaml_dump fuel self obj name name_monospace parsed_lines
                    indent_level path required = Ok out ->
      extends walker_line parsed_lines out) ->
  _parse_object yaml_dump (S fuel) self (JObj obj) name name_monospace parsed_lines
                indent_level path required = Ok out ->
  exists description_line_base,
    _construct_description_line obj false = Ok description_line_base
    /\ extends walker_line
         (append_line (full_line obj name name_monospace indent_level path required
                                 description_line_base) parsed_lines)
         out.
Proof.
  intros IH H. rewrite parse_object_dict in H.
  apply bind_ok in H. destruct H as [base [Hbase H]].
  apply bind_ok in H. destruct H as [pl1 [H1 H]].
  apply bind_ok in H. destruct H as [pl2 [H2 H]].
  apply bind_ok in H. destruct H as [pl3 [H3 H]].
  apply bind_ok in H. destruct H as [pl4 [H4 H]].
  exists base. split; [exact Hbase|].
  apply extends_trans with pl1; [exact (parse_composition_extends _ IH _ _ _ _ H1)|].
  apply extends_trans with pl2;
    [exact (parse_items_and_definitions_extends _ IH _ _ _ _ H2)|].
  apply extends_trans with pl3; [exact (parse_extra_properties_extends _ IH _ _ _ _ H3)|].
  apply extends_trans with pl4; [exact (parse_child_properties_extends _ IH _ _ _ _ H4)|].
  exact (add_examples_extends _ _ _ _ _ H).
Qed.

(** The method only appends to [parsed_lines], and every line it appends is a
    blank line, a bullet line or a line of an examples block. *)
Lemma parse_object_extends (fuel : nat) (self : Parser) :
  forall (obj : json) (name : option string) (name_monospace : bool)
         (parsed_lines : list string) (indent_level : nat) (path : list string)
         (required : bool) (out : list string),
    _parse_object yaml_dump fuel self obj name name_monospace parsed_lines
                  indent_level path required = Ok out ->
    extends walker_line parsed_lines out.
Proof.
  induction fuel as [|fuel IH]; intros obj name mono pl indent path req out H;
    [discriminate H|].
  destruct obj as [| | | |elements|obj]; try discriminate H.
  - rewrite parse_object_list in H. after_append_line.
    eapply for_each_extends; [|exact H].
    intros x s s' _ Hx. exact (IH _ _ _ _ _ _ _ _ Hx).
  - apply (parse_object_dict_extends _ _ _ _ _ _ _ _ _ _ IH) in H.
    destruct H as [base [_ H]].
    eapply extends_trans; [|exact H].
    apply extends_append_line; [apply blank_line | apply full_line_is_bullet].
Qed.

End Lines.

(** ** Where an exception comes from *)

Lemma construct_description_line_raise (obj : dict) (add_type : bool) (e : exn) :
  _construct_description_line obj add_type = Raise e -> builtin e.
Proof.
  rewrite cdl_fragments. unfold description_fragment, ref_fragment, builtin.
  destruct (get "description" obj) as [[]|]; destruct (get "$ref" obj) as [[]|];
    simpl; intros [= <-]; auto.
Qed.

Lemma py_iter_raise (v : json) (e : exn) : py_iter v = Raise e -> builtin e.
Proof. unfold builtin. destruct v; simpl; intros [= <-]; auto. Qed.

Lemma py_items_raise (v : json) (e : exn) : py_items v = Raise e -> builtin e.
Proof. unfold builtin. destruct v; simpl; intros [= <-]; auto. Qed.

Lemma py_contains_raise (x : string) (v : json) (e : exn) :
  py_contains x v = Raise e -> builtin e.
Proof. unfold builtin. destruct v; simpl; intros [= <-]; auto. Qed.

Lemma py_getitem_raise (v : json) (k : string) (e : exn) :
  py_getitem v k = Raise e -> builtin e.
Proof.
  unfold builtin. destruct v; simpl; try (intros [= <-]; auto).
  destruct (get k d); intros [= <-]; auto.
Qed.

Lemma builtin_not_type_error (m : string) : ~ builtin (TypeError m).
Proof. intros [H|[H|H]]; discriminate H. Qed.

Section Errors.

Variable yaml_dump : json -> string.

Lemma construct_examples_raise (self : Parser) (obj : dict) (indent_level : nat)
  (add_header : bool) (e : exn) :
  _construct_examples yaml_dump self obj indent_level add_header = Raise e ->
  builtin e.
Proof.
  unfold _construct_examples. destruct (get "examples" obj) as [examples|];
    [|discriminate].
  intros H. apply bind_raise in H. destruct H as [H|[l [_ H]]]; [|discriminate H].
  exact (py_iter_raise _ _ H).
Qed.

Ltac not_builtin H :=
  exfalso; apply (builtin_not_type_error _ H).

End Errors.

(** ** Enough fuel gives a result *)

Lemma list_max_In {A : Type} (f : A -> nat) (l : list A) (x : A) :
  In x l -> f x <= list_max (map f l).
Proof.
  induction l as [|y l IH]; intros H; [destruct H|].
  simpl. destruct H as [->|H]; [lia | specialize (IH H); lia].
Qed.

Lemma depth_element (l : list json) (x : json) : In x l -> depth x < depth (JArr l).
Proof. intros H. simpl. apply (list_max_In depth) in H. lia. Qed.

Lemma depth_item (d : dict) (k : string) (x : json) :
  In (k, x) d -> depth x < depth (JObj d).
Proof.
  intros H. simpl.
  apply (list_max_In (fun kv : string * json => depth (snd kv))) in H.
  simpl in H. lia.
Qed.

Lemma get_In (k : string) (d : dict) (v : json) : get k d = Some v -> In (k, v) d.
Proof.
  induction d as [|[k' x] d IH]; simpl; [discriminate|].
  destruct (String.eqb k k') eqn:E.
  - apply String.eqb_eq in E. intros [= ->]. left. congruence.
  - intros H. right. exact (IH H).
Qed.

Lemma depth_get (d : dict) (k : string) (v : json) :
  get k d = Some v -> depth v < depth (JObj d).
Proof. intros H. apply (depth_item d k). exact (get_In _ _ _ H). Qed.

Lemma depth_iter (c : json) (xs : list json) (x : json) :
  py_iter c = Ok xs -> In x xs -> depth x < depth c \/ depth x = 0.
Proof.
  destruct c as [| | |s|l|d]; simpl; try discriminate; intros [= <-] H.
  - right. apply in_map_iff in H. destruct H as [? [<- _]]. reflexivity.
  - left. apply (list_max_In depth) in H. lia.
  - right. apply in_map_iff in H. destruct H as [? [<- _]]. reflexivity.
Qed.

Lemma construct_description_line_returns (obj : dict) (add_type : bool) :
  _construct_description_line obj add_type <> Timeout.
Proof.
  rewrite cdl_fragments. unfold description_fragment, ref_fragment.
  destruct (get "description" obj) as [[]|]; destruct (get "$ref" obj) as [[]|];
    simpl; discriminate.
Qed.

Lemma py_iter_returns (v : json) : py_iter v <> Timeout.
Proof. destruct v; discriminate. Qed.

Lemma py_items_returns (v : json) : py_items v <> Timeout.
Proof. destruct v; discriminate. Qed.

Lemma py_contains_returns (x : string) (v : json) : py_contains x v <> Timeout.
Proof. destruct v; discriminate. Qed.

Lemma py_getitem_returns (v : json) (k : string) : py_getitem v k <> Timeout.
Proof. destruct v; simpl; try discriminate. destruct (get k d); discriminate. Qed.

Section Fuel.

Variable yaml_dump : json -> string.

Lemma construct_examples_returns (self : Parser) (obj : dict) (indent_level : nat)
  (add_header : bool) :
  _construct_examples yaml_dump self obj indent_level add_header <> Timeout.
Proof.
  unfold _construct_examples. destruct (get "examples" obj) as [examples|];
    [|discriminate].
  intros H. apply bind_timeout in H. destruct H as [H|[l [_ H]]]; [|discriminate H].
  exact (py_iter_returns _ H).
Qed.

Theorem parse_object_returns (fuel : nat) (self : Parser) :
  forall (obj : json) (name : option string) (name_monospace : bool)
         (parsed_lines : list string) (indent_level : nat) (path : list string)
         (required : bool),
    depth obj < fuel ->
    _parse_object yaml_dump fuel self obj name name_monospace parsed_lines
                  indent_level path required <> Timeout.
Proof.
  induction fuel as [|fuel IH]; intros obj name mono pl indent path req Hd H;
    [lia|].
  cbn [_parse_object] in H.
  unfold parse_composition, parse_items_and_definitions, parse_extra_properties,
         parse_child_properties, add_examples, listed_as_required in H.
  destruct obj as [| | | |elements|obj]; try discriminate H.
  - apply for_each_timeout in H. destruct H as [x [s [Hin H]]]. cbn beta in H.
    apply IH in H; [exact H|]. apply depth_element in Hin. lia.
  - apply bind_timeout in H. destruct H as [H|[base [_ H]]].
    { exact (construct_description_line_returns _ _ H). }
    apply bind_timeout in H. destruct H as [H|[pl1 [_ H]]].
    { apply for_each_timeout in H. destruct H as [[key label] [s [Hin H]]].
      cbn beta iota in H. destruct (get key obj) as [children|] eqn:Hget;
        [|discriminate H].
      apply bind_timeout in H. destruct H as [H|[xs [Hxs H]]].
      { exact (py_iter_returns _ H). }
      apply for_each_timeout in H. destruct H as [x [t [Hx H]]]. cbn beta in H.
      apply IH in H; [exact H|].
      apply depth_get in Hget. destruct (depth_iter _ _ _ Hxs Hx); lia. }
    apply bind_timeout in H. destruct H as [H|[pl2 [_ H]]].
    { apply for_each_timeout in H. destruct H as [key [s [Hin H]]].
      cbn beta in H. destruct (get key obj) as [sub|] eqn:Hget; [|discriminate H].
      apply IH in H; [exact H|]. apply depth_get in Hget. lia. }
    apply bind_timeout in H. destruct H as [H|[pl3 [_ H]]].
    { apply for_each_timeout in H. destruct H as [key [s [Hin H]]].
      cbn beta zeta in H.
      destruct (get (key ++ "Properties") obj) as [[| | | | |sub]|] eqn:Hget;
        try discriminate H.
      apply IH in H; [exact H|]. apply depth_get in Hget. lia. }
    apply bind_timeout in H. destruct H as [H|[pl4 [_ H]]].
    { apply for_each_timeout in H. destruct H as [key [s [Hin H]]].
      cbn beta in H. destruct (get key obj) as [props|] eqn:Hget; [|discriminate H].
      apply bind_timeout in H. destruct H as [H|[items [Hitems H]]].
      { exact (py_items_returns _ H). }
      destruct props as [| | | | |props]; try discriminate Hitems.
      injection Hitems as <-.
      apply for_each_timeout in H. destruct H as [[k x] [t [Hx H]]].
      cbn beta iota in H.
      apply bind_timeout in H. destruct H as [H|[r [_ H]]].
      { destruct (get "required" obj); exact (py_contains_returns _ _ H). }
      apply IH in H; [exact H|].
      apply depth_get in Hget. apply depth_item in Hx. lia. }
    destruct (mem (show_examples self) ["all"; "properties"]); [|discriminate H].
    apply bind_timeout in H. destruct H as [H|[ex [_ H]]]; [|discriminate H].
    exact (construct_examples_returns _ _ _ _ H).
Qed.

End Fuel.

(** ** The calls the traversal makes *)




Section Calls.

Variable yaml_dump : json -> string.
Variable self : Parser.


(** A call that returns has appended the own line of its node. *)
Lemma own_line_in_output (fuel : nat) (v : json) (c : context)
  (parsed_lines out : list string) :
  _parse_object yaml_dump fuel self v (ctx_name c) (ctx_monospace c) parsed_lines
                (ctx_indent c) (ctx_path c) (ctx_required c) = Ok out ->
  exists line, own_line_in v c = Some line /\ In line out.
Proof.
  intros H. destruct fuel as [|fuel]; [discriminate H|].
  destruct v as [| | | |elements|d]; try discriminate H.
  - rewrite parse_object_list in H.
    apply (for_each_extends walker_line) in H.
    + eexists. split; [reflexivity|].
      apply (extends_In _ _ _ _ H). apply In_append_line.
    + intros x s s' _ Hx. exact (parse_object_extends _ _ _ _ _ _ _ _ _ _ _ Hx).
  - apply parse_object_dict_extends in H;
      [|intros; eapply parse_object_extends; eassumption].
    destruct H as [base [Hbase H]].
    eexists. unfold own_line_in. cbn [own_line]. rewrite Hbase.
    split; [reflexivity|].
    apply (extends_In _ _ _ _ H). apply In_append_line.
Qed.

(** A call the method makes from a call that returns has returned, and what it
    returned is kept. *)
Lemma call_returns (fuel : nat) (v : json) (c : context) (x : json) (cx : context)
  (parsed_lines out : list string) :
  calls v c x cx ->
  _parse_object yaml_dump (S fuel) self v (ctx_name c) (ctx_monospace c)
                parsed_lines (ctx_indent c) (ctx_path c) (ctx_required c) = Ok out ->
  exists s s',
    _parse_object yaml_dump fuel self x (ctx_name cx) (ctx_monospace cx) s
                  (ctx_indent cx) (ctx_path cx) (ctx_required cx) = Ok s'
    /\ extends walker_line s' out.
Proof.
  pose proof (parse_object_extends yaml_dump fuel self) as Hext.
  intros Hcall H. destruct Hcall as [l c x Hx
                                    |d c key children xs x Hkey Hget Hxs Hx
                                    |d c key sub Hkey Hget
                                    |d c extra sub Hextra Hget
                                    |d c key props k x listed Hkey Hget Hkx Hlisted].
  - rewrite parse_object_list in H.
    eapply (for_each_In walker_line) in H; [|clear H|exact Hx].
    + destruct H as [s [s' [Hs [_ Hkept]]]]. cbn beta in Hs. eauto.
    + intros y s s' _ Hy. exact (Hext _ _ _ _ _ _ _ _ Hy).
  - rewrite parse_object_dict in H.
    apply bind_ok in H. destruct H as [base [_ H]].
    apply bind_ok in H. destruct H as [pl1 [H1 H]].
    apply bind_ok in H. destruct H as [pl2 [H2 H]].
    apply bind_ok in H. destruct H as [pl3 [H3 H]].
    apply bind_ok in H. destruct H as [pl4 [H4 H]].
    apply add_examples_extends in H.
    apply (parse_child_properties_extends _ Hext) in H4.
    apply (parse_extra_properties_extends _ Hext) in H3.
    apply (parse_items_and_definitions_extends _ Hext) in H2.
    assert (Hlabel : exists label, In (key, label) schema_composition_keyword_map).
    { destruct Hkey as [<-|[<-|[<-|[]]]]; eexists;
        [left | right; left | right; right; left]; reflexivity. }
    destruct Hlabel as [label Hlabel].
    unfold parse_composition in H1.
    eapply (for_each_In walker_line) in H1; [|clear H1|exact Hlabel].
    + destruct H1 as [s1 [s2 [Hs [_ Hkept]]]]. cbn beta iota zeta in Hs.
      rewrite Hget, Hxs in Hs. cbn [bind] in Hs.
      eapply (for_each_In walker_line) in Hs; [|clear Hs|exact Hx].
      * destruct Hs as [t [t' [Ht [_ Hkept']]]]. cbn beta in Ht.
        exists t, t'. split; [exact Ht|].
        apply extends_trans with s2; [exact Hkept'|].
        apply extends_trans with pl1; [exact Hkept|].
        apply extends_trans with pl2; [exact H2|].
        apply extends_trans with pl3; [exact H3|].
        apply extends_trans with pl4; [exact H4 | exact H].
      * intros y t t' _ Hy. exact (Hext _ _ _ _ _ _ _ _ Hy).
    + intros [key' label'] s s' _ Hs. cbn beta iota zeta in Hs.
      destruct (get key' d) as [ch|]; [|injection Hs as <-; apply extends_refl].
      apply bind_ok in Hs. destruct Hs as [ys [_ Hs]].
      after_append_line.
      eapply for_each_extends; [|exact Hs].
      intros y t t' _ Hy. exact (Hext _ _ _ _ _ _ _ _ Hy).
  - rewrite parse_object_dict in H.
    apply bind_ok in H. destruct H as [base [_ H]].
    apply bind_ok in H. destruct H as [pl1 [_ H]].
    apply bind_ok in H. destruct H as [pl2 [H2 H]].
    apply bind_ok in H. destruct H as [pl3 [H3 H]].
    apply bind_ok in H. destruct H as [pl4 [H4 H]].
    apply add_examples_extends in H.
    apply (parse_child_properties_extends _ Hext) in H4.
    apply (parse_extra_properties_extends _ Hext) in H3.
    unfold parse_items_and_definitions in H2.
    eapply (for_each_In walker_line) in H2; [|clear H2|exact Hkey].
    + destruct H2 as [s [s' [Hs [_ Hkept]]]]. cbn beta in Hs. rewrite Hget in Hs.
      exists s, s'. split; [exact Hs|].
      apply extends_trans with pl2; [exact Hkept|].
      apply extends_trans with pl3; [exact H3|].
      apply extends_trans with pl4; [exact H4 | exact H].
    + intros key' s s' _ Hs. cbn beta in Hs.
      destruct (get key' d) as [sub'|]; [|injection Hs as <-; apply extends_refl].
      exact (Hext _ _ _ _ _ _ _ _ Hs).
  - rewrite parse_object_dict in H.
    apply bind_ok in H. destruct H as [base [_ H]].
    apply bind_ok in H. destruct H as [pl1 [_ H]].
    apply bind_ok in H. destruct H as [pl2 [_ H]].
    apply bind_ok in H. destruct H as [pl3 [H3 H]].
    apply bind_ok in H. destruct H as [pl4 [H4 H]].
    apply add_examples_extends in H.
    apply (parse_child_properties_extends _ Hext) in H4.
    unfold parse_extra_properties in H3.
    eapply (for_each_In walker_line) in H3; [|clear H3|exact Hextra].
    + destruct H3 as [s [s' [Hs [_ Hkept]]]]. cbn beta zeta in Hs.
      rewrite Hget in Hs.
      exists s, s'. split; [exact Hs|].
      apply extends_trans with pl3; [exact Hkept|].
      apply extends_trans with pl4; [exact H4 | exact H].
    + intros extra' s s' _ Hs. cbn beta zeta in Hs.
      destruct (get (extra' ++ "Properties") d) as [[| | | | |sub']|];
        try (injection Hs as <-; apply extends_refl).
      exact (Hext _ _ _ _ _ _ _ _ Hs).
  - rewrite parse_object_dict in H.
    apply bind_ok in H. destruct H as [base [_ H]].
    apply bind_ok in H. destruct H as [pl1 [_ H]].
    apply bind_ok in H. destruct H as [pl2 [_ H]].
    apply bind_ok in H. destruct H as [pl3 [_ H]].
    apply bind_ok in H. destruct H as [pl4 [H4 H]].
    apply add_examples_extends in H.
    eapply parse_child_properties_In in H4;
      [|exact Hext|exact Hkey|exact Hget|exact Hkx].
    destruct H4 as [listed' [s [s' [Hlisted' [Hs Hkept]]]]].
    rewrite Hlisted in Hlisted'. injection Hlisted' as <-.
    exists s, s'. split; [exact Hs|].
    apply extends_trans with pl4; [exact Hkept | exact H].
Qed.

(** The own line of every node the traversal visits is in what it returns. *)
Lemma visited_line_in_output (v : json) (c : context) (x : json) (cx : context) :
  visits v c x cx ->
  forall (fuel : nat) (parsed_lines out : list string),
    _parse_object yaml_dump fuel self v (ctx_name c) (ctx_monospace c) parsed_lines
                  (ctx_indent c) (ctx_path c) (ctx_required c) = Ok out ->
    exists line, own_line_in x cx = Some line /\ In line out.
Proof.
  induction 1 as [v c|v c v1 c1 x cx Hcall _ IH]; intros fuel pl out H.
  - exact (own_line_in_output fuel v c pl out H).
  - destruct fuel as [|fuel]; [discriminate H|].
    destruct (call_returns fuel v c v1 c1 pl out Hcall H) as [s [s' [Hs Hkept]]].
    destruct (IH fuel s s' Hs) as [line [Hline Hin]].
    exists line. split; [exact Hline|]. exact (extends_In _ _ _ _ Hkept Hin).
Qed.

(** An exception the traversal raises is the exception of a node it visits,
    as that node raised it. *)
Lemma exception_comes_from_visited_node (fuel : nat) :
  forall (v : json) (c : context) (parsed_lines : list string) (e : exn),
    _parse_object yaml_dump fuel self v (ctx_name c) (ctx_monospace c) parsed_lines
                  (ctx_indent c) (ctx_path c) (ctx_required c) = Raise e ->
    exists x cx, visits v c x cx /\ raises_at self x cx e.
Proof.
  induction fuel as [|fuel IH]; intros v c pl e H; [discriminate H|].
  assert (Hchild : forall x cx s,
             calls v c x cx ->
             _parse_object yaml_dump fuel self x (ctx_name cx) (ctx_monospace cx) s
                           (ctx_indent cx) (ctx_path cx) (ctx_required cx) = Raise e ->
             exists y cy, visits v c y cy /\ raises_at self y cy e).
  { intros x cx s Hcall Hx. destruct (IH _ _ _ _ Hx) as [y [cy [Hy He]]].
    exists y, cy. split; [exact (visits_child _ _ _ _ _ _ Hcall Hy) | exact He]. }
  assert (Hself : raises_at self v c e -> exists y cy, visits v c y cy /\ raises_at self y cy e).
  { intros He. exists v, c. split; [apply visits_self | exact He]. }
  destruct v as [| | | |elements|d];
    try (injection H as <-; apply Hself; reflexivity).
  - rewrite parse_object_list in H.
    apply for_each_raise in H. destruct H as [x [s [Hin H]]]. cbn beta in H.
    exact (Hchild x (element_context c) s (calls_element _ _ _ Hin) H).
  - rewrite parse_object_dict in H.
    unfold parse_composition, parse_items_and_definitions, parse_extra_properties,
      parse_child_properties, add_examples in H.
    apply bind_raise in H. destruct H as [H|[base [_ H]]].
    { apply Hself. left. exact H. }
    apply bind_raise in H. destruct H as [H|[pl1 [_ H]]].
    { apply for_each_raise in H. destruct H as [[key label] [s [Hin H]]].
      cbn beta iota in H. destruct (get key d) as [children|] eqn:Hget;
        [|discriminate H].
      apply (in_map fst) in Hin. cbn [map fst schema_composition_keyword_map] in Hin.
      apply bind_raise in H. destruct H as [H|[xs [Hxs H]]].
      { apply Hself. right. left. exists key, children. auto. }
      apply for_each_raise in H. destruct H as [x [t [Hx H]]]. cbn beta in H.
      exact (Hchild x (branch_context c) t
               (calls_branch d c key children xs x Hin Hget Hxs Hx) H). }
    apply bind_raise in H. destruct H as [H|[pl2 [_ H]]].
    { apply for_each_raise in H. destruct H as [key [s [Hin H]]].
      cbn beta in H. destruct (get key d) as [sub|] eqn:Hget; [|discriminate H].
      exact (Hchild sub (keyword_context key c) s
               (calls_keyword d c key sub Hin Hget) H). }
    apply bind_raise in H. destruct H as [H|[pl3 [_ H]]].
    { apply for_each_raise in H. destruct H as [extra [s [Hin H]]].
      cbn beta zeta in H.
      destruct (get (extra ++ "Properties") d) as [[| | | | |sub]|] eqn:Hget;
        try discriminate H.
      exact (Hchild (JObj sub) (extra_context extra c) s
               (calls_extra d c extra sub Hin Hget) H). }
    apply bind_raise in H. destruct H as [H|[pl4 [_ H]]].
    { apply for_each_raise in H. destruct H as [key [s [Hin H]]].
      cbn beta in H. destruct (get key d) as [props|] eqn:Hget; [|discriminate H].
      apply bind_raise in H. destruct H as [H|[items [Hitems H]]].
      { apply Hself. right. right. left. exists key, props. auto. }
      destruct props as [| | | | |props]; try discriminate Hitems.
      injection Hitems as <-.
      apply for_each_raise in H. destruct H as [[k x] [t [Hkx H]]].
      cbn beta iota in H.
      apply bind_raise in H. destruct H as [H|[listed [Hlisted H]]].
      { apply Hself. right. right. right. left. exists key, props, k, x. auto. }
      exact (Hchild x (property_context k listed c) t
               (calls_property d c key props k x listed Hin Hget Hkx Hlisted) H). }
    destruct (mem (show_examples self) ["all"; "properties"]) eqn:Hmode;
      [|discriminate H].
    apply bind_raise in H. destruct H as [H|[ex [_ H]]]; [|discriminate H].
    apply Hself. right. right. right. right. split; [exact Hmode|].
    unfold _construct_examples in H.
    destruct (get "examples" d) as [examples|]; [|discriminate H].
    exists examples. split; [reflexivity|].
    apply bind_raise in H. destruct H as [H|[xs [_ H]]]; [exact H | discriminate H].
Qed.

(** The method's [TypeError] names the node it was raised on. *)
Lemma type_error_names_node (fuel : nat) :
  forall (v : json) (c : context) (parsed_lines : list string) (m : string),
    _parse_object yaml_dump fuel self v (ctx_name c) (ctx_monospace c) parsed_lines
                  (ctx_indent c) (ctx_path c) (ctx_required c)
    = Raise (TypeError m) ->
    exists x cx,
      visits v c x cx /\ is_container x = false
      /\ m = non_object_message (ctx_name cx) x.
Proof.
  induction fuel as [|fuel IH]; intros v c pl m H; [discriminate H|].
  assert (Hchild : forall x cx s,
             calls v c x cx ->
             _parse_object yaml_dump fuel self x (ctx_name cx) (ctx_monospace cx) s
                           (ctx_indent cx) (ctx_path cx) (ctx_required cx)
             = Raise (TypeError m) ->
             exists y cy,
               visits v c y cy /\ is_container y = false
               /\ m = non_object_message (ctx_name cy) y).
  { intros x cx s Hcall Hx. destruct (IH _ _ _ _ Hx) as [y [cy [Hy Hm]]].
    exists y, cy. split; [exact (visits_child _ _ _ _ _ _ Hcall Hy) | exact Hm]. }
  destruct v as [| | | |elements|d];
    try (injection H as <-; eexists; exists c;
         split; [apply visits_self | split; reflexivity]).
  - rewrite parse_object_list in H.
    apply for_each_raise in H. destruct H as [x [s [Hin H]]]. cbn beta in H.
    exact (Hchild x (element_context c) s (calls_element _ _ _ Hin) H).
  - rewrite parse_object_dict in H.
    unfold parse_composition, parse_items_and_definitions, parse_extra_properties,
      parse_child_properties, add_examples in H.
    apply bind_raise in H. destruct H as [H|[base [_ H]]].
    { apply construct_description_line_raise in H.
      exfalso. exact (builtin_not_type_error _ H). }
    apply bind_raise in H. destruct H as [H|[pl1 [_ H]]].
    { apply for_each_raise in H. destruct H as [[key label] [s [Hin H]]].
      cbn beta iota in H. destruct (get key d) as [children|] eqn:Hget;
        [|discriminate H].
      apply bind_raise in H. destruct H as [H|[xs [Hxs H]]].
      { apply py_iter_raise in H. exfalso. exact (builtin_not_type_error _ H). }
      apply for_each_raise in H. destruct H as [x [t [Hx H]]]. cbn beta in H.
      refine (Hchild x (branch_context c) t
                (calls_branch d c key children xs x _ Hget Hxs Hx) H).
      apply (in_map fst) in Hin. exact Hin. }
    apply bind_raise in H. destruct H as [H|[pl2 [_ H]]].
    { apply for_each_raise in H. destruct H as [key [s [Hin H]]].
      cbn beta in H. destruct (get key d) as [sub|] eqn:Hget; [|discriminate H].
      exact (Hchild sub (keyword_context key c) s
               (calls_keyword d c key sub Hin Hget) H). }
    apply bind_raise in H. destruct H as [H|[pl3 [_ H]]].
    { apply for_each_raise in H. destruct H as [extra [s [Hin H]]].
      cbn beta zeta in H.
      destruct (get (extra ++ "Properties") d) as [[| | | | |sub]|] eqn:Hget;
        try discriminate H.
      exact (Hchild (JObj sub) (extra_context extra c) s
               (calls_extra d c extra sub Hin Hget) H). }
    apply bind_raise in H. destruct H as [H|[pl4 [_ H]]].
    { apply for_each_raise in H. destruct H as [key [s [Hin H]]].
      cbn beta in H. destruct (get key d) as [props|] eqn:Hget; [|discriminate H].
      apply bind_raise in H. destruct H as [H|[items [Hitems H]]].
      { apply py_items_raise in H. exfalso. exact (builtin_not_type_error _ H). }
      destruct props as [| | | | |props]; try discriminate Hitems.
      injection Hitems as <-.
      apply for_each_raise in H. destruct H as [[k x] [t [Hkx H]]].
      cbn beta iota in H.
      apply bind_raise in H. destruct H as [H|[listed [Hlisted H]]].
      { exfalso. unfold listed_as_required in H.
        destruct (get "required" d); apply py_contains_raise in H;
          exact (builtin_not_type_error _ H). }
      exact (Hchild x (property_context k listed c) t
               (calls_property d c key props k x listed Hin Hget Hkx Hlisted) H). }
    destruct (mem (show_examples self) ["all"; "properties"]); [|discriminate H].
    apply bind_raise in H. destruct H as [H|[ex [_ H]]]; [|discriminate H].
    apply construct_examples_raise in H.
    exfalso. exact (builtin_not_type_error _ H).
Qed.

End Calls.


(** ** The non-object failure *)

Section TypeError.

Variable yaml_dump : json -> string.

(** C7: [_parse_object] raises its [TypeError], whose message carries the name
    and the value it was given, on every node that is neither an object nor a
    list.  Whenever a traversal raises a [TypeError] with a message, the
    traversal has reached a node that is neither an object nor a list, and the
    message carries that node and the name it is rendered under: [None] for an
    element of a list and for a child of a composition keyword, the capitalized
    keyword for [items], [definitions] and [$defs], the key for an entry of
    [properties] and [patternProperties]; so on an object or a list the error
    can only come from a node further down.  The failure aborts the traversal:
    a traversal that reaches such a node, through whatever kind of child,
    returns no lines, and raises as soon as it has the fuel to go through the
    value; and a list node whose element [v] is such a value raises the error of
    [v] as soon as [v] is reached, whatever follows it.  No call changes the
    exception of a call it makes: every exception a traversal raises is the
    exception of a node it visits, as that node raised it. *)
Theorem non_object_node_raises_type_error (self : Parser) :
  (forall fuel v name name_monospace parsed_lines indent_level path required,
      is_container v = false ->
      _parse_object yaml_dump (S fuel) self v name name_monospace parsed_lines
                    indent_level path required
      = Raise (TypeError ("Non-object type found in properties list: `"
                          ++ str_opt name ++ ": " ++ str v ++ "`.")))
  /\ (forall fuel obj c parsed_lines m,
         _parse_object yaml_dump fuel self obj (ctx_name c) (ctx_monospace c)
                       parsed_lines (ctx_indent c) (ctx_path c) (ctx_required c)
         = Raise (TypeError m) ->
         exists v cv,
           visits obj c v cv /\ is_container v = false
           /\ m = "Non-object type found in properties list: `"
                  ++ str_opt (ctx_name cv) ++ ": " ++ str v ++ "`.")
  /\ (forall fuel obj c parsed_lines v cv,
         visits obj c v cv -> is_container v = false ->
         (forall out,
             _parse_object yaml_dump fuel self obj (ctx_name c) (ctx_monospace c)
                           parsed_lines (ctx_indent c) (ctx_path c) (ctx_required c)
             <> Ok out)
         /\ (depth obj < fuel ->
             exists e,
               _parse_object yaml_dump fuel self obj (ctx_name c) (ctx_monospace c)
                             parsed_lines (ctx_indent c) (ctx_path c)
                             (ctx_required c)
               = Raise e))
  /\ (forall fuel before v after name name_monospace parsed_lines indent_level path
             required lines,
         is_container v = false ->
         for_each before
           (append_line (spaces (tab_size * indent_level)
                         ++ "- **" ++ str_opt name ++ "**:" ++ nl) parsed_lines)
           (fun element parsed_lines =>
              _parse_object yaml_dump (S fuel) self element None false parsed_lines
                            (indent_level + 1) [] false) = Ok lines ->
         _parse_object yaml_dump (S (S fuel)) self (JArr (before ++ v :: after)%list)
                       name name_monospace parsed_lines indent_level path required
         = Raise (TypeError ("Non-object type found in properties list: `"
                             ++ "None: " ++ str v ++ "`.")))
  /\ (forall fuel obj c parsed_lines e,
         _parse_object yaml_dump fuel self obj (ctx_name c) (ctx_monospace c)
                       parsed_lines (ctx_indent c) (ctx_path c) (ctx_required c)
         = Raise e ->
         exists v cv, visits obj c v cv /\ raises_at self v cv e).
Proof.
  split; [|split; [|split; [|split]]].
  - intros fuel v name mono pl indent path req Hv.
    destruct v; try discriminate Hv; reflexivity.
  - intros fuel obj c pl m H.
    exact (type_error_names_node yaml_dump self fuel obj c pl m H).
  - intros fuel obj c pl v cv Hvisits Hv.
    assert (Hno : forall out,
               _parse_object yaml_dump fuel self obj (ctx_name c) (ctx_monospace c)
                             pl (ctx_indent c) (ctx_path c) (ctx_required c)
               <> Ok out).
    { intros out H.
      destruct (visited_line_in_output yaml_dump self obj c v cv Hvisits fuel pl out H)
        as [line [Hline _]].
      destruct v; try discriminate Hv; discriminate Hline. }
    split; [exact Hno|]. intros Hd.
    pose proof (parse_object_returns yaml_dump fuel self obj (ctx_name c)
                  (ctx_monospace c) pl (ctx_indent c) (ctx_path c) (ctx_required c) Hd)
      as Hret.
    destruct (_parse_object yaml_dump fuel self obj (ctx_name c) (ctx_monospace c)
                            pl (ctx_indent c) (ctx_path c) (ctx_required c))
      as [out|e|].
    + exfalso. exact (Hno out eq_refl).
    + eauto.
    + contradiction.
  - intros fuel before v after name mono pl indent path req lines Hv Hbefore.
    rewrite parse_object_list, for_each_app, Hbefore.
    cbn [bind for_each].
    destruct v; try discriminate Hv; reflexivity.
  - intros fuel obj c pl e H.
    exact (exception_comes_from_visited_node yaml_dump self fuel obj c pl e H).
Qed.

End TypeError.

Lemma non_object_node_raises_type_error_witness :
  _parse_object yaml_unused 1 default_parser (JNum 5) (Some "n") true [] 0 [] false
  = Raise (TypeError "Non-object type found in properties list: `n: 5`.")
  /\ (exists v cv,
         visits (JObj [("definitions", JNum 5)])
                {| ctx_name := Some "o"; ctx_monospace := true; ctx_indent := 0;
                   ctx_path := []; ctx_required := false |} v cv
         /\ is_container v = false
         /\ "Non-object type found in properties list: `Definitions: 5`."
            = "Non-object type found in properties list: `"
              ++ str_opt (ctx_name cv) ++ ": " ++ str v ++ "`.")
  /\ ((forall out,
          _parse_object yaml_unused 3 default_parser
            (JObj [("patternProperties", JObj [("^a", JNum 5); ("^b", JObj [])])])
            (Some "o") true [] 0 [] false <> Ok out)
      /\ (depth (JObj [("patternProperties", JObj [("^a", JNum 5); ("^b", JObj [])])])
          < 3 ->
          exists e,
            _parse_object yaml_unused 3 default_parser
              (JObj [("patternProperties", JObj [("^a", JNum 5); ("^b", JObj [])])])
              (Some "o") true [] 0 [] false = Raise e))
  /\ _parse_object yaml_unused 2 default_parser
       (JArr [JObj []; JStr "x"; JObj []]) (Some "Items") false [] 0 [] false
     = Raise (TypeError "Non-object type found in properties list: `None: x`.")
  /\ (exists v cv,
         visits (JObj [("properties", JObj [("a", JObj [("$ref", JNum 1)])])])
                {| ctx_name := Some "o"; ctx_monospace := true; ctx_indent := 0;
                   ctx_path := []; ctx_required := false |} v cv
         /\ raises_at default_parser v cv BuiltinAttributeError).
Proof.
  destruct (non_object_node_raises_type_error yaml_unused default_parser)
    as [Ha [Hb [Hc [Hd He]]]].
  pose (c := {| ctx_name := Some "o"; ctx_monospace := true; ctx_indent := 0;
                ctx_path := []; ctx_required := false |}).
  split; [|split; [|split; [|split]]].
  - apply (Ha 0 (JNum 5) (Some "n")). reflexivity.
  - apply (Hb 2 (JObj [("definitions", JNum 5)]) c []). reflexivity.
  - apply (Hc 3 (JObj [("patternProperties",
                        JObj [("^a", JNum 5); ("^b", JObj [])])])
              c [] (JNum 5) (property_context "^a" false c)).
    + apply (visits_child _ _ (JNum 5) (property_context "^a" false c)).
      * apply (calls_property _ c "patternProperties"
                 [("^a", JNum 5); ("^b", JObj [])] "^a" (JNum 5) false).
        -- right. left. reflexivity.
        -- reflexivity.
        -- left. reflexivity.
        -- reflexivity.
      * apply visits_self.
    + reflexivity.
  - apply (Hd 0 [JObj []] (JStr "x") [JObj []] (Some "Items") false [] 0 [] false
              ["- **Items**:" ++ nl; nl; "  - " ++ nl]).
    + reflexivity.
    + reflexivity.
  - apply (He 3 (JObj [("properties", JObj [("a", JObj [("$ref", JNum 1)])])]) c []).
    reflexivity.
Defined.

(** The error of an entry of [patternProperties], and of [definitions]. *)
Example non_object_entry_raises :
  _parse_object yaml_unused 3 default_parser
    (JObj [("patternProperties", JObj [("^a", JNum 5); ("^b", JObj [])])])
    (Some "o") true [] 0 [] false
  = Raise (TypeError "Non-object type found in properties list: `^a: 5`.")
  /\ _parse_object yaml_unused 3 default_parser
       (JObj [("definitions", JNum 5)]) (Some "o") true [] 0 [] false
     = Raise (TypeError "Non-object type found in properties list: `Definitions: 5`.").
Proof. split; reflexivity. Qed.

(** ** The required marker *)

Lemma py_eq_str (k : string) (v : json) : py_eq (JStr k) v = true <-> v = JStr k.
Proof.
  destruct v; simpl; try (split; [discriminate | discriminate]).
  rewrite String.eqb_eq. split; [intros ->; reflexivity | intros [= ->]; reflexivity].
Qed.

Lemma listed_in_array (k : string) (reqs : list json) :
  existsb (py_eq (JStr k)) reqs = true <-> In (JStr k) reqs.
Proof.
  rewrite existsb_exists. split.
  - intros [x [Hx H]]. apply py_eq_str in H. now subst x.
  - intros H. exists (JStr k). split; [exact H | now apply py_eq_str].
Qed.

Lemma full_line_typed_property (obj : dict) (key : string) (indent_level : nat)
  (required : bool) (t : json) (fragments : list string) :
  get "type" obj = Some t ->
  full_line obj (Some key) true indent_level [] required fragments =
  typed_property_line indent_level key (str t) (optional_format obj)
                      (if required then ", required" else "")
                      (joined_description indent_level fragments).
Proof.
  intros Ht. unfold full_line, typed_property_line, optional_format,
               joined_description.
  rewrite Ht. reflexivity.
Qed.

Lemma full_line_untyped_property (obj : dict) (key : string) (indent_level : nat)
  (required : bool) (fragments : list string) :
  get "type" obj = None ->
  full_line obj (Some key) true indent_level [] required fragments =
  untyped_property_line indent_level key (joined_description indent_level fragments).
Proof.
  intros Ht. unfold full_line, untyped_property_line, joined_description.
  rewrite Ht. reflexivity.
Qed.

Section Required.

Variable yaml_dump : json -> string.

(** The line of a key of [properties] or [patternProperties] is in the output of
    the node, rendered with the flag read off the node's [required] entry. *)
Lemma property_full_line (fuel : nat) (self : Parser) (obj : dict)
  (name : option string) (name_monospace : bool) (parsed_lines : list string)
  (indent_level : nat) (path : list string) (required : bool) (out : list string)
  (key : string) (props : dict) (k : string) (child : dict) :
  _parse_object yaml_dump fuel self (JObj obj) name name_monospace parsed_lines
                indent_level path required = Ok out ->
  In key ["properties"; "patternProperties"] ->
  get key obj = Some (JObj props) ->
  In (k, JObj child) props ->
  exists (listed : bool) (fragments : list string),
    listed_as_required k obj = Ok listed
    /\ _construct_description_line child false = Ok fragments
    /\ In (full_line child (Some k) true (indent_level + 1) [] listed fragments) out.
Proof.
  intros H Hkey Hget Hin.
  destruct fuel as [|fuel]; [discriminate H|].
  rewrite parse_object_dict in H.
  apply bind_ok in H. destruct H as [base [_ H]].
  apply bind_ok in H. destruct H as [pl1 [_ H]].
  apply bind_ok in H. destruct H as [pl2 [_ H]].
  apply bind_ok in H. destruct H as [pl3 [_ H]].
  apply bind_ok in H. destruct H as [pl4 [H4 H]].
  apply add_examples_extends in H.
  eapply parse_child_properties_In in H4;
    [|apply parse_object_extends|exact Hkey|exact Hget|exact Hin].
  destruct H4 as [listed [s1 [s2 [Hlisted [Hchild Hkept]]]]].
  destruct fuel as [|fuel]; [discriminate Hchild|].
  apply parse_object_dict_extends in Hchild; [|apply parse_object_extends].
  destruct Hchild as [fragments [Hfragments Hchild]].
  exists listed, fragments. split; [exact Hlisted|]. split; [exact Hfragments|].
  apply (extends_In _ _ _ _ H). apply (extends_In _ _ _ _ Hkept).
  apply (extends_In _ _ _ _ Hchild). apply In_append_line.
Qed.

(** C2 (as the code has it, for nodes rendered by [_parse_object]): for a key
    [k] of the [properties] mapping of a node whose value is an object, the line
    of [k] is in the output.  When the value has a [type], the line carries the
    annotation, which ends in ", required" when [k] is listed in the node's
    [required] array, and carries no marker when [k] is absent from that array
    or the node has no [required] entry.  When the value has no [type], the line
    is the name followed by the description: no annotation, and so no marker,
    whatever the [required] entry says. *)
Theorem required_marker_of_nested_property (fuel : nat) (self : Parser) (obj : dict)
  (name : option string) (name_monospace : bool) (parsed_lines : list string)
  (indent_level : nat) (path : list string) (required : bool) (out : list string)
  (props : dict) (k : string) (child : dict) :
  _parse_object yaml_dump fuel self (JObj obj) name name_monospace parsed_lines
                indent_level path required = Ok out ->
  get "properties" obj = Some (JObj props) ->
  In (k, JObj child) props ->
  exists fragments : list string,
    _construct_description_line child false = Ok fragments
    /\ (forall t, get "type" child = Some t ->
        (forall reqs, get "required" obj = Some (JArr reqs) -> In (JStr k) reqs ->
         In (typed_property_line (indent_level + 1) k (str t) (optional_format child)
               ", required" (joined_description (indent_level + 1) fragments)) out)
        /\ (forall reqs, get "required" obj = Some (JArr reqs) -> ~ In (JStr k) reqs ->
            In (typed_property_line (indent_level + 1) k (str t) (optional_format child)
                  "" (joined_description (indent_level + 1) fragments)) out)
        /\ (get "required" obj = None ->
            In (typed_property_line (indent_level + 1) k (str t) (optional_format child)
                  "" (joined_description (indent_level + 1) fragments)) out))
    /\ (get "type" child = None ->
        In (untyped_property_line (indent_level + 1) k
              (joined_description (indent_level + 1) fragments)) out).
Proof.
  intros H Hget Hin.
  destruct (property_full_line fuel self obj name name_monospace parsed_lines
              indent_level path required out "properties" props k child H)
    as [listed [fragments [Hlisted [Hfragments Hline]]]]; auto.
  { now left. }
  exists fragments. split; [exact Hfragments|]. split.
  - intros t Ht.
    rewrite (full_line_typed_property _ _ _ _ t) in Hline by exact Ht.
    unfold listed_as_required in Hlisted.
    split; [|split].
    + intros reqs Hreqs Hk. rewrite Hreqs in Hlisted. cbn [py_contains] in Hlisted.
      apply listed_in_array in Hk. rewrite Hk in Hlisted.
      injection Hlisted as <-. exact Hline.
    + intros reqs Hreqs Hk. rewrite Hreqs in Hlisted. cbn [py_contains] in Hlisted.
      destruct (existsb (py_eq (JStr k)) reqs) eqn:E.
      * apply listed_in_array in E. contradiction.
      * injection Hlisted as <-. exact Hline.
    + intros Hnone. rewrite Hnone in Hlisted. cbn [py_contains existsb] in Hlisted.
      injection Hlisted as <-. exact Hline.
  - intros Ht. rewrite full_line_untyped_property in Hline by exact Ht. exact Hline.
Qed.

End Required.

Lemma required_marker_of_nested_property_witness :
  _parse_object yaml_unused 3 default_parser
    (JObj [("type", JStr "object"); ("required", JArr [JStr "x"; JStr "z"]);
           ("properties",
            JObj [("x", JObj [("type", JStr "integer")]);
                  ("y", JObj [("type", JStr "string"); ("format", JStr "date")]);
                  ("z", JObj [("description", JStr "Free")])])])
    (Some "o") true [] 0 [] false
  = Ok ["- **`o`** *(object)*" ++ nl; nl;
        "  - **`x`** *(integer, required)*" ++ nl;
        "  - **`y`** *(string, format: date)*" ++ nl;
        "  - **`z`**Free." ++ nl]
  /\ In ("  - **`x`** *(integer, required)*" ++ nl)
     ["- **`o`** *(object)*" ++ nl; nl;
      "  - **`x`** *(integer, required)*" ++ nl;
      "  - **`y`** *(string, format: date)*" ++ nl;
      "  - **`z`**Free." ++ nl]
  /\ In ("  - **`y`** *(string, format: date)*" ++ nl)
        ["- **`o`** *(object)*" ++ nl; nl;
         "  - **`x`** *(integer, required)*" ++ nl;
         "  - **`y`** *(string, format: date)*" ++ nl;
         "  - **`z`**Free." ++ nl]
  /\ In ("  - **`z`**Free." ++ nl)
        ["- **`o`** *(object)*" ++ nl; nl;
         "  - **`x`** *(integer, required)*" ++ nl;
         "  - **`y`** *(string, format: date)*" ++ nl;
         "  - **`z`**Free." ++ nl].
Proof.
  pose (props := [("x", JObj [("type", JStr "integer")]);
                  ("y", JObj [("type", JStr "string"); ("format", JStr "date")]);
                  ("z", JObj [("description", JStr "Free")])]).
  pose (obj := [("type", JStr "object"); ("required", JArr [JStr "x"; JStr "z"]);
                ("properties", JObj props)]).
  pose (out := ["- **`o`** *(object)*" ++ nl; nl;
                "  - **`x`** *(integer, required)*" ++ nl;
                "  - **`y`** *(string, format: date)*" ++ nl;
                "  - **`z`**Free." ++ nl]).
  split; [reflexivity|]. split; [|split].
  - destruct (required_marker_of_nested_property yaml_unused 3 default_parser obj
                (Some "o") true [] 0 [] false out
                props "x" [("type", JStr "integer")]
                eq_refl eq_refl (or_introl eq_refl))
      as [fragments [Hf [Htyped _]]].
    injection Hf as <-.
    exact (proj1 (Htyped (JStr "integer") eq_refl) [JStr "x"; JStr "z"] eq_refl
                 (or_introl eq_refl)).
  - destruct (required_marker_of_nested_property yaml_unused 3 default_parser obj
                (Some "o") true [] 0 [] false out
                props "y" [("type", JStr "string"); ("format", JStr "date")]
                eq_refl eq_refl (or_intror (or_introl eq_refl)))
      as [fragments [Hf [Htyped _]]].
    injection Hf as <-.
    apply (proj1 (proj2 (Htyped (JStr "string") eq_refl)) [JStr "x"; JStr "z"] eq_refl).
    intros [H|[H|[]]]; discriminate H.
  - destruct (required_marker_of_nested_property yaml_unused 3 default_parser obj
                (Some "o") true [] 0 [] false out
                props "z" [("description", JStr "Free")]
                eq_refl eq_refl (or_intror (or_intror (or_introl eq_refl))))
      as [fragments [Hf [_ Huntyped]]].
    injection Hf as <-.
    exact (Huntyped eq_refl).
Defined.

(** C2 as stated fails: a property listed in [required] but without [type] gets
    no marker from [_parse_object], and at the root [parse_schema] does not mark
    a typed property listed in the root's [required] array. *)
Lemma required_property_without_marker :
  _parse_object yaml_unused 3 default_parser
    (JObj [("type", JStr "object"); ("required", JArr [JStr "a"]);
           ("properties", JObj [("a", JObj [("description", JStr "No type")])])])
    (Some "o") true [] 0 [] false
  = Ok ["- **`o`** *(object)*" ++ nl; nl; "  - **`a`**No type." ++ nl]
  /\ parse_schema yaml_unused 3 default_parser
       [("required", JArr [JStr "a"]);
        ("properties", JObj [("a", JObj [("type", JStr "string")])])]
     = Ok ["# JSON Schema" ++ nl ++ nl; "## Properties" ++ nl ++ nl;
           "- **`a`** *(string)*" ++ nl].
Proof. split; reflexivity. Qed.

(** At the root, line 369 looks the key up in the [properties] mapping itself:
    the root's [required] array is not consulted, and a property named
    [required] decides instead. *)
Example root_required_is_read_off_the_mapping :
  parse_schema yaml_unused 3 default_parser
    [("required", JArr [JStr "name"]);
     ("properties",
      JObj [("name", JObj [("type", JStr "string")]);
            ("type", JObj [("type", JStr "string")]);
            ("required", JObj [("type", JStr "array")])])]
  = Ok ["# JSON Schema" ++ nl ++ nl; "## Properties" ++ nl ++ nl;
        "- **`name`** *(string)*" ++ nl;
        "- **`type`** *(string, required)*" ++ nl;
        "- **`required`** *(array)*" ++ nl].
Proof. reflexivity. Qed.

Lemma bind_ext {A B : Type} (m : res A) (k1 k2 : A -> res B) :
  (forall a, k1 a = k2 a) -> bind m k1 = bind m k2.
Proof. intros H. destruct m; simpl; [apply H | reflexivity | reflexivity]. Qed.

Lemma construct_description_line_without_required (obj : dict) (add_type : bool) :
  _construct_description_line (remove "required" obj) add_type
  = _construct_description_line obj add_type.
Proof.
  rewrite !cdl_fragments. frame (remove "required" obj) obj. reflexivity.
Qed.

Ltac same_get :=
  cbn [for_each schema_composition_keyword_map String.append];
  repeat rewrite get_remove_neq by reflexivity;
  try reflexivity.

Section RequiredFlag.

Variable yaml_dump : json -> string.

(** A node rendered without a name comes out the same whatever its [required]
    flag, and so does a list node; the [required] array of a node without
    [properties] and [patternProperties] changes nothing in its output; and in
    any node the array changes neither the node's own line nor what is rendered
    for its composition branches, its items and definitions, and its
    additional/unevaluated properties. *)
Lemma required_array_is_read_for_properties_only (fuel : nat) (self : Parser) :
  (forall obj name_monospace parsed_lines indent_level path required,
      _parse_object yaml_dump fuel self obj None name_monospace parsed_lines
                    indent_level path required
      = _parse_object yaml_dump fuel self obj None name_monospace parsed_lines
                      indent_level path false)
  /\ (forall elements name name_monospace parsed_lines indent_level path required,
         _parse_object yaml_dump fuel self (JArr elements) name name_monospace
                       parsed_lines indent_level path required
         = _parse_object yaml_dump fuel self (JArr elements) name name_monospace
                         parsed_lines indent_level path false)
  /\ (forall obj name name_monospace parsed_lines indent_level path required,
         get "properties" obj = None ->
         get "patternProperties" obj = None ->
         _parse_object yaml_dump fuel self (JObj (remove "required" obj)) name
                       name_monospace parsed_lines indent_level path required
         = _parse_object yaml_dump fuel self (JObj obj) name name_monospace
                         parsed_lines indent_level path required)
  /\ (forall parse obj name name_monospace parsed_lines indent_level path required
             description_line_base,
         full_line (remove "required" obj) name name_monospace indent_level path
                   required description_line_base
         = full_line obj name name_monospace indent_level path required
                     description_line_base
         /\ parse_composition parse (remove "required" obj) parsed_lines indent_level
            = parse_composition parse obj parsed_lines indent_level
         /\ parse_items_and_definitions parse (remove "required" obj) parsed_lines
                                        indent_level
            = parse_items_and_definitions parse obj parsed_lines indent_level
         /\ parse_extra_properties parse (remove "required" obj) parsed_lines
                                   indent_level
            = parse_extra_properties parse obj parsed_lines indent_level).
Proof.
  split; [|split; [|split]];
    [| | |intros parse obj name mono pl indent path req base;
          repeat split;
          [unfold full_line | unfold parse_composition
           | unfold parse_items_and_definitions | unfold parse_extra_properties];
          same_get].
  - intros obj mono pl indent path req. destruct fuel, obj; reflexivity.
  - intros elements name mono pl indent path req. destruct fuel; reflexivity.
  - intros obj name mono pl indent path req Hp Hpp.
    destruct fuel as [|fuel']; [reflexivity|].
    rewrite !parse_object_dict, construct_description_line_without_required.
    apply bind_ext. intros base.
    replace (full_line (remove "required" obj) name mono indent path req base)
      with (full_line obj name mono indent path req base)
      by (unfold full_line; same_get).
    replace (parse_composition (_parse_object yaml_dump fuel' self)
               (remove "required" obj))
      with (parse_composition (_parse_object yaml_dump fuel' self) obj)
      by (unfold parse_composition; same_get).
    apply bind_ext. intros pl1.
    replace (parse_items_and_definitions (_parse_object yaml_dump fuel' self)
               (remove "required" obj))
      with (parse_items_and_definitions (_parse_object yaml_dump fuel' self) obj)
      by (unfold parse_items_and_definitions; same_get).
    apply bind_ext. intros pl2.
    replace (parse_extra_properties (_parse_object yaml_dump fuel' self)
               (remove "required" obj))
      with (parse_extra_properties (_parse_object yaml_dump fuel' self) obj)
      by (unfold parse_extra_properties; same_get).
    apply bind_ext. intros pl3.
    replace (parse_child_properties (_parse_object yaml_dump fuel' self)
               (remove "required" obj) pl3 indent)
      with (parse_child_properties (_parse_object yaml_dump fuel' self) obj pl3 indent)
      by (unfold parse_child_properties; same_get; rewrite Hp, Hpp; reflexivity).
    apply bind_ext. intros pl4.
    unfold add_examples, _construct_examples. same_get.
Qed.



End RequiredFlag.



(** ** The sections of the document *)

Lemma for_each_preorder {A St : Type} (R : St -> St -> Prop) (l : list A)
  (body : A -> St -> res St) :
  (forall s, R s s) ->
  (forall a b c, R a b -> R b c -> R a c) ->
  (forall x s s', In x l -> body x s = Ok s' -> R s s') ->
  forall s s', for_each l s body = Ok s' -> R s s'.
Proof.
  intros Hrefl Htrans. induction l as [|x l IH]; intros Hbody s s' H; simpl in H.
  - injection H as <-. apply Hrefl.
  - apply bind_ok in H. destruct H as [s1 [H1 H2]].
    apply Htrans with s1.
    + apply (Hbody x); [now left | exact H1].
    + apply IH; [|exact H2]. intros y t t' Hy. apply Hbody. now right.
Qed.

Lemma for_each_concat {A B : Type} (f : A -> res (list B)) (l : list A) :
  forall lines,
    for_each l lines (fun x lines => new_lines <- f x ;; Ok (lines ++ new_lines)%list)
    = (more <- concat_results (map f l) ;; Ok (lines ++ more)%list).
Proof.
  induction l as [|x l IH]; intros lines; simpl.
  - now rewrite app_nil_r.
  - destruct (f x) as [new| |]; simpl; [|reflexivity|reflexivity].
    rewrite IH. destruct (concat_results (map f l)); simpl;
      [now rewrite app_assoc | reflexivity | reflexivity].
Qed.

Lemma spaces_then_not_hash (n : nat) (c : ascii) (rest : string) :
  c <> "#"%char -> spaces n ++ String c rest <> properties_header.
Proof.
  intros Hc. destruct n; simpl; intros H; injection H as H1 _.
  - contradiction.
  - discriminate H1.
Qed.

Lemma walker_line_not_header (line : string) : walker_line line -> not_header line.
Proof.
  intros [|n rest|rest|n rest]; unfold not_header.
  - discriminate.
  - apply (spaces_then_not_hash n "-"). discriminate.
  - discriminate.
  - apply (spaces_then_not_hash n "`"). discriminate.
Qed.

Lemma count_occ_not_header (lines : list string) :
  Forall not_header lines -> count_occ string_dec lines properties_header = 0.
Proof.
  intros H. apply count_occ_not_In. intros Hin.
  rewrite Forall_forall in H. exact (H _ Hin eq_refl).
Qed.

Lemma for_each_ext {A St : Type} (l : list A) (b1 b2 : A -> St -> res St) :
  (forall x s, b1 x s = b2 x s) -> forall s, for_each l s b1 = for_each l s b2.
Proof.
  intros H. induction l as [|x l IH]; intros s; simpl; [reflexivity|].
  rewrite H. apply bind_ext. exact IH.
Qed.

Lemma concat_results_Forall (P : string -> Prop) (rs : list (res (list string)))
  (out : list string) :
  (forall r lines, In r rs -> r = Ok lines -> Forall P lines) ->
  concat_results rs = Ok out -> Forall P out.
Proof.
  revert out. induction rs as [|r rs IH]; intros out Hrs H; simpl in H.
  - injection H as <-. constructor.
  - apply bind_ok in H. destruct H as [lines [Hr H]].
    apply bind_ok in H. destruct H as [more [Hmore H]]. injection H as <-.
    apply Forall_app. split.
    + apply (Hrs r); [now left | exact Hr].
    + apply IH; [|exact Hmore]. intros r' l' Hin. apply Hrs. now right.
Qed.

Ltac other_header :=
  let H := fresh in
  unfold not_header, properties_header; intros H; vm_compute in H; discriminate H.

Section Sections.

Variable yaml_dump : json -> string.

Lemma walker_output_not_header (fuel : nat) (self : Parser) (obj : json)
  (name : option string) (name_monospace : bool) (indent_level : nat)
  (path : list string) (required : bool) (new_lines : list string) :
  _parse_object yaml_dump fuel self obj name name_monospace [] indent_level path
                required = Ok new_lines ->
  Forall not_header new_lines.
Proof.
  intros H. apply parse_object_extends in H. destruct H as [suffix [-> H]].
  eapply Forall_impl; [exact walker_line_not_header | exact H].
Qed.

Lemma appended_not_header (lines new_lines out : list string) :
  Forall not_header new_lines -> extends not_header out lines ->
  extends not_header out (lines ++ new_lines).
Proof.
  intros H E. eapply extends_trans; [exact E | now apply extends_app].
Qed.

Lemma add_title_and_description_not_header (schema_object_master : dict) :
  Forall not_header (add_title_and_description schema_object_master []).
Proof.
  unfold add_title_and_description.
  assert (Ht : forall t, not_header ("# " ++ t ++ nl ++ nl)).
  { intros t H. unfold properties_header in H. cbn [String.append] in H.
    injection H as H. discriminate H. }
  assert (Hd : forall t, not_header ("*" ++ t ++ "*" ++ nl ++ nl)).
  { intros t H. discriminate H. }
  destruct (get "title" schema_object_master);
    destruct (get "description" schema_object_master);
    repeat constructor; solve [apply Ht | apply Hd | apply (Ht "JSON Schema")].
Qed.

Lemma add_items_not_header (fuel : nat) (self : Parser) (schema_object_master : dict)
  (output_lines out : list string) :
  add_items yaml_dump fuel self schema_object_master output_lines = Ok out ->
  extends not_header output_lines out.
Proof.
  unfold add_items. intros H.
  apply bind_ok in H. destruct H as [gathered [_ H]].
  apply bind_ok in H. destruct H as [state [H Hout]]. injection Hout as <-.
  change output_lines with (snd (false, output_lines)) at 1.
  revert H.
  apply (for_each_preorder
           (fun a b : bool * list string => extends not_header (snd a) (snd b))).
  - intros s. apply extends_refl.
  - intros a b c. apply extends_trans.
  - intros x [first lines] s' _ Hx. cbn beta iota in Hx.
    destruct (negb first); cbn iota in Hx;
      apply bind_ok in Hx; destruct Hx as [new_lines [Hnew Hx]];
      injection Hx as <-; cbn [snd];
      apply walker_output_not_header in Hnew.
    + apply appended_not_header; [exact Hnew|].
      apply extends_app. repeat constructor. other_header.
    + now apply extends_app.
Qed.

Lemma add_extra_properties_not_header (fuel : nat) (self : Parser)
  (schema_object_master : dict) (output_lines out : list string) :
  add_extra_properties yaml_dump fuel self schema_object_master output_lines = Ok out ->
  extends not_header output_lines out.
Proof.
  unfold add_extra_properties. apply for_each_extends.
  intros extra s s' Hin Hx. cbn beta zeta in Hx.
  destruct (get (extra ++ "Properties") schema_object_master) as [[| | | | |sub]|];
    try (injection Hx as <-; apply extends_refl).
  apply bind_ok in Hx. destruct Hx as [new_lines [Hnew Hx]]. injection Hx as <-.
  apply walker_output_not_header in Hnew.
  apply appended_not_header; [exact Hnew|].
  apply extends_app. repeat constructor.
  destruct Hin as [<-|[<-|[]]]; other_header.
Qed.

Lemma add_pattern_properties_not_header (fuel : nat) (self : Parser)
  (schema_object_master : dict) (output_lines out : list string) :
  add_pattern_properties yaml_dump fuel self schema_object_master output_lines
  = Ok out ->
  extends not_header output_lines out.
Proof.
  unfold add_pattern_properties. intros H.
  apply bind_ok in H. destruct H as [gathered [_ H]].
  apply bind_ok in H. destruct H as [state [H Hout]]. injection Hout as <-.
  change output_lines with (snd (false, output_lines)) at 1.
  revert H.
  apply (for_each_preorder
           (fun a b : bool * list string => extends not_header (snd a) (snd b))).
  - intros s. apply extends_refl.
  - intros a b c. apply extends_trans.
  - intros x [first lines] s' _ Hx. cbn beta iota in Hx.
    assert (Hitems : forall lines items lines',
               for_each items lines
                 (fun (item : string * json) output_lines =>
                    let (obj_name, obj) := item in
                    new_lines <- _parse_object yaml_dump fuel self obj (Some obj_name)
                                               true [] 0 [] false ;;
                    Ok (output_lines ++ new_lines)%list) = Ok lines' ->
               extends not_header lines lines').
    { intros l0 items l1. apply for_each_extends.
      intros [k v] t t' _ Ht. apply bind_ok in Ht.
      destruct Ht as [new_lines [Hnew Ht]]. injection Ht as <-.
      apply extends_app. exact (walker_output_not_header _ _ _ _ _ _ _ _ _ Hnew). }
    destruct (negb first); cbn iota in Hx;
      apply bind_ok in Hx; destruct Hx as [items [_ Hx]];
      apply bind_ok in Hx; destruct Hx as [lines' [Hl Hx]];
      injection Hx as <-; cbn [snd]; apply Hitems in Hl.
    + eapply extends_trans; [|exact Hl].
      apply extends_app. repeat constructor. other_header.
    + exact Hl.
Qed.

Lemma add_definitions_not_header (fuel : nat) (self : Parser)
  (schema_object_master : dict) (output_lines out : list string) :
  add_definitions yaml_dump fuel self schema_object_master output_lines = Ok out ->
  extends not_header output_lines out.
Proof.
  unfold add_definitions. apply for_each_extends.
  intros name s s' _ Hx. cbn beta in Hx.
  destruct (get name schema_object_master) as [defs|];
    [|injection Hx as <-; apply extends_refl].
  apply bind_ok in Hx. destruct Hx as [items [_ Hx]].
  revert Hx. apply for_each_extends.
  intros [k v] t t' _ Ht. apply bind_ok in Ht.
  destruct Ht as [new_lines [Hnew Ht]]. injection Ht as <-.
  apply extends_app. exact (walker_output_not_header _ _ _ _ _ _ _ _ _ Hnew).
Qed.

Lemma add_root_examples_not_header (self : Parser) (schema_object_master : dict)
  (output_lines out : list string) :
  add_root_examples yaml_dump self schema_object_master output_lines = Ok out ->
  extends not_header output_lines out.
Proof.
  unfold add_root_examples. destruct (_ && _).
  - intros H. apply bind_ok in H. destruct H as [new_lines [Hnew H]].
    injection H as <-. apply construct_examples_lines in Hnew.
    apply appended_not_header.
    + eapply Forall_impl; [exact walker_line_not_header | exact Hnew].
    + apply extends_app. repeat constructor. other_header.
  - intros [= <-]. apply extends_refl.
Qed.

End Sections.

(** What [gather_props] collects from an object: its own value for the keyword,
    then what each [allOf] branch yields, branch after branch. *)
Lemma gather_props_branch_order (fuel : nat) (obj : dict) (prop : string) :
  gather_props (S fuel) (JObj obj) prop =
  let own := match get prop obj with Some v => [v] | None => [] end in
  match get "allOf" obj with
  | Some all_of =>
      branches <- py_iter all_of ;;
      more <- concat_results (map (fun branch => gather_props fuel branch prop)
                                  branches) ;;
      Ok (own ++ more)%list
  | None => Ok own
  end.
Proof.
  cbn [gather_props py_contains py_getitem]. unfold contains.
  destruct (get prop obj) as [v|]; cbn [bind app];
    (destruct (get "allOf" obj) as [all_of|]; cbn [bind]; [|reflexivity]);
    apply bind_ext; intros branches;
    exact (for_each_concat (fun branch => gather_props fuel branch prop) branches _).
Qed.

Lemma gathered_through_all_of_object (prop : string) (d : dict) :
  gathered_through_all_of prop (JObj d)
  = (match get prop d with Some x => [x] | None => [] end
     ++ match get "allOf" d with
        | Some (JArr xs) => flat_map (gathered_through_all_of prop) xs
        | _ => []
        end)%list.
Proof.
  cbn [gathered_through_all_of]. f_equal.
  induction d as [|[k x] d IH]; [reflexivity|].
  cbn [get]. destruct (String.eqb "allOf" k); [reflexivity | exact IH].
Qed.

Lemma concat_results_flat_map {A B : Type} (f : A -> res (list B))
  (g : A -> list B) (xs : list A) (out : list B) :
  (forall x lines, In x xs -> f x = Ok lines -> lines = g x) ->
  concat_results (map f xs) = Ok out -> out = flat_map g xs.
Proof.
  revert out. induction xs as [|x xs IH]; intros out Hf H; cbn [map concat_results] in H.
  - injection H as <-. reflexivity.
  - apply bind_ok in H. destruct H as [lines [Hx H]].
    apply bind_ok in H. destruct H as [more [Hmore H]]. injection H as <-.
    cbn [flat_map]. f_equal.
    + apply (Hf x); [now left | exact Hx].
    + apply IH; [|exact Hmore]. intros y l Hy. apply Hf. now right.
Qed.

Lemma flat_map_nil {A B : Type} (g : A -> list B) (xs : list A) :
  (forall x, In x xs -> g x = []) -> flat_map g xs = [].
Proof.
  induction xs as [|x xs IH]; intros H; [reflexivity|].
  cbn [flat_map]. rewrite (H x) by now left. apply IH.
  intros y Hy. apply H. now right.
Qed.

(** What [gather_props] returns is what the specification calls gathered
    through [allOf]. *)
Lemma gather_props_gathers (fuel : nat) (prop : string) :
  forall (obj : json) (gathered : list json),
    gather_props fuel obj prop = Ok gathered ->
    gathered = gathered_through_all_of prop obj.
Proof.
  induction fuel as [|fuel IH]; intros obj gathered H; [discriminate H|].
  destruct obj as [| | |s|l|d]; try discriminate H.
  - cbn [gather_props py_contains py_getitem bind] in H.
    destruct (is_substring prop s); [discriminate H|]. cbn [bind] in H.
    destruct (is_substring "allOf" s); [discriminate H|]. now injection H as <-.
  - cbn [gather_props py_contains py_getitem bind] in H.
    destruct (existsb (py_eq (JStr prop)) l); [discriminate H|]. cbn [bind] in H.
    destruct (existsb (py_eq (JStr "allOf")) l); [discriminate H|].
    now injection H as <-.
  - rewrite gather_props_branch_order in H. cbv zeta in H.
    rewrite gathered_through_all_of_object.
    destruct (get "allOf" d) as [all_of|];
      [|injection H as <-; now rewrite app_nil_r].
    apply bind_ok in H. destruct H as [xs [Hxs H]].
    apply bind_ok in H. destruct H as [more [Hmore H]]. injection H as <-.
    f_equal.
    apply (concat_results_flat_map _ (gathered_through_all_of prop)) in Hmore;
      [|intros x lines _ Hx; exact (IH _ _ Hx)].
    subst more.
    destruct all_of as [| | |s|l|keys]; try discriminate Hxs;
      injection Hxs as <-; [|reflexivity|];
      apply flat_map_nil; intros x Hx; apply in_map_iff in Hx;
      destruct Hx as [? [<- _]]; reflexivity.
Qed.

Section Properties.

Variable yaml_dump : json -> string.

Lemma render_gathered_lines (fuel : nat) (self : Parser) (gathered : list json)
  (entries : list string) :
  render_gathered yaml_dump fuel self gathered = Ok entries ->
  Forall walker_line entries.
Proof.
  unfold render_gathered. apply concat_results_Forall.
  intros r lines Hr ->. apply in_map_iff in Hr. destruct Hr as [mapping [Hm _]].
  unfold render_mapping in Hm. apply bind_ok in Hm. destruct Hm as [items [_ Hm]].
  revert Hm. apply concat_results_Forall.
  intros r l Hr ->. apply in_map_iff in Hr. destruct Hr as [[k v] [Hp _]].
  unfold render_property in Hp. apply bind_ok in Hp. destruct Hp as [req [_ Hp]].
  apply parse_object_extends in Hp. destruct Hp as [suffix [-> Hp]]. exact Hp.
Qed.

Lemma properties_of_mapping (fuel : nat) (self : Parser) (mapping items : dict)
  (lines : list string) :
  for_each items lines
    (fun (item : string * json) output_lines =>
       let (obj_name, obj) := item in
       required <- listed_as_required obj_name mapping ;;
       new_lines <- _parse_object yaml_dump fuel self obj (Some obj_name) true
                                  [] 0 [] required ;;
       Ok (output_lines ++ new_lines)%list)
  = (more <- concat_results (map (render_property yaml_dump fuel self mapping) items) ;;
     Ok (lines ++ more)%list).
Proof.
  rewrite <- for_each_concat. apply for_each_ext.
  intros [k v] s. unfold render_property.
  destruct (listed_as_required k mapping); reflexivity.
Qed.

Lemma properties_loop (fuel : nat) (self : Parser) (gathered : list json) :
  forall (first : bool) (output_lines : list string) (state : bool * list string),
    for_each gathered (first, output_lines)
      (fun schema_object (state : bool * list string) =>
         let (first, output_lines) := state in
         let (first, output_lines) :=
           if first : bool
           then (false, (output_lines ++ [properties_header])%list)
           else (first, output_lines) in
         items <- py_items schema_object ;;
         output_lines <-
           for_each items output_lines
             (fun (item : string * json) output_lines =>
                let (obj_name, obj) := item in
                required <- listed_as_required obj_name items ;;
                new_lines <- _parse_object yaml_dump fuel self obj (Some obj_name)
                                           true [] 0 [] required ;;
                Ok (output_lines ++ new_lines)%list) ;;
         Ok (first, output_lines)) = Ok state ->
    exists entries,
      render_gathered yaml_dump fuel self gathered = Ok entries
      /\ snd state
         = (output_lines
              ++ (if first then match gathered with
                                | [] => []
                                | _ :: _ => [properties_header]
                                end
                  else [])
              ++ entries)%list.
Proof.
  unfold render_gathered.
  induction gathered as [|mapping gathered IH]; intros first lines state H.
  - injection H as <-. exists []. split; [reflexivity|].
    destruct first; simpl; now rewrite app_nil_r.
  - cbn [for_each] in H. apply bind_ok in H. destruct H as [state1 [H1 H]].
    cbn beta iota in H1.
    set (lines' := if first then (lines ++ [properties_header])%list else lines).
    assert (H1' : (items <- py_items mapping ;;
                   output_lines <-
                     (more <- concat_results
                                (map (render_property yaml_dump fuel self items) items) ;;
                      Ok (lines' ++ more)%list) ;;
                   Ok (false, output_lines)) = Ok state1).
    { rewrite <- H1. subst lines'. destruct first; cbn iota;
        apply bind_ext; intros items; rewrite properties_of_mapping; reflexivity. }
    clear H1. apply bind_ok in H1'. destruct H1' as [items [Hitems H1]].
    apply bind_ok in H1. destruct H1 as [lines1 [H1 Hs]]. injection Hs as <-.
    apply bind_ok in H1. destruct H1 as [more [Hmore H1]]. injection H1 as <-.
    apply IH in H. destruct H as [entries [Hentries Hstate]].
    exists (more ++ entries)%list. split.
    + cbn [map concat_results]. unfold render_mapping at 1.
      rewrite Hitems. cbn [bind]. rewrite Hmore. cbn [bind].
      rewrite Hentries. reflexivity.
    + rewrite Hstate. subst lines'. destruct first; cbn [app];
        rewrite <- ?app_assoc; reflexivity.
Qed.

Lemma add_properties_entries (fuel : nat) (self : Parser)
  (schema_object_master : dict) (output_lines out : list string) :
  add_properties yaml_dump fuel self schema_object_master output_lines = Ok out ->
  exists gathered entries,
    gather_props fuel (JObj schema_object_master) "properties" = Ok gathered
    /\ render_gathered yaml_dump fuel self gathered = Ok entries
    /\ out = (output_lines
                ++ match gathered with [] => [] | _ :: _ => [properties_header] end
                ++ entries)%list.
Proof.
  unfold add_properties. intros H.
  apply bind_ok in H. destruct H as [gathered [Hg H]].
  apply bind_ok in H. destruct H as [state [H Hout]]. injection Hout as <-.
  apply properties_loop in H. destruct H as [entries [He Hs]].
  exists gathered, entries. auto.
Qed.

(** C4: the output of [parse_schema] is, for the [properties] mappings gathered
    from the root and transitively from its [allOf] branches, branch after
    branch at every level, what precedes the section, then the header
    [## Properties] when at least one mapping is gathered, then the entries of
    all gathered mappings in that order, then what follows; and the header
    occurs exactly once in the whole output (not at all when nothing is
    gathered). *)
Theorem properties_header_once (fuel : nat) (self : Parser)
  (schema_object_master : dict) (out : list string) :
  parse_schema yaml_dump fuel self schema_object_master = Ok out ->
  let gathered := gathered_through_all_of "properties" (JObj schema_object_master) in
  exists (before entries after : list string),
    render_gathered yaml_dump fuel self gathered = Ok entries
    /\ out = (before
                ++ match gathered with [] => [] | _ :: _ => [properties_header] end
                ++ entries ++ after)%list
    /\ count_occ string_dec out properties_header
       = match gathered with [] => 0 | _ :: _ => 1 end.
Proof.
  intros H gathered. unfold parse_schema in H.
  pose proof (add_title_and_description_not_header schema_object_master) as H0.
  apply bind_ok in H. destruct H as [l1 [H1 H]].
  apply bind_ok in H. destruct H as [l2 [H2 H]].
  apply bind_ok in H. destruct H as [l3 [H3 H]].
  apply bind_ok in H. destruct H as [l4 [H4 H]].
  apply bind_ok in H. destruct H as [l5 [H5 H6]].
  apply add_items_not_header in H1. apply add_extra_properties_not_header in H2.
  apply add_pattern_properties_not_header in H3.
  apply add_definitions_not_header in H5. apply add_root_examples_not_header in H6.
  apply add_properties_entries in H4.
  destruct H4 as [gathered' [entries [Hg [He ->]]]].
  apply gather_props_gathers in Hg. fold gathered in Hg. subst gathered'.
  assert (Hbefore : Forall not_header l3).
  { destruct (extends_trans _ _ _ _ (extends_trans _ _ _ _ H1 H2) H3)
      as [s [-> Hs]].
    apply Forall_app. split; assumption. }
  destruct (extends_trans _ _ _ _ H5 H6) as [after [-> Hafter]].
  assert (Hentries : Forall not_header entries).
  { eapply Forall_impl; [exact walker_line_not_header|].
    exact (render_gathered_lines _ _ _ _ He). }
  exists l3, entries, after.
  split; [exact He|]. split.
  - rewrite <- !app_assoc. reflexivity.
  - rewrite !count_occ_app.
    rewrite (count_occ_not_header _ Hbefore), (count_occ_not_header _ Hentries),
      (count_occ_not_header _ Hafter).
    destruct gathered; simpl; [reflexivity|].
    destruct (string_dec properties_header properties_header); [reflexivity|].
    contradiction.
Qed.

End Properties.

Lemma properties_header_once_witness :
  (parse_schema yaml_unused 3 default_parser
     [("allOf", JArr [JObj [("properties", JObj [("a", JObj [])])];
                      JObj [("properties", JObj [("b", JObj [])])]])]
   = Ok ["# JSON Schema" ++ nl ++ nl; "## Properties" ++ nl ++ nl;
         "- **`a`**" ++ nl; "- **`b`**" ++ nl]
   /\ exists (before entries after : list string),
       render_gathered yaml_unused 3 default_parser
         [JObj [("a", JObj [])]; JObj [("b", JObj [])]] = Ok entries
       /\ ["# JSON Schema" ++ nl ++ nl; "## Properties" ++ nl ++ nl;
           "- **`a`**" ++ nl; "- **`b`**" ++ nl]
          = (before ++ [properties_header] ++ entries ++ after)%list
       /\ count_occ string_dec
            ["# JSON Schema" ++ nl ++ nl; "## Properties" ++ nl ++ nl;
             "- **`a`**" ++ nl; "- **`b`**" ++ nl] properties_header
          = 1)
  /\ (parse_schema yaml_unused 5 default_parser
        [("properties", JObj [("r", JObj [])]);
         ("allOf",
          JArr [JObj [("properties", JObj [("a", JObj [])])];
                JObj [("allOf",
                       JArr [JObj [("allOf",
                                    JArr [JObj [("properties",
                                                 JObj [("b", JObj [])])]])]])];
                JObj [("properties", JObj [("c", JObj [])])]])]
      = Ok ["# JSON Schema" ++ nl ++ nl; "## Properties" ++ nl ++ nl;
            "- **`r`**" ++ nl; "- **`a`**" ++ nl; "- **`b`**" ++ nl;
            "- **`c`**" ++ nl]
      /\ exists (before entries after : list string),
          render_gathered yaml_unused 5 default_parser
            [JObj [("r", JObj [])]; JObj [("a", JObj [])]; JObj [("b", JObj [])];
             JObj [("c", JObj [])]] = Ok entries
          /\ ["# JSON Schema" ++ nl ++ nl; "## Properties" ++ nl ++ nl;
              "- **`r`**" ++ nl; "- **`a`**" ++ nl; "- **`b`**" ++ nl;
              "- **`c`**" ++ nl]
             = (before ++ [properties_header] ++ entries ++ after)%list
          /\ count_occ string_dec
               ["# JSON Schema" ++ nl ++ nl; "## Properties" ++ nl ++ nl;
                "- **`r`**" ++ nl; "- **`a`**" ++ nl; "- **`b`**" ++ nl;
                "- **`c`**" ++ nl] properties_header
             = 1).
Proof.
  split; (split; [reflexivity|]).
  - apply (properties_header_once yaml_unused 3 default_parser
             [("allOf", JArr [JObj [("properties", JObj [("a", JObj [])])];
                              JObj [("properties", JObj [("b", JObj [])])]])]).
    reflexivity.
  - apply (properties_header_once yaml_unused 5 default_parser
             [("properties", JObj [("r", JObj [])]);
              ("allOf",
               JArr [JObj [("properties", JObj [("a", JObj [])])];
                     JObj [("allOf",
                            JArr [JObj [("allOf",
                                         JArr [JObj [("properties",
                                                      JObj [("b", JObj [])])]])]])];
                     JObj [("properties", JObj [("c", JObj [])])]])]).
    reflexivity.
Defined.

(** ** Enough fuel for the whole document *)

Lemma py_getitem_depth (v : json) (k : string) (x : json) :
  py_getitem v k = Ok x -> depth x < depth v.
Proof.
  destruct v as [| | | | |d]; try discriminate. simpl py_getitem.
  destruct (get k d) eqn:E; [|discriminate]. intros [= <-].
  exact (depth_get _ _ _ E).
Qed.

Lemma gather_props_depth (fuel : nat) (prop : string) :
  forall (obj : json) (gathered : list json),
    gather_props fuel obj prop = Ok gathered ->
    Forall (fun x => depth x < depth obj) gathered.
Proof.
  induction fuel as [|fuel IH]; intros obj gathered H; [discriminate H|].
  cbn [gather_props] in H.
  apply bind_ok in H. destruct H as [found [_ H]].
  apply bind_ok in H. destruct H as [res [Hres H]].
  assert (Hdirect : Forall (fun x => depth x < depth obj) res).
  { destruct found.
    - apply bind_ok in Hres. destruct Hres as [v [Hv Hres]]. injection Hres as <-.
      repeat constructor. exact (py_getitem_depth _ _ _ Hv).
    - injection Hres as <-. constructor. }
  clear Hres. apply bind_ok in H. destruct H as [found' [_ H]].
  destruct found'; [|injection H as <-; exact Hdirect].
  apply bind_ok in H. destruct H as [all_of [Hall H]].
  apply bind_ok in H. destruct H as [subs [Hsubs H]].
  apply py_getitem_depth in Hall.
  revert H Hdirect. generalize res.
  assert (Hsub : forall x, In x subs -> depth x <= depth obj).
  { intros x Hx. destruct (depth_iter _ _ _ Hsubs Hx); lia. }
  clear Hsubs. induction subs as [|sub subs IHs]; intros acc H Hacc.
  - injection H as <-. exact Hacc.
  - cbn [for_each] in H. apply bind_ok in H. destruct H as [acc' [Hb H]].
    apply bind_ok in Hb. destruct Hb as [more [Hmore Hb]]. injection Hb as <-.
    apply IHs in H; [exact H | intros x Hx; apply Hsub; now right|].
    apply Forall_app. split; [exact Hacc|].
    apply IH in Hmore. eapply Forall_impl; [|exact Hmore].
    intros x Hx. cbv beta in Hx. specialize (Hsub sub (or_introl eq_refl)). lia.
Qed.

Lemma gather_props_returns (fuel : nat) (prop : string) :
  forall obj, depth obj < fuel -> gather_props fuel obj prop <> Timeout.
Proof.
  induction fuel as [|fuel IH]; intros obj Hd H; [lia|].
  cbn [gather_props] in H.
  apply bind_timeout in H. destruct H as [H|[found [_ H]]].
  { exact (py_contains_returns _ _ H). }
  apply bind_timeout in H. destruct H as [H|[res [_ H]]].
  { destruct found; [|discriminate H].
    apply bind_timeout in H. destruct H as [H|[v [_ H]]]; [|discriminate H].
    exact (py_getitem_returns _ _ H). }
  apply bind_timeout in H. destruct H as [H|[found' [_ H]]].
  { exact (py_contains_returns _ _ H). }
  destruct found'; [|discriminate H].
  apply bind_timeout in H. destruct H as [H|[all_of [Hall H]]].
  { exact (py_getitem_returns _ _ H). }
  apply bind_timeout in H. destruct H as [H|[subs [Hsubs H]]].
  { exact (py_iter_returns _ H). }
  apply for_each_timeout in H. destruct H as [sub [acc [Hin H]]]. cbn beta in H.
  apply bind_timeout in H. destruct H as [H|[more [_ H]]]; [|discriminate H].
  apply IH in H; [exact H|].
  apply py_getitem_depth in Hall. destruct (depth_iter _ _ _ Hsubs Hin); lia.
Qed.

Section Document.

Variable yaml_dump : json -> string.

Theorem parse_schema_returns (fuel : nat) (self : Parser)
  (schema_object_master : dict) :
  depth (JObj schema_object_master) < fuel ->
  parse_schema yaml_dump fuel self schema_object_master <> Timeout.
Proof.
  intros Hd H. unfold parse_schema in H.
  pose proof (gather_props_returns fuel) as Hgather.
  pose proof (fun prop g Hg =>
                proj1 (Forall_forall _ _)
                      (gather_props_depth fuel prop (JObj schema_object_master) g Hg))
    as Hdepth.
  apply bind_timeout in H. destruct H as [H|[l1 [_ H]]].
  { unfold add_items in H.
    apply bind_timeout in H. destruct H as [H|[g [Hg H]]]; [exact (Hgather _ _ Hd H)|].
    apply bind_timeout in H. destruct H as [H|[st [_ H]]]; [|discriminate H].
    apply for_each_timeout in H. destruct H as [x [[first lines] [Hin H]]].
    cbn beta iota in H. destruct (negb first); cbn iota in H;
      (apply bind_timeout in H; destruct H as [H|[nl' [_ H]]]; [|discriminate H]);
      (apply parse_object_returns in H; [exact H|]);
      specialize (Hdepth _ _ Hg x Hin); cbv beta in Hdepth; lia. }
  apply bind_timeout in H. destruct H as [H|[l2 [_ H]]].
  { unfold add_extra_properties in H.
    apply for_each_timeout in H. destruct H as [extra [lines [_ H]]].
    cbn beta zeta in H.
    destruct (get (extra ++ "Properties") schema_object_master)
      as [[| | | | |sub]|] eqn:Hget; try discriminate H.
    apply bind_timeout in H. destruct H as [H|[nl' [_ H]]]; [|discriminate H].
    apply parse_object_returns in H; [exact H|].
    apply depth_get in Hget. lia. }
  apply bind_timeout in H. destruct H as [H|[l3 [_ H]]].
  { unfold add_pattern_properties in H.
    apply bind_timeout in H. destruct H as [H|[g [Hg H]]]; [exact (Hgather _ _ Hd H)|].
    apply bind_timeout in H. destruct H as [H|[st [_ H]]]; [|discriminate H].
    apply for_each_timeout in H. destruct H as [x [[first lines] [Hin H]]].
    cbn beta iota in H. specialize (Hdepth _ _ Hg x Hin). cbv beta in Hdepth.
    destruct (negb first); cbn iota in H;
      (apply bind_timeout in H; destruct H as [H|[items [Hitems H]]];
       [exact (py_items_returns _ H)|]);
      (apply bind_timeout in H; destruct H as [H|[lines' [_ H]]]; [|discriminate H]);
      apply for_each_timeout in H; destruct H as [[k v] [lines' [Hkv H]]];
      cbn beta iota in H;
      (apply bind_timeout in H; destruct H as [H|[nl' [_ H]]]; [|discriminate H]);
      (apply parse_object_returns in H; [exact H|]);
      (destruct x; try discriminate Hitems); injection Hitems as <-;
      apply depth_item in Hkv; lia. }
  apply bind_timeout in H. destruct H as [H|[l4 [_ H]]].
  { unfold add_properties in H.
    apply bind_timeout in H. destruct H as [H|[g [Hg H]]]; [exact (Hgather _ _ Hd H)|].
    apply bind_timeout in H. destruct H as [H|[st [_ H]]]; [|discriminate H].
    apply for_each_timeout in H. destruct H as [x [[first lines] [Hin H]]].
    cbn beta iota in H. specialize (Hdepth _ _ Hg x Hin). cbv beta in Hdepth.
    destruct first; cbn iota in H;
      (apply bind_timeout in H; destruct H as [H|[items [Hitems H]]];
       [exact (py_items_returns _ H)|]);
      (apply bind_timeout in H; destruct H as [H|[lines' [_ H]]]; [|discriminate H]);
      apply for_each_timeout in H; destruct H as [[k v] [lines' [Hkv H]]];
      cbn beta iota in H;
      (apply bind_timeout in H; destruct H as [H|[req [_ H]]];
       [unfold listed_as_required in H; destruct (get "required" items);
        exact (py_contains_returns _ _ H)|]);
      (apply bind_timeout in H; destruct H as [H|[nl' [_ H]]]; [|discriminate H]);
      (apply parse_object_returns in H; [exact H|]);
      (destruct x; try discriminate Hitems); injection Hitems as <-;
      apply depth_item in Hkv; lia. }
  apply bind_timeout in H. destruct H as [H|[l5 [_ H]]].
  { unfold add_definitions in H.
    apply for_each_timeout in H. destruct H as [name [lines [_ H]]].
    cbn beta in H.
    destruct (get name schema_object_master) as [defs|] eqn:Hget; [|discriminate H].
    apply bind_timeout in H. destruct H as [H|[items [Hitems H]]].
    { exact (py_items_returns _ H). }
    apply for_each_timeout in H. destruct H as [[k v] [lines' [Hkv H]]].
    cbn beta iota in H.
    apply bind_timeout in H. destruct H as [H|[nl' [_ H]]]; [|discriminate H].
    apply parse_object_returns in H; [exact H|].
    destruct defs; try discriminate Hitems. injection Hitems as <-.
    apply depth_item in Hkv. apply depth_get in Hget. lia. }
  unfold add_root_examples in H. destruct (_ && _); [|discriminate H].
  apply bind_timeout in H. destruct H as [H|[nl' [_ H]]]; [|discriminate H].
  exact (construct_examples_returns _ _ _ _ _ H).
Qed.

End Document.

(** ** More fuel does not change a result *)

Lemma bind_stable {A B : Type} (m1 m2 : res A) (k1 k2 : A -> res B) :
  bind m1 k1 <> Timeout ->
  (m1 <> Timeout -> m2 = m1) ->
  (forall a, m1 = Ok a -> k1 a <> Timeout -> k2 a = k1 a) ->
  bind m2 k2 = bind m1 k1.
Proof.
  intros H Hm Hk. destruct m1 as [a| |].
  - rewrite Hm by discriminate. simpl in *. now apply Hk.
  - rewrite Hm by discriminate. reflexivity.
  - now contradiction H.
Qed.

Lemma for_each_stable {A St : Type} (l : list A) (b1 b2 : A -> St -> res St) :
  (forall x s, In x l -> b1 x s <> Timeout -> b2 x s = b1 x s) ->
  forall s, for_each l s b1 <> Timeout -> for_each l s b2 = for_each l s b1.
Proof.
  induction l as [|x l IH]; intros Hb s H; [reflexivity|].
  cbn [for_each] in *. apply bind_stable; [exact H| |].
  - intros Hx. apply Hb; [now left | exact Hx].
  - intros s1 _ H1. apply IH; [|exact H1]. intros y t Hy. apply Hb. now right.
Qed.

Section BlocksStable.

Variables parse1 parse2 :
  json -> option string -> bool -> list string -> nat -> list string -> bool ->
  res (list string).

Hypothesis parse_stable :
  forall obj name name_monospace parsed_lines indent_level path required,
    parse1 obj name name_monospace parsed_lines indent_level path required <> Timeout ->
    parse2 obj name name_monospace parsed_lines indent_level path required
    = parse1 obj name name_monospace parsed_lines indent_level path required.

Lemma parse_composition_stable (obj : dict) (parsed_lines : list string)
  (indent_level : nat) :
  parse_composition parse1 obj parsed_lines indent_level <> Timeout ->
  parse_composition parse2 obj parsed_lines indent_level
  = parse_composition parse1 obj parsed_lines indent_level.
Proof.
  unfold parse_composition. apply for_each_stable.
  intros [key label] s _ H. cbn beta iota zeta in *.
  destruct (get key obj) as [children|]; [|reflexivity].
  apply bind_stable; [exact H | reflexivity |].
  intros xs _. apply for_each_stable. intros x t _. apply parse_stable.
Qed.

Lemma parse_items_and_definitions_stable (obj : dict) (parsed_lines : list string)
  (indent_level : nat) :
  parse_items_and_definitions parse1 obj parsed_lines indent_level <> Timeout ->
  parse_items_and_definitions parse2 obj parsed_lines indent_level
  = parse_items_and_definitions parse1 obj parsed_lines indent_level.
Proof.
  unfold parse_items_and_definitions. apply for_each_stable.
  intros key s _ H. cbn beta in *.
  destruct (get key obj) as [sub|]; [|reflexivity]. now apply parse_stable.
Qed.

Lemma parse_extra_properties_stable (obj : dict) (parsed_lines : list string)
  (indent_level : nat) :
  parse_extra_properties parse1 obj parsed_lines indent_level <> Timeout ->
  parse_extra_properties parse2 obj parsed_lines indent_level
  = parse_extra_properties parse1 obj parsed_lines indent_level.
Proof.
  unfold parse_extra_properties. apply for_each_stable.
  intros key s _ H. cbn beta zeta in *.
  destruct (get (key ++ "Properties") obj) as [[| | | | |sub]|]; try reflexivity.
  now apply parse_stable.
Qed.

Lemma parse_child_properties_stable (obj : dict) (parsed_lines : list string)
  (indent_level : nat) :
  parse_child_properties parse1 obj parsed_lines indent_level <> Timeout ->
  parse_child_properties parse2 obj parsed_lines indent_level
  = parse_child_properties parse1 obj parsed_lines indent_level.
Proof.
  unfold parse_child_properties. apply for_each_stable.
  intros key s _ H. cbn beta in *.
  destruct (get key obj) as [props|]; [|reflexivity].
  apply bind_stable; [exact H | reflexivity |].
  intros items _. apply for_each_stable. intros [k x] t _ Ht. cbn beta iota in *.
  apply bind_stable; [exact Ht | reflexivity |].
  intros r _. apply parse_stable.
Qed.

End BlocksStable.

Section Stable.

Variable yaml_dump : json -> string.

Theorem parse_object_more_fuel (fuel : nat) (self : Parser) :
  forall (obj : json) (name : option string) (name_monospace : bool)
         (parsed_lines : list string) (indent_level : nat) (path : list string)
         (required : bool),
    _parse_object yaml_dump fuel self obj name name_monospace parsed_lines
                  indent_level path required <> Timeout ->
    _parse_object yaml_dump (S fuel) self obj name name_monospace parsed_lines
                  indent_level path required
    = _parse_object yaml_dump fuel self obj name name_monospace parsed_lines
                    indent_level path required.
Proof.
  induction fuel as [|fuel IH]; intros obj name mono pl indent path req H;
    [now contradiction H|].
  destruct obj as [| | | |elements|obj]; try reflexivity.
  - rewrite !parse_object_list in *. apply for_each_stable; [|exact H].
    intros x s _. apply IH.
  - rewrite (parse_object_dict yaml_dump (S fuel)).
    rewrite parse_object_dict in *.
    apply bind_stable; [exact H | reflexivity |]. intros base _ H1.
    apply bind_stable; [exact H1 | apply parse_composition_stable; exact IH |].
    intros pl1 _ H2.
    apply bind_stable;
      [exact H2 | apply parse_items_and_definitions_stable; exact IH |].
    intros pl2 _ H3.
    apply bind_stable; [exact H3 | apply parse_extra_properties_stable; exact IH |].
    intros pl3 _ H4.
    apply bind_stable; [exact H4 | apply parse_child_properties_stable; exact IH |].
    reflexivity.
Qed.

Corollary parse_object_fuel_irrelevant (fuel fuel' : nat) (self : Parser)
  (obj : json) (name : option string) (name_monospace : bool)
  (parsed_lines : list string) (indent_level : nat) (path : list string)
  (required : bool) :
  depth obj < fuel -> depth obj < fuel' ->
  _parse_object yaml_dump fuel' self obj name name_monospace parsed_lines
                indent_level path required
  = _parse_object yaml_dump fuel self obj name name_monospace parsed_lines
                  indent_level path required.
Proof.
  assert (Hup : forall n k,
             depth obj < n ->
             _parse_object yaml_dump (k + n) self obj name name_monospace
                           parsed_lines indent_level path required
             = _parse_object yaml_dump n self obj name name_monospace parsed_lines
                             indent_level path required).
  { intros n k Hn. induction k as [|k IHk]; [reflexivity|].
    cbn [Nat.add]. rewrite parse_object_more_fuel; [exact IHk|].
    rewrite IHk. now apply parse_object_returns. }
  intros H H'. destruct (Nat.le_ge_cases fuel fuel') as [Hle|Hle].
  - replace fuel' with ((fuel' - fuel) + fuel) by lia. now apply Hup.
  - symmetry. replace fuel with ((fuel - fuel') + fuel') by lia. now apply Hup.
Qed.

End Stable.

Lemma gather_props_more_fuel (fuel : nat) (prop : string) :
  forall obj,
    gather_props fuel obj prop <> Timeout ->
    gather_props (S fuel) obj prop = gather_props fuel obj prop.
Proof.
  induction fuel as [|fuel IH]; intros obj H; [now contradiction H|].
  remember (S fuel) as n eqn:En.
  cbn [gather_props]. rewrite En in *. cbn [gather_props] in H |- *.
  apply bind_stable; [exact H | reflexivity |]. intros found _ H1.
  apply bind_stable; [exact H1 | reflexivity |]. intros res _ H2.
  apply bind_stable; [exact H2 | reflexivity |]. intros found' _ H3.
  destruct found'; [|reflexivity].
  apply bind_stable; [exact H3 | reflexivity |]. intros all_of _ H4.
  apply bind_stable; [exact H4 | reflexivity |]. intros subs _.
  apply for_each_stable. intros sub acc _ Hs. cbn beta in *.
  apply bind_stable; [exact Hs | | reflexivity].
  apply IH.
Qed.

Section DocumentStable.

Variable yaml_dump : json -> string.

Ltac walker_stable :=
  match goal with
  | H : bind (_parse_object _ _ _ _ _ _ _ _ _ _) _ <> Timeout |- _ =>
      apply bind_stable;
      [exact H | apply parse_object_more_fuel | reflexivity]
  end.

Theorem parse_schema_more_fuel (fuel : nat) (self : Parser)
  (schema_object_master : dict) :
  parse_schema yaml_dump fuel self schema_object_master <> Timeout ->
  parse_schema yaml_dump (S fuel) self schema_object_master
  = parse_schema yaml_dump fuel self schema_object_master.
Proof.
  unfold parse_schema. intros H.
  apply bind_stable; [exact H| |].
  { unfold add_items.
    intros H1. apply bind_stable; [exact H1 | apply gather_props_more_fuel |].
    intros g _ H2. apply bind_stable; [exact H2 | | reflexivity].
    apply for_each_stable. intros x [first lines] _ Hx. cbn beta iota in *.
    destruct (negb first); cbn iota in *; walker_stable. }
  intros l1 _ H1. apply bind_stable; [exact H1| |].
  { unfold add_extra_properties. apply for_each_stable.
    intros extra lines _ Hx. cbn beta zeta in *.
    destruct (get (extra ++ "Properties") schema_object_master)
      as [[| | | | |sub]|]; try reflexivity.
    walker_stable. }
  intros l2 _ H2. apply bind_stable; [exact H2| |].
  { unfold add_pattern_properties.
    intros H3. apply bind_stable; [exact H3 | apply gather_props_more_fuel |].
    intros g _ H4. apply bind_stable; [exact H4 | | reflexivity].
    apply for_each_stable. intros x [first lines] _ Hx. cbn beta iota in *.
    destruct (negb first); cbn iota in *;
      (apply bind_stable; [exact Hx | reflexivity |]); intros items _ Hi;
      (apply bind_stable; [exact Hi | | reflexivity]);
      apply for_each_stable; intros [k v] t _ Ht; cbn beta iota in *;
      walker_stable. }
  intros l3 _ H3. apply bind_stable; [exact H3| |].
  { unfold add_properties.
    intros H4. apply bind_stable; [exact H4 | apply gather_props_more_fuel |].
    intros g _ H5. apply bind_stable; [exact H5 | | reflexivity].
    apply for_each_stable. intros x [first lines] _ Hx. cbn beta iota in *.
    destruct first; cbn iota in *;
      (apply bind_stable; [exact Hx | reflexivity |]); intros items _ Hi;
      (apply bind_stable; [exact Hi | | reflexivity]);
      apply for_each_stable; intros [k v] t _ Ht; cbn beta iota in *;
      (apply bind_stable; [exact Ht | reflexivity |]); intros req _ Hr;
      walker_stable. }
  intros l4 _ H4. apply bind_stable; [exact H4| |reflexivity].
  unfold add_definitions. apply for_each_stable.
  intros name lines _ Hx. cbn beta in *.
  destruct (get name schema_object_master) as [defs|]; [|reflexivity].
  apply bind_stable; [exact Hx | reflexivity |]. intros items _.
  apply for_each_stable. intros [k v] t _ Ht. cbn beta iota in *.
  walker_stable.
Qed.

Corollary parse_schema_fuel_irrelevant (fuel fuel' : nat) (self : Parser)
  (schema_object_master : dict) :
  depth (JObj schema_object_master) < fuel ->
  depth (JObj schema_object_master) < fuel' ->
  parse_schema yaml_dump fuel' self schema_object_master
  = parse_schema yaml_dump fuel self schema_object_master.
Proof.
  assert (Hup : forall n k,
             depth (JObj schema_object_master) < n ->
             parse_schema yaml_dump (k + n) self schema_object_master
             = parse_schema yaml_dump n self schema_object_master).
  { intros n k Hn. induction k as [|k IHk]; [reflexivity|].
    cbn [Nat.add]. rewrite parse_schema_more_fuel; [exact IHk|].
    rewrite IHk. now apply parse_schema_returns. }
  intros H H'. destruct (Nat.le_ge_cases fuel fuel') as [Hle|Hle].
  - replace fuel' with ((fuel' - fuel) + fuel) by lia. now apply Hup.
  - symmetry. replace fuel with ((fuel - fuel') + fuel') by lia. now apply Hup.
Qed.

End DocumentStable.

(** * Further properties *)

(** ** The description line *)

Lemma is_end_mark_In (c : ascii) :
  is_end_mark c = true <-> In c ["."; "?"; "!"; ";"]%char.
Proof.
  unfold is_end_mark. cbn [has_char In]. rewrite !orb_true_iff, !Ascii.eqb_eq.
  split.
  - intros [H|[H|[H|[H|H]]]]; try discriminate H; subst; auto 6.
  - intros [H|[H|[H|[H|[]]]]]; subst; auto 6.
Qed.

Lemma search_end_mark_ends_sentence (s : string) :
  search_end_mark s = true <-> ends_sentence s.
Proof.
  unfold search_end_mark, ends_sentence. split.
  - destruct (PyStr.rev s) as [|c r] eqn:E; [discriminate|].
    assert (Hs : s = PyStr.rev r ++ String c "").
    { rewrite <- (rev_involutive s), E. reflexivity. }
    intros H. apply orb_true_iff in H. destruct H as [H|H].
    + exists (PyStr.rev r), c. split; [now apply is_end_mark_In | now left].
    + apply andb_true_iff in H. destruct H as [Hc H].
      destruct r as [|c' r']; [discriminate H|].
      exists (PyStr.rev r'), c'. split; [now apply is_end_mark_In|]. right.
      apply Nat.eqb_eq in Hc.
      assert (c = ascii_of_nat 10).
      { rewrite <- (ascii_nat_embedding c). unfold code in Hc. now rewrite Hc. }
      subst c. rewrite Hs. cbn [PyStr.rev]. rewrite append_assoc. reflexivity.
  - intros [p [c [Hc [->| ->]]]]; rewrite rev_append; cbn [PyStr.rev String.append nl].
    + apply is_end_mark_In in Hc. rewrite Hc. reflexivity.
    + apply is_end_mark_In in Hc. cbn [String.append]. rewrite Hc.
      apply orb_true_r.
Qed.

(** X1: a [description] that is a string is the first fragment: verbatim when
    it ends in one of [. ? ! ;] (possibly followed by one final newline), with a
    period appended otherwise; the fragments after it are those of the node
    without [description]. *)
Theorem description_comes_first (obj : dict) (add_type : bool) (s : string)
  (out : list string) :
  get "description" obj = Some (JStr s) ->
  _construct_description_line obj add_type = Ok out ->
  exists rest : list string,
    _construct_description_line (remove "description" obj) add_type = Ok rest
    /\ (ends_sentence s -> out = s :: rest)
    /\ (~ ends_sentence s -> out = (s ++ ".") :: rest).
Proof.
  intros Hget H. rewrite cdl_fragments in H. rewrite cdl_fragments.
  frame (remove "description" obj) obj.
  replace (description_fragment (remove "description" obj))
    with (@Ok (list string) []) by frame_get.
  unfold description_fragment in H. rewrite Hget in H. cbn [str bind] in H.
  destruct (ref_fragment obj) as [r| |]; try discriminate H.
  cbn [bind] in H. injection H as <-. cbn [bind].
  eexists. split; [reflexivity|].
  rewrite <- search_end_mark_ends_sentence.
  destruct (search_end_mark s); split; intros Hs.
  - rewrite append_nil_r. reflexivity.
  - exfalso. apply Hs. reflexivity.
  - discriminate Hs.
  - reflexivity.
Qed.

Lemma description_comes_first_witness :
  exists rest : list string,
    _construct_description_line
      (remove "description" [("description", JStr "Who?"); ("default", JNum 1)]) false
    = Ok rest
    /\ (ends_sentence "Who?" -> ["Who?"; "Default: `1`."] = "Who?" :: rest)
    /\ (~ ends_sentence "Who?" -> ["Who?"; "Default: `1`."] = ("Who?" ++ ".") :: rest).
Proof.
  apply (description_comes_first
           [("description", JStr "Who?"); ("default", JNum 1)] false "Who?");
    reflexivity.
Defined.

(** X2: [_construct_description_line] raises a built-in [TypeError] when
    [description] is present and is not a string (line 75), and, when no such
    [description] stands in the way, a built-in [AttributeError] when [$ref] is
    present and is not a string (line 113). *)
Theorem description_line_failures (obj : dict) (add_type : bool) :
  (forall d, get "description" obj = Some d -> is_str d = false ->
             _construct_description_line obj add_type = Raise BuiltinTypeError)
  /\ (forall r,
         (forall d, get "description" obj = Some d -> is_str d = true) ->
         get "$ref" obj = Some r -> is_str r = false ->
         _construct_description_line obj add_type = Raise BuiltinAttributeError).
Proof.
  rewrite cdl_fragments. unfold description_fragment, ref_fragment.
  split.
  - intros d -> Hd. destruct d; try discriminate Hd; reflexivity.
  - intros r Hd -> Hr.
    destruct (get "description" obj) as [d|].
    + specialize (Hd d eq_refl). destruct d; try discriminate Hd.
      destruct r; try discriminate Hr; reflexivity.
    + destruct r; try discriminate Hr; reflexivity.
Qed.

Lemma description_line_failures_witness :
  _construct_description_line [("description", JNum 3); ("$ref", JNum 4)] false
  = Raise BuiltinTypeError
  /\ _construct_description_line [("description", JStr "d"); ("$ref", JNull)] false
     = Raise BuiltinAttributeError.
Proof.
  split.
  - apply (proj1 (description_line_failures
                    [("description", JNum 3); ("$ref", JNum 4)] false) (JNum 3));
      reflexivity.
  - apply (proj2 (description_line_failures
                    [("description", JStr "d"); ("$ref", JNull)] false) JNull).
    + intros d [= <-]. reflexivity.
    + reflexivity.
    + reflexivity.
Defined.

(** X20: on the values of the embedding (strings of code points 0 to 255,
    integer numbers) these two are the only failures: a node whose
    [description] and [$ref], when present, are strings has its fragments
    returned.  (The embedding has no lone surrogates, on which [quote] raises in
    a [$ref], and no limit on the digits [str] prints.) *)
Theorem description_line_returns_otherwise (obj : dict) (add_type : bool) :
  (forall d, get "description" obj = Some d -> is_str d = true) ->
  (forall r, get "$ref" obj = Some r -> is_str r = true) ->
  exists out, _construct_description_line obj add_type = Ok out.
Proof.
  rewrite cdl_fragments. unfold description_fragment, ref_fragment.
  intros Hd Hr.
  destruct (get "description" obj) as [d|];
    [specialize (Hd d eq_refl); destruct d; try discriminate Hd|];
    (destruct (get "$ref" obj) as [r|];
     [specialize (Hr r eq_refl); destruct r; try discriminate Hr|]);
    cbn [bind]; eexists; reflexivity.
Qed.

Lemma description_line_returns_otherwise_witness :
  exists out,
    _construct_description_line [("description", JStr "d"); ("$ref", JStr "r")] true
    = Ok out.
Proof.
  apply (description_line_returns_otherwise
           [("description", JStr "d"); ("$ref", JStr "r")] true).
  - intros d [= <-]. reflexivity.
  - intros r [= <-]. reflexivity.
Defined.

Lemma not_in_keywords (k : string) (keys : list string) :
  ~ In k keys -> Forall (fun key => String.eqb key k = false) keys.
Proof.
  intros H. apply Forall_forall. intros key Hkey.
  apply String.eqb_neq. intros ->. exact (H Hkey).
Qed.

(** X3: a key other than the fourteen keywords the method reads has no effect
    on the fragments. *)
Theorem description_line_ignores_other_keys (obj : dict) (add_type : bool)
  (k : string) :
  ~ In k description_keywords ->
  _construct_description_line (remove k obj) add_type
  = _construct_description_line obj add_type.
Proof.
  intros H. apply not_in_keywords in H. unfold description_keywords in H.
  repeat match goal with
         | H : Forall _ (_ :: _) |- _ => inversion H; subst; clear H
         end.
  rewrite !cdl_fragments.
  unfold description_fragment, type_fragment, bound_fragment, dumps_fragment,
    extra_props_fragment, ref_fragment, length_fragment, contains.
  cbn [String.append].
  repeat rewrite get_remove_neq by assumption.
  reflexivity.
Qed.

Lemma description_line_ignores_other_keys_witness :
  _construct_description_line
    (remove "title" [("title", JStr "T"); ("minimum", JNum 0)]) true
  = _construct_description_line [("title", JStr "T"); ("minimum", JNum 0)] true.
Proof.
  apply description_line_ignores_other_keys.
  cbv. intros H. repeat (destruct H as [H|H]; [discriminate H|]). exact H.
Defined.

(** X4: the sentence about the type is a matter of [add_type]: without it the
    [type] keyword has no effect on the fragments; with it a node with [type]
    gets exactly one more fragment, "Must be of type *T*.". *)
Theorem type_sentence_only_on_request (obj : dict) :
  _construct_description_line (remove "type" obj) false
  = _construct_description_line obj false
  /\ (forall t out,
         get "type" obj = Some t ->
         _construct_description_line obj true = Ok out ->
         exists pre post : list string,
           _construct_description_line (remove "type" obj) true = Ok (pre ++ post)%list
           /\ out = (pre ++ [("Must be of type *" ++ str t ++ "*.")%string]
                         ++ post)%list).
Proof.
  split.
  - rewrite !cdl_fragments. frame (remove "type" obj) obj. reflexivity.
  - intros t out Ht H. rewrite cdl_fragments in H. rewrite cdl_fragments.
    frame (remove "type" obj) obj.
    replace (type_fragment (remove "type" obj) true) with (@nil string) by frame_get.
    assert (HT : type_fragment obj true
                 = [("Must be of type *" ++ str t ++ "*.")%string])
      by (unfold type_fragment; now rewrite Ht).
    rewrite <- HT. clear HT. generalize dependent (type_fragment obj true).
    intros T H.
    destruct (description_fragment obj) as [d| |]; try discriminate H.
    destruct (ref_fragment obj) as [r| |]; try discriminate H.
    cbn [bind] in *. injection H as <-.
    exists d.
    exists (bound_fragment "minimum" "Minimum" obj
            ++ bound_fragment "exclusiveMinimum" "Exclusive minimum" obj
            ++ bound_fragment "maximum" "Maximum" obj
            ++ bound_fragment "exclusiveMaximum" "Exclusive maximum" obj
            ++ length_fragment obj
            ++ (dumps_fragment "enum" "Must be one of" obj
                ++ dumps_fragment "const" "Must be" obj)
            ++ extra_props_fragment "additional" obj
            ++ extra_props_fragment "unevaluated" obj
            ++ r ++ dumps_fragment "default" "Default" obj)%list.
    split; [f_equal|]; rewrite <- !app_assoc; reflexivity.
Qed.

Lemma type_sentence_only_on_request_witness :
  exists pre post : list string,
    _construct_description_line
      (remove "type" [("description", JStr "N."); ("type", JStr "integer");
                      ("minimum", JNum 0)]) true
    = Ok (pre ++ post)%list
    /\ ["N."; "Must be of type *integer*."; "Minimum: `0`."]
       = (pre ++ [("Must be of type *" ++ str (JStr "integer") ++ "*.")%string]
              ++ post)%list.
Proof.
  apply (proj2 (type_sentence_only_on_request
                  [("description", JStr "N."); ("type", JStr "integer");
                   ("minimum", JNum 0)]) (JStr "integer"));
    reflexivity.
Defined.

Ltac labelled_case obj v Hget Ed Er :=
  match goal with
  | |- context [remove ?k obj] =>
      frame (remove k obj) obj; rewrite Ed, Er; cbn [bind];
      first
        [ match goal with
          | |- context [bound_fragment k ?l (remove k obj)] =>
              replace (bound_fragment k l (remove k obj)) with (@nil string)
                by frame_get;
              replace (bound_fragment k l obj)
                with [(l ++ ": `" ++ str v ++ "`.")%string]
                by (unfold bound_fragment; now rewrite Hget);
              generalize [(l ++ ": `" ++ str v ++ "`.")%string]
          end
        | match goal with
          | |- context [dumps_fragment k ?l (remove k obj)] =>
              replace (dumps_fragment k l (remove k obj)) with (@nil string)
                by frame_get;
              replace (dumps_fragment k l obj)
                with [(l ++ ": `" ++ dumps v ++ "`.")%string]
                by (unfold dumps_fragment; now rewrite Hget);
              generalize [(l ++ ": `" ++ dumps v ++ "`.")%string]
          end ]
  end.

(** X5: each of [minimum], [exclusiveMinimum], [maximum], [exclusiveMaximum],
    [enum], [const] and [default] that is present adds exactly one fragment,
    its label followed by the value between backquotes and a period: the value
    as [str] prints it for the four bounds, JSON-encoded for the other three;
    the other fragments are those of the node without the keyword. *)
Theorem labelled_keyword_sentence_once (obj : dict) (add_type : bool)
  (key label : string) (render : json -> string) (v : json) (out : list string) :
  In (key, label, render) labelled_keywords ->
  get key obj = Some v ->
  _construct_description_line obj add_type = Ok out ->
  exists pre post : list string,
    _construct_description_line (remove key obj) add_type = Ok (pre ++ post)%list
    /\ out = (pre ++ [(label ++ ": `" ++ render v ++ "`.")%string] ++ post)%list.
Proof.
  intros Hin Hget H. rewrite cdl_fragments in H. rewrite cdl_fragments.
  unfold labelled_keywords in Hin.
  destruct (description_fragment obj) as [d| |] eqn:Ed; try discriminate H.
  destruct (ref_fragment obj) as [r| |] eqn:Er; try discriminate H.
  cbn [bind] in H. injection H as <-.
  destruct Hin as [Hin|[Hin|[Hin|[Hin|[Hin|[Hin|[Hin|[]]]]]]]];
    injection Hin as <- <- <-; labelled_case obj v Hget Ed Er; intros S.
  - exists (d ++ type_fragment obj add_type)%list. eexists.
    split; [f_equal|]; rewrite <- ?app_assoc; cbn [app]; reflexivity.
  - exists (d ++ type_fragment obj add_type
              ++ bound_fragment "minimum" "Minimum" obj)%list. eexists.
    split; [f_equal|]; rewrite <- ?app_assoc; cbn [app]; reflexivity.
  - exists (d ++ type_fragment obj add_type
              ++ bound_fragment "minimum" "Minimum" obj
              ++ bound_fragment "exclusiveMinimum" "Exclusive minimum" obj)%list.
    eexists. split; [f_equal|]; rewrite <- ?app_assoc; cbn [app]; reflexivity.
  - exists (d ++ type_fragment obj add_type
              ++ bound_fragment "minimum" "Minimum" obj
              ++ bound_fragment "exclusiveMinimum" "Exclusive minimum" obj
              ++ bound_fragment "maximum" "Maximum" obj)%list.
    eexists. split; [f_equal|]; rewrite <- ?app_assoc; cbn [app]; reflexivity.
  - exists (d ++ type_fragment obj add_type
              ++ bound_fragment "minimum" "Minimum" obj
              ++ bound_fragment "exclusiveMinimum" "Exclusive minimum" obj
              ++ bound_fragment "maximum" "Maximum" obj
              ++ bound_fragment "exclusiveMaximum" "Exclusive maximum" obj
              ++ length_fragment obj)%list.
    eexists. split; [f_equal|]; rewrite <- ?app_assoc; cbn [app]; reflexivity.
  - exists (d ++ type_fragment obj add_type
              ++ bound_fragment "minimum" "Minimum" obj
              ++ bound_fragment "exclusiveMinimum" "Exclusive minimum" obj
              ++ bound_fragment "maximum" "Maximum" obj
              ++ bound_fragment "exclusiveMaximum" "Exclusive maximum" obj
              ++ length_fragment obj
              ++ dumps_fragment "enum" "Must be one of" obj)%list.
    eexists. split; [f_equal|]; rewrite <- ?app_assoc; cbn [app]; reflexivity.
  - exists (d ++ type_fragment obj add_type
              ++ bound_fragment "minimum" "Minimum" obj
              ++ bound_fragment "exclusiveMinimum" "Exclusive minimum" obj
              ++ bound_fragment "maximum" "Maximum" obj
              ++ bound_fragment "exclusiveMaximum" "Exclusive maximum" obj
              ++ length_fragment obj
              ++ dumps_fragment "enum" "Must be one of" obj
              ++ dumps_fragment "const" "Must be" obj
              ++ extra_props_fragment "additional" obj
              ++ extra_props_fragment "unevaluated" obj
              ++ r)%list.
    exists (@nil string).
    split; [f_equal|]; rewrite <- ?app_assoc; cbn [app]; rewrite ?app_nil_r;
      reflexivity.
Qed.

Lemma labelled_keyword_sentence_once_witness :
  exists pre post : list string,
    _construct_description_line
      (remove "enum" [("description", JStr "Colour"); ("enum", JArr [JStr "red"; JNull]);
                      ("default", JStr "red")]) false
    = Ok (pre ++ post)%list
    /\ ["Colour."; "Must be one of: `[" ++ dquote ++ "red" ++ dquote ++ ", null]`.";
        "Default: `" ++ dquote ++ "red" ++ dquote ++ "`."]
       = (pre ++ [("Must be one of" ++ ": `" ++ dumps (JArr [JStr "red"; JNull])
                   ++ "`.")%string] ++ post)%list.
Proof.
  apply (labelled_keyword_sentence_once
           [("description", JStr "Colour"); ("enum", JArr [JStr "red"; JNull]);
            ("default", JStr "red")] false "enum" "Must be one of" dumps).
  - cbn. auto 6.
  - reflexivity.
  - reflexivity.
Defined.

(** ** Example blocks *)

Lemma concat_empty_cons (x : string) (xs : list string) :
  String.concat "" (x :: xs) = x ++ String.concat "" xs.
Proof. destruct xs; simpl; [now rewrite append_nil_r | reflexivity]. Qed.

Lemma readlines_from_prefix_lines (head : string) (s : string) :
  forall cur,
    String.concat "" (map (fun line => head ++ line) (readlines_from cur s))
    = match cur with
      | EmptyString => prefix_lines head true s
      | _ => head ++ cur ++ prefix_lines head false s
      end.
Proof.
  induction s as [|c r IH]; intros cur.
  - destruct cur; cbn [readlines_from map prefix_lines]; [reflexivity|].
    cbn [String.concat]. now rewrite append_nil_r.
  - transitivity (head ++ cur
                  ++ String c (prefix_lines head (code c =? 10)%nat r));
      [|destruct cur; reflexivity].
    cbn [readlines_from]. destruct (code c =? 10)%nat eqn:E.
    + cbn [map]. rewrite concat_empty_cons, (IH "").
      assert (Hc : forall q, String c q = nl ++ q).
      { intros q. apply Nat.eqb_eq in E. unfold nl. cbn [String.append]. f_equal.
        rewrite <- (ascii_nat_embedding c). unfold code in E. now rewrite E. }
      rewrite Hc, !append_assoc. reflexivity.
    + rewrite IH.
      transitivity (head ++ (cur ++ String c "") ++ prefix_lines head false r);
        [destruct cur; reflexivity|].
      rewrite append_assoc. reflexivity.
Qed.

(** X6: the JSON dump of an example is [json.dumps(example, indent=4)] with the
    line head put in front of every line and nothing else changed; with an empty
    line head it is the dump itself.  The YAML dump is prefixed the same way and
    then stripped of trailing whitespace. *)
Theorem dump_with_line_head_prefixes_lines (yaml_dump : json -> string) (obj : json)
  (line_head : string) :
  dump_json_with_line_head obj line_head
  = prefix_lines line_head true (dumps_indent 0 obj)
  /\ dump_json_with_line_head obj "" = dumps_indent 0 obj
  /\ dump_yaml_with_line_head yaml_dump obj line_head
     = rstrip (prefix_lines line_head true (yaml_dump obj)).
Proof.
  unfold dump_json_with_line_head, dump_yaml_with_line_head, readlines, join.
  rewrite !readlines_from_prefix_lines. repeat split.
  generalize (dumps_indent 0 obj). generalize true.
  intros b s. revert b. induction s as [|c r IH]; intros b; [reflexivity|].
  cbn [prefix_lines]. rewrite IH. destruct b; reflexivity.
Qed.

Lemma fold_left_append_map {A : Type} (f : A -> string) (xs : list A) :
  forall acc : list string,
    fold_left (fun acc x => (acc ++ [f x])%list) xs acc = (acc ++ map f xs)%list.
Proof.
  induction xs as [|x xs IH]; intros acc; cbn [fold_left map].
  - now rewrite app_nil_r.
  - rewrite IH, <- app_assoc. reflexivity.
Qed.

Section Examples.

Variable yaml_dump : json -> string.

(** X7: without an [examples] key nothing is rendered; an [examples] value that
    cannot be iterated (null, a boolean, a number) makes the method fail with a
    built-in [TypeError]; otherwise the result is the optional "Examples:"
    header followed by one fenced block per example, in order, tagged [yaml] or
    [json] as the parser is configured and indented like the node. *)
Theorem construct_examples_blocks (self : Parser) (obj : dict) (indent_level : nat)
  (add_header : bool) :
  (get "examples" obj = None ->
   _construct_examples yaml_dump self obj indent_level add_header = Ok [])
  /\ (forall v, get "examples" obj = Some v -> py_iter v = Raise BuiltinTypeError ->
                _construct_examples yaml_dump self obj indent_level add_header
                = Raise BuiltinTypeError)
  /\ (forall v examples,
         get "examples" obj = Some v -> py_iter v = Ok examples ->
         let indentation := spaces (tab_size * indent_level) in
         _construct_examples yaml_dump self obj indent_level add_header
         = Ok ((if add_header then [(nl ++ indentation ++ "Examples:" ++ nl)%string] else [])
               ++ map (fun example =>
                         if examples_as_yaml self
                         then example_block indentation "yaml"
                                (dump_yaml_with_line_head yaml_dump example indentation)
                         else example_block indentation "json"
                                (dump_json_with_line_head example indentation))
                      examples)%list).
Proof.
  unfold _construct_examples. split; [|split].
  - intros ->. reflexivity.
  - intros v -> Hv. rewrite Hv. reflexivity.
  - intros v examples Hget Hv. cbv zeta. rewrite Hget, Hv. cbn [bind]. f_equal.
    unfold example_block.
    destruct (examples_as_yaml self); cbn iota beta;
      rewrite fold_left_append_map; destruct add_header; reflexivity.
Qed.

End Examples.

Lemma construct_examples_blocks_witness :
  _construct_examples yaml_unused default_parser [("type", JStr "integer")] 1 true
  = Ok []
  /\ _construct_examples yaml_unused default_parser [("examples", JNum 3)] 1 true
     = Raise BuiltinTypeError
  /\ _construct_examples yaml_unused default_parser
       [("examples", JArr [JNum 1; JStr "a"])] 1 true
     = Ok ((if true then [(nl ++ spaces (tab_size * 1) ++ "Examples:" ++ nl)%string] else [])
           ++ map (fun example =>
                     if examples_as_yaml default_parser
                     then example_block (spaces (tab_size * 1)) "yaml"
                            (dump_yaml_with_line_head yaml_unused example
                                                      (spaces (tab_size * 1)))
                     else example_block (spaces (tab_size * 1)) "json"
                            (dump_json_with_line_head example (spaces (tab_size * 1))))
                  [JNum 1; JStr "a"])%list.
Proof.
  split; [|split].
  - apply (proj1 (construct_examples_blocks yaml_unused default_parser
                    [("type", JStr "integer")] 1 true)).
    reflexivity.
  - apply (proj1 (proj2 (construct_examples_blocks yaml_unused default_parser
                           [("examples", JNum 3)] 1 true)) (JNum 3));
      reflexivity.
  - apply (proj2 (proj2 (construct_examples_blocks yaml_unused default_parser
                           [("examples", JArr [JNum 1; JStr "a"])] 1 true))
             (JArr [JNum 1; JStr "a"]));
      reflexivity.
Defined.

(** ** Sequences of appended lines *)

Lemma append_line_separator (line : string) (new_lines : list string) :
  exists sep : list string,
    append_line line new_lines = (new_lines ++ sep ++ [line])%list
    /\ (sep = [] \/ sep = [nl]).
Proof.
  unfold append_line. destruct (last_line new_lines) as [last|].
  - destruct (_ && _).
    + exists [nl]. split; [now rewrite <- app_assoc | now right].
    + exists []. split; [reflexivity | now left].
  - exists []. split; [reflexivity | now left].
Qed.

(** X8: lines appended one after the other are all kept, in order, after what
    was there before, and nothing but blank lines comes between them: dropping
    the blank lines from the result gives back the earlier lines followed by
    the appended ones (none of which is itself a blank line). *)
Theorem append_lines_keeps_lines (lines : list string) :
  Forall (fun line => line <> nl) lines ->
  forall new_lines,
    filter not_blank (append_lines lines new_lines)
    = (filter not_blank new_lines ++ lines)%list.
Proof.
  unfold append_lines.
  induction lines as [|line lines IH]; intros Hlines new_lines; cbn [fold_left].
  - now rewrite app_nil_r.
  - inversion Hlines as [|? ? Hline Hrest]; subst.
    rewrite (IH Hrest).
    destruct (append_line_separator line new_lines) as [sep [-> Hsep]].
    rewrite !filter_app.
    assert (Hl : filter not_blank [line] = [line]).
    { cbn [filter]. unfold not_blank.
      destruct (String.eqb line nl) eqn:E; [|reflexivity].
      apply String.eqb_eq in E. contradiction. }
    rewrite Hl. destruct Hsep as [-> | ->]; cbn [filter app];
      rewrite <- ?app_assoc; reflexivity.
Qed.

Lemma append_lines_keeps_lines_witness :
  filter not_blank
    (append_lines ["- a" ++ nl; "  - b" ++ nl; "- c" ++ nl] ["# T" ++ nl])
  = (filter not_blank [("# T" ++ nl)%string]
       ++ [("- a" ++ nl)%string; ("  - b" ++ nl)%string; ("- c" ++ nl)%string])%list.
Proof.
  apply append_lines_keeps_lines.
  repeat constructor; discriminate.
Defined.

(** ** Invariants of the traversal *)

Ltac appended_first blank own :=
  match goal with
  | |- extends _ ?pl _ =>
      match goal with
      | H : context [append_line ?line pl] |- _ =>
          apply extends_trans with (append_line line pl);
          [apply extends_append_line; [apply blank | apply own]|]
      end
  end.

Section WalkerInvariant.

Variable yaml_dump : json -> string.
Variable self : Parser.
Variable P : nat -> string -> Prop.

Hypothesis P_blank : forall i, P i nl.
Hypothesis P_full_line :
  forall i obj name name_monospace path required base,
    P i (full_line obj name name_monospace i path required base).
Hypothesis P_list_header :
  forall i name, P i (spaces (tab_size * i) ++ "- **" ++ str_opt name ++ "**:" ++ nl).
Hypothesis P_label :
  forall i label, P i (spaces (tab_size * (i + 1)) ++ "- **" ++ label ++ "**" ++ nl).
Hypothesis P_examples :
  forall i obj lines,
    mem (show_examples self) ["all"; "properties"] = true ->
    _construct_examples yaml_dump self obj i true = Ok lines ->
    Forall (P i) lines.
Hypothesis P_deeper : forall i j line, i <= j -> P j line -> P i line.

Lemma parse_object_invariant (fuel : nat) :
  forall (obj : json) (name : option string) (name_monospace : bool)
         (parsed_lines : list string) (indent_level : nat) (path : list string)
         (required : bool) (out : list string),
    _parse_object yaml_dump fuel self obj name name_monospace parsed_lines
                  indent_level path required = Ok out ->
    extends (P indent_level) parsed_lines out.
Proof.
  induction fuel as [|fuel IH]; intros obj name mono pl i path req out H;
    [discriminate H|].
  assert (IH' : forall k obj name mono pl path req out,
             _parse_object yaml_dump fuel self obj name mono pl (i + k) path req
             = Ok out ->
             extends (P i) pl out).
  { intros k o n m l p r o' Ho. apply IH in Ho.
    eapply extends_weaken; [|exact Ho]. intros x. apply P_deeper. lia. }
  destruct obj as [| | | |elements|obj]; try discriminate H.
  - rewrite parse_object_list in H.
    appended_first P_blank P_list_header.
    eapply for_each_extends; [|exact H].
    intros x s s' _ Hx. cbn beta in Hx. exact (IH' 1 _ _ _ _ _ _ _ Hx).
  - rewrite parse_object_dict in H.
    apply bind_ok in H. destruct H as [base [_ H]].
    apply bind_ok in H. destruct H as [pl1 [H1 H]].
    apply bind_ok in H. destruct H as [pl2 [H2 H]].
    apply bind_ok in H. destruct H as [pl3 [H3 H]].
    apply bind_ok in H. destruct H as [pl4 [H4 H]].
    appended_first P_blank P_full_line.
    apply extends_trans with pl1.
    { revert H1. unfold parse_composition. apply for_each_extends.
      intros [key label] s s' _ Hx. cbn beta iota zeta in Hx.
      destruct (get key obj) as [children|];
        [|injection Hx as <-; apply extends_refl].
      apply bind_ok in Hx. destruct Hx as [xs [_ Hx]].
      appended_first P_blank P_label.
      eapply for_each_extends; [|exact Hx].
      intros x t t' _ Ht. cbn beta in Ht. exact (IH' 2 _ _ _ _ _ _ _ Ht). }
    apply extends_trans with pl2.
    { revert H2. unfold parse_items_and_definitions. apply for_each_extends.
      intros key s s' _ Hx. cbn beta in Hx.
      destruct (get key obj) as [sub|];
        [|injection Hx as <-; apply extends_refl].
      exact (IH' 1 _ _ _ _ _ _ _ Hx). }
    apply extends_trans with pl3.
    { revert H3. unfold parse_extra_properties. apply for_each_extends.
      intros key s s' _ Hx. cbn beta zeta in Hx.
      destruct (get (key ++ "Properties") obj) as [[| | | | |sub]|];
        try (injection Hx as <-; apply extends_refl).
      exact (IH' 1 _ _ _ _ _ _ _ Hx). }
    apply extends_trans with pl4.
    { revert H4. unfold parse_child_properties. apply for_each_extends.
      intros key s s' _ Hx. cbn beta in Hx.
      destruct (get key obj) as [props|];
        [|injection Hx as <-; apply extends_refl].
      apply bind_ok in Hx. destruct Hx as [items [_ Hx]].
      eapply for_each_extends; [|exact Hx].
      intros [k x] t t' _ Ht. cbn beta iota in Ht.
      apply bind_ok in Ht. destruct Ht as [r [_ Ht]].
      exact (IH' 1 _ _ _ _ _ _ _ Ht). }
    unfold add_examples in H. revert H.
    case_eq (mem (show_examples self) ["all"; "properties"]); intros Emode H.
    + apply bind_ok in H. destruct H as [ex [Hex H]]. injection H as <-.
      apply extends_app. exact (P_examples _ _ _ Emode Hex).
    + injection H as <-. apply extends_refl.
Qed.

End WalkerInvariant.

Lemma lstrip_length (s : string) : String.length (lstrip s) <= String.length s.
Proof.
  induction s as [|c r IH]; cbn [lstrip]; [lia|].
  destruct (is_space c); cbn [String.length] in *; lia.
Qed.

Lemma indent_width_spaces (n : nat) (s : string) :
  indent_width (spaces n ++ s) = n + indent_width s.
Proof.
  unfold indent_width. induction n as [|n IH]; [reflexivity|].
  cbn [spaces String.append lstrip String.length].
  change (is_space " ") with true. cbv iota.
  pose proof (lstrip_length (spaces n ++ s)). pose proof (lstrip_length s). lia.
Qed.

Lemma indent_width_nl (s : string) : indent_width (nl ++ s) = 1 + indent_width s.
Proof.
  unfold indent_width. change (nl ++ s) with (String "010" s).
  cbn [lstrip String.length]. change (is_space "010") with true. cbv iota.
  pose proof (lstrip_length s). lia.
Qed.

Lemma full_line_bullet (obj : dict) (name : option string) (name_monospace : bool)
  (indent_level : nat) (path : list string) (required : bool)
  (description_line_base : list string) :
  exists rest,
    full_line obj name name_monospace indent_level path required
              description_line_base
    = spaces (tab_size * indent_level) ++ "- " ++ rest.
Proof.
  unfold full_line.
  match goal with
  | |- context [let (_, _) := ?X in _] => destruct X as [obj_type name_formatted]
  end.
  eexists. reflexivity.
Qed.

Section Walker.

Variable yaml_dump : json -> string.

(** X9: on an object or list node the method first appends the node's own
    line, through [append_line], and everything it appends afterwards is a
    blank line, a bullet line or a line of an examples block; what
    [parsed_lines] held is kept in front. *)
Theorem walker_appends_own_line_first (fuel : nat) (self : Parser) (obj : json)
  (name : option string) (name_monospace : bool) (parsed_lines : list string)
  (indent_level : nat) (path : list string) (required : bool) (out : list string) :
  _parse_object yaml_dump fuel self obj name name_monospace parsed_lines
                indent_level path required = Ok out ->
  exists (line : string) (rest : list string),
    own_line obj name name_monospace indent_level path required = Some line
    /\ out = (append_line line parsed_lines ++ rest)%list
    /\ Forall walker_line rest
    /\ (parsed_lines = [] -> out = line :: rest).
Proof.
  intros H. destruct fuel as [|fuel]; [discriminate H|].
  assert (Hnil : forall line rest,
             out = (append_line line parsed_lines ++ rest)%list ->
             parsed_lines = [] -> out = line :: rest).
  { intros line rest -> ->. reflexivity. }
  destruct obj as [| | | |elements|obj]; try discriminate H.
  - rewrite parse_object_list in H.
    apply (for_each_extends walker_line) in H.
    + destruct H as [rest [-> Hrest]]. eexists. exists rest.
      split; [reflexivity|]. split; [reflexivity|]. split; [exact Hrest|].
      now apply Hnil.
    + intros x s s' _ Hx. exact (parse_object_extends _ _ _ _ _ _ _ _ _ _ _ Hx).
  - apply parse_object_dict_extends in H;
      [|intros; eapply parse_object_extends; eassumption].
    destruct H as [base [Hbase [rest [-> Hrest]]]].
    eexists. exists rest. cbn [own_line]. rewrite Hbase.
    split; [reflexivity|]. split; [reflexivity|]. split; [exact Hrest|].
    now apply Hnil.
Qed.

(** X10: every line a call at indentation level [indent_level] appends is
    blank or starts with at least [tab_size * indent_level] whitespace
    characters: the lines of a node and of all its descendants sit at or
    below the node's own indentation. *)
Theorem walker_indentation (fuel : nat) (self : Parser) (obj : json)
  (name : option string) (name_monospace : bool) (parsed_lines : list string)
  (indent_level : nat) (path : list string) (required : bool) (out : list string) :
  _parse_object yaml_dump fuel self obj name name_monospace parsed_lines
                indent_level path required = Ok out ->
  exists suffix,
    out = (parsed_lines ++ suffix)%list /\ Forall (indented_at indent_level) suffix.
Proof.
  apply (parse_object_invariant yaml_dump self indented_at).
  - intros i. now left.
  - intros i o n m p r b. right.
    destruct (full_line_bullet o n m i p r b) as [rest ->].
    rewrite indent_width_spaces. lia.
  - intros i n. right. rewrite indent_width_spaces. lia.
  - intros i label. right. rewrite indent_width_spaces. lia.
  - intros i o lines _. apply construct_examples_Forall.
    + right. rewrite indent_width_nl, indent_width_spaces. lia.
    + intros lang body. right. unfold example_block.
      rewrite indent_width_spaces. lia.
  - intros i j line Hij [->|H]; [now left | right]. unfold tab_size in *. lia.
Qed.

(** X11: a parser whose [show_examples] is neither [all] nor [properties]
    (so [object], after the constructor) makes the method append blank lines and
    bullet lines only: no examples block is written below the root. *)
Theorem walker_without_examples_only_bullets (fuel : nat) (self : Parser)
  (obj : json) (name : option string) (name_monospace : bool)
  (parsed_lines : list string) (indent_level : nat) (path : list string)
  (required : bool) (out : list string) :
  mem (show_examples self) ["all"; "properties"] = false ->
  _parse_object yaml_dump fuel self obj name name_monospace parsed_lines
                indent_level path required = Ok out ->
  exists suffix,
    out = (parsed_lines ++ suffix)%list /\ Forall bullet_or_blank suffix.
Proof.
  intros Hmode.
  apply (parse_object_invariant yaml_dump self (fun _ => bullet_or_blank)).
  - intros _. now left.
  - intros i o n m p r b. right.
    destruct (full_line_bullet o n m i p r b) as [rest ->]. eauto.
  - intros i n. right.
    exists (tab_size * i), ("**" ++ str_opt n ++ "**:" ++ nl). reflexivity.
  - intros i label. right.
    exists (tab_size * (i + 1)), ("**" ++ label ++ "**" ++ nl). reflexivity.
  - intros i o lines Hall. rewrite Hmode in Hall. discriminate Hall.
  - intros i j line _ H. exact H.
Qed.

End Walker.

Lemma walker_appends_own_line_first_witness :
  exists (line : string) (rest : list string),
    own_line (JObj [("type", JStr "object");
                    ("properties", JObj [("a", JObj [("type", JStr "string")])])])
             (Some "x") true 0 [] false = Some line
    /\ ["- **`x`** *(object)*" ++ nl; nl; "  - **`a`** *(string)*" ++ nl]%string
       = (append_line line [] ++ rest)%list
    /\ Forall walker_line rest
    /\ (@nil string = [] -> ["- **`x`** *(object)*" ++ nl; nl; "  - **`a`** *(string)*" ++ nl]%string
                   = line :: rest).
Proof.
  apply (walker_appends_own_line_first yaml_unused 3 default_parser
           (JObj [("type", JStr "object");
                  ("properties", JObj [("a", JObj [("type", JStr "string")])])])
           (Some "x") true [] 0 [] false).
  vm_compute. reflexivity.
Defined.

Lemma walker_indentation_witness :
  exists suffix,
    ["    - **`x`** *(object)*" ++ nl; nl; "      - **`a`** *(string)*" ++ nl]%string
    = ([] ++ suffix)%list /\ Forall (indented_at 2) suffix.
Proof.
  apply (walker_indentation yaml_unused 3 default_parser
           (JObj [("type", JStr "object");
                  ("properties", JObj [("a", JObj [("type", JStr "string")])])])
           (Some "x") true [] 2 [] false).
  vm_compute. reflexivity.
Defined.

Lemma walker_without_examples_only_bullets_witness :
  exists suffix,
    ["- **`x`** *(string)*" ++ nl]%string = ([] ++ suffix)%list
    /\ Forall bullet_or_blank suffix.
Proof.
  apply (walker_without_examples_only_bullets yaml_unused 3
           {| examples_as_yaml := false; show_examples := "object" |}
           (JObj [("type", JStr "string"); ("examples", JArr [JStr "e"])])
           (Some "x") true [] 0 [] false).
  - reflexivity.
  - vm_compute. reflexivity.
Defined.

(** ** Schemas the traversal accepts *)

Lemma for_each_ok_In {A St : Type} (l : list A) (body : A -> St -> res St) (x : A) :
  In x l ->
  forall s s', for_each l s body = Ok s' -> exists s1 s2, body x s1 = Ok s2.
Proof.
  induction l as [|y l IH]; intros Hin s s' H; [destruct Hin|].
  simpl in H. apply bind_ok in H. destruct H as [s1 [Hy H]].
  destruct Hin as [->|Hin]; [eauto | exact (IH Hin _ _ H)].
Qed.

Lemma py_iter_ok (v : json) : (exists xs, py_iter v = Ok xs) <-> is_iterable v = true.
Proof.
  split.
  - intros [xs H]. destruct v; try discriminate H; reflexivity.
  - intros H. destruct v; try discriminate H; eexists; reflexivity.
Qed.

Lemma py_contains_ok (x : string) (v : json) :
  (exists b, py_contains x v = Ok b) <-> is_iterable v = true.
Proof.
  split.
  - intros [b H]. destruct v; try discriminate H; reflexivity.
  - intros H. destruct v; try discriminate H; eexists; reflexivity.
Qed.

Lemma py_items_ok (v : json) (items : dict) : py_items v = Ok items <-> v = JObj items.
Proof.
  destruct v; cbn [py_items]; split; intros H; try discriminate H;
    injection H as <-; reflexivity.
Qed.

Lemma construct_description_line_ok (obj : dict) (add_type : bool) :
  (exists out, _construct_description_line obj add_type = Ok out)
  <-> key_ok is_str "description" obj = true /\ key_ok is_str "$ref" obj = true.
Proof.
  rewrite cdl_fragments. unfold description_fragment, ref_fragment, key_ok.
  split.
  - intros [out H].
    destruct (get "description" obj) as [[]|]; try discriminate H;
      destruct (get "$ref" obj) as [[]|]; try discriminate H; split; reflexivity.
  - intros [H1 H2].
    destruct (get "description" obj) as [[]|]; try discriminate H1;
      destruct (get "$ref" obj) as [[]|]; try discriminate H2;
      eexists; reflexivity.
Qed.

Lemma listed_as_required_ok (k : string) (d : dict) :
  (exists b, listed_as_required k d = Ok b) <-> key_ok is_iterable "required" d = true.
Proof.
  unfold listed_as_required, key_ok. destruct (get "required" d) as [r|].
  - apply py_contains_ok.
  - split; [reflexivity | intros _; eexists; reflexivity].
Qed.

Lemma has_property_spec (d : dict) :
  has_property d = true ->
  exists key item items,
    In key ["properties"; "patternProperties"] /\ get key d = Some (JObj (item :: items)).
Proof.
  unfold has_property. intros H. apply existsb_exists in H.
  destruct H as [key [Hin H]].
  destruct (get key d) as [[| | | | |[|item items]]|] eqn:E; try discriminate H.
  exists key, item, items. split; [exact Hin | exact E].
Qed.

Lemma key_ok_get (test : json -> bool) (key : string) (d : dict) (v : json) :
  key_ok test key d = true -> get key d = Some v -> test v = true.
Proof. unfold key_ok. intros H E. rewrite E in H. exact H. Qed.

Section WellTyped.

Variable yaml_dump : json -> string.
Variable self : Parser.

Lemma construct_examples_ok (obj : dict) (indent_level : nat) (add_header : bool) :
  (exists lines, _construct_examples yaml_dump self obj indent_level add_header
                 = Ok lines)
  <-> key_ok is_iterable "examples" obj = true.
Proof.
  unfold _construct_examples, key_ok.
  destruct (get "examples" obj) as [v|];
    [|split; [reflexivity | intros _; eexists; reflexivity]].
  rewrite <- py_iter_ok. split.
  - intros [lines H]. apply bind_ok in H. destruct H as [xs [H _]]. eauto.
  - intros [xs ->]. cbn [bind]. eexists. reflexivity.
Qed.

Lemma well_typed_never_raises (fuel : nat) :
  forall (obj : json) (name : option string) (name_monospace : bool)
         (parsed_lines : list string) (indent_level : nat) (path : list string)
         (required : bool) (e : exn),
    well_typed self obj ->
    _parse_object yaml_dump fuel self obj name name_monospace parsed_lines
                  indent_level path required <> Raise e.
Proof.
  induction fuel as [|fuel IH]; intros obj name mono pl i path req e Hwt H;
    [discriminate H|].
  destruct Hwt as [l Hl|d Hnode Hch].
  - rewrite parse_object_list in H.
    apply for_each_raise in H. destruct H as [x [s [Hin H]]]. cbn beta in H.
    exact (IH _ _ _ _ _ _ _ _ (Hl x Hin) H).
  - rewrite parse_object_dict in H.
    unfold node_ok in Hnode.
    apply andb_prop in Hnode. destruct Hnode as [Hnode Hex].
    apply andb_prop in Hnode. destruct Hnode as [Hnode Hreq].
    apply andb_prop in Hnode. destruct Hnode as [Hnode Hprops].
    apply andb_prop in Hnode. destruct Hnode as [Hnode Hcomp].
    apply andb_prop in Hnode. destruct Hnode as [Hdesc Href].
    pose proof (proj1 (forallb_forall _ _) Hcomp) as Hcomp'.
    pose proof (proj1 (forallb_forall _ _) Hprops) as Hprops'.
    cbv beta in Hcomp', Hprops'.
    destruct (proj2 (construct_description_line_ok d false) (conj Hdesc Href))
      as [base Hbase].
    rewrite Hbase in H. cbn [bind] in H.
    apply bind_raise in H. destruct H as [H|[pl1 [_ H]]].
    { unfold parse_composition in H.
      apply for_each_raise in H. destruct H as [[key label] [s [Hin H]]].
      cbn beta iota zeta in H. apply (in_map fst) in Hin. cbn [map fst] in Hin.
      destruct (get key d) as [children|] eqn:Hget; [|discriminate H].
      pose proof (key_ok_get _ _ _ _ (Hcomp' key Hin) Hget) as Hit.
      apply py_iter_ok in Hit. destruct Hit as [xs Hxs].
      rewrite Hxs in H. cbn [bind] in H.
      apply for_each_raise in H. destruct H as [x [t [Hx H]]]. cbn beta in H.
      exact (IH _ _ _ _ _ _ _ _ (Hch x (child_branch d key children xs x Hin Hget Hxs Hx))
                H). }
    apply bind_raise in H. destruct H as [H|[pl2 [_ H]]].
    { unfold parse_items_and_definitions in H.
      apply for_each_raise in H. destruct H as [key [s [Hin H]]]. cbn beta in H.
      destruct (get key d) as [sub|] eqn:Hget; [|discriminate H].
      exact (IH _ _ _ _ _ _ _ _ (Hch sub (child_keyword d key sub Hin Hget)) H). }
    apply bind_raise in H. destruct H as [H|[pl3 [_ H]]].
    { unfold parse_extra_properties in H.
      apply for_each_raise in H. destruct H as [key [s [Hin H]]].
      cbn beta zeta in H.
      destruct (get (key ++ "Properties") d) as [[| | | | |sub]|] eqn:Hget;
        try discriminate H.
      refine (IH _ _ _ _ _ _ _ _ (Hch _ (child_extra d _ sub _ Hget)) H).
      destruct Hin as [<-|[<-|[]]]; [left | right; left]; reflexivity. }
    apply bind_raise in H. destruct H as [H|[pl4 [_ H]]].
    { unfold parse_child_properties in H.
      apply for_each_raise in H. destruct H as [key [s [Hin H]]]. cbn beta in H.
      destruct (get key d) as [props|] eqn:Hget; [|discriminate H].
      pose proof (key_ok_get _ _ _ _ (Hprops' key Hin) Hget) as Hdict.
      destruct props as [| | | | |props]; try discriminate Hdict.
      cbn [py_items bind] in H.
      apply for_each_raise in H. destruct H as [[k x] [t [Hx H]]].
      cbn beta iota in H.
      assert (Hhas : has_property d = true).
      { unfold has_property. apply existsb_exists. exists key.
        split; [exact Hin|]. rewrite Hget. destruct props; [destruct Hx | reflexivity]. }
      rewrite Hhas in Hreq. cbn [negb orb] in Hreq.
      apply (listed_as_required_ok k) in Hreq. destruct Hreq as [b Hb].
      rewrite Hb in H. cbn [bind] in H.
      exact (IH _ _ _ _ _ _ _ _ (Hch x (child_property d key props k x Hin Hget Hx)) H). }
    unfold add_examples in H.
    destruct (mem (show_examples self) ["all"; "properties"]); [|discriminate H].
    cbn [negb orb] in Hex.
    apply (construct_examples_ok d i true) in Hex. destruct Hex as [lines Hlines].
    rewrite Hlines in H. discriminate H.
Qed.

Lemma returns_then_well_typed (fuel : nat) :
  forall (obj : json) (name : option string) (name_monospace : bool)
         (parsed_lines : list string) (indent_level : nat) (path : list string)
         (required : bool) (out : list string),
    _parse_object yaml_dump fuel self obj name name_monospace parsed_lines
                  indent_level path required = Ok out ->
    well_typed self obj.
Proof.
  induction fuel as [|fuel IH]; intros obj name mono pl i path req out H;
    [discriminate H|].
  destruct obj as [| | | |elements|d]; try discriminate H.
  - rewrite parse_object_list in H. constructor. intros x Hx.
    destruct (for_each_ok_In _ _ x Hx _ _ H) as [s1 [s2 Hs]]. cbn beta in Hs.
    exact (IH _ _ _ _ _ _ _ _ Hs).
  - rewrite parse_object_dict in H.
    apply bind_ok in H. destruct H as [base [Hbase H]].
    apply bind_ok in H. destruct H as [pl1 [H1 H]].
    apply bind_ok in H. destruct H as [pl2 [H2 H]].
    apply bind_ok in H. destruct H as [pl3 [H3 H]].
    apply bind_ok in H. destruct H as [pl4 [H4 H]].
    assert (Hcomp : forall key label children,
               In (key, label) schema_composition_keyword_map ->
               get key d = Some children ->
               exists xs, py_iter children = Ok xs
                          /\ forall x, In x xs -> well_typed self x).
    { intros key label children Hin Hget.
      destruct (for_each_ok_In _ _ _ Hin _ _ H1) as [s1 [s2 Hs]].
      cbn beta iota zeta in Hs. rewrite Hget in Hs.
      apply bind_ok in Hs. destruct Hs as [xs [Hxs Hs]].
      exists xs. split; [exact Hxs|]. intros x Hx.
      destruct (for_each_ok_In _ _ x Hx _ _ Hs) as [t1 [t2 Ht]]. cbn beta in Ht.
      exact (IH _ _ _ _ _ _ _ _ Ht). }
    assert (Hprops : forall key props,
               In key ["properties"; "patternProperties"] ->
               get key d = Some props ->
               exists items,
                 props = JObj items
                 /\ forall k x, In (k, x) items ->
                                (exists b, listed_as_required k d = Ok b)
                                /\ well_typed self x).
    { intros key props Hin Hget.
      destruct (for_each_ok_In _ _ _ Hin _ _ H4) as [s1 [s2 Hs]].
      cbn beta in Hs. rewrite Hget in Hs.
      apply bind_ok in Hs. destruct Hs as [items [Hitems Hs]].
      apply py_items_ok in Hitems. exists items. split; [exact Hitems|].
      intros k x Hx.
      destruct (for_each_ok_In _ _ _ Hx _ _ Hs) as [t1 [t2 Ht]].
      cbn beta iota in Ht. apply bind_ok in Ht. destruct Ht as [b [Hb Ht]].
      split; [eauto | exact (IH _ _ _ _ _ _ _ _ Ht)]. }
    constructor.
    + unfold node_ok.
      destruct (proj1 (construct_description_line_ok d false) (ex_intro _ _ Hbase))
        as [-> ->].
      cbn [andb].
      apply andb_true_intro; split;
        [apply andb_true_intro; split; [apply andb_true_intro; split|]|].
      * apply forallb_forall. intros key Hin. unfold key_ok.
        destruct (get key d) as [children|] eqn:Hget; [|reflexivity].
        apply py_iter_ok.
        assert (Hl : exists label, In (key, label) schema_composition_keyword_map).
        { destruct Hin as [<-|[<-|[<-|[]]]]; eexists;
            [left | right; left | right; right; left]; reflexivity. }
        destruct Hl as [label Hl].
        destruct (Hcomp key label children Hl Hget) as [xs [Hxs _]]. eauto.
      * apply forallb_forall. intros key Hin. unfold key_ok.
        destruct (get key d) as [props|] eqn:Hget; [|reflexivity].
        destruct (Hprops key props Hin Hget) as [items [-> _]]. reflexivity.
      * destruct (has_property d) eqn:Hhas; [|reflexivity]. cbn [negb orb].
        apply has_property_spec in Hhas.
        destruct Hhas as [key [[k x] [items [Hin Hget]]]].
        destruct (Hprops key _ Hin Hget) as [items' [E Hitems]].
        injection E as <-.
        apply (listed_as_required_ok k). apply (Hitems k x). now left.
      * unfold add_examples in H.
        destruct (mem (show_examples self) ["all"; "properties"]); [|reflexivity].
        cbn [negb orb]. apply bind_ok in H. destruct H as [lines [Hlines _]].
        apply (construct_examples_ok d i true). eauto.
    + intros v Hv. destruct Hv as [key children xs x Hin Hget Hxs Hx
                                  |key sub Hin Hget
                                  |key sub Hin Hget
                                  |key props k x Hin Hget Hx].
      * assert (Hl : exists label, In (key, label) schema_composition_keyword_map).
        { destruct Hin as [<-|[<-|[<-|[]]]]; eexists;
            [left | right; left | right; right; left]; reflexivity. }
        destruct Hl as [label Hl].
        destruct (Hcomp key label children Hl Hget) as [xs' [Hxs' Hall]].
        rewrite Hxs in Hxs'. injection Hxs' as <-. exact (Hall x Hx).
      * destruct (for_each_ok_In _ _ _ Hin _ _ H2) as [s1 [s2 Hs]].
        cbn beta in Hs. rewrite Hget in Hs. exact (IH _ _ _ _ _ _ _ _ Hs).
      * assert (Hk : exists extra, In extra ["additional"; "unevaluated"]
                                   /\ key = extra ++ "Properties").
        { destruct Hin as [<-|[<-|[]]];
            [exists "additional" | exists "unevaluated"];
            (split; [|reflexivity]); [left | right; left]; reflexivity. }
        destruct Hk as [extra [Hextra ->]].
        destruct (for_each_ok_In _ _ _ Hextra _ _ H3) as [s1 [s2 Hs]].
        cbn beta zeta in Hs. rewrite Hget in Hs. exact (IH _ _ _ _ _ _ _ _ Hs).
      * destruct (Hprops key _ Hin Hget) as [items [E Hitems]].
        injection E as <-. exact (proj2 (Hitems k x Hx)).
Qed.

(** X12: [_parse_object] returns its lines only on well-typed schemas: lists
    and objects all the way down whose [description] and [$ref] are strings,
    whose [allOf], [anyOf] and [oneOf] can be iterated, whose [properties] and
    [patternProperties] are mappings, whose [required] supports [in] when there
    is a property to look up, and whose [examples] can be iterated when examples
    are shown.  On every other value it raises, as soon as it has the fuel to
    go through the value. *)
Theorem walker_returns_only_on_well_typed (fuel : nat) (obj : json)
  (name : option string) (name_monospace : bool) (parsed_lines : list string)
  (indent_level : nat) (path : list string) (required : bool) :
  (forall out,
      _parse_object yaml_dump fuel self obj name name_monospace parsed_lines
                    indent_level path required = Ok out ->
      well_typed self obj)
  /\ (~ well_typed self obj ->
      depth obj < fuel ->
      exists e, _parse_object yaml_dump fuel self obj name name_monospace
                              parsed_lines indent_level path required = Raise e).
Proof.
  pose proof (returns_then_well_typed fuel obj name name_monospace parsed_lines
                indent_level path required) as Hwt.
  split; [exact Hwt|]. intros Hn Hd.
  pose proof (parse_object_returns yaml_dump fuel self obj name name_monospace
                parsed_lines indent_level path required Hd) as Hret.
  destruct (_parse_object yaml_dump fuel self obj name name_monospace
                          parsed_lines indent_level path required)
    as [out|e|]; [|eauto|contradiction].
  exfalso. apply Hn. exact (Hwt out eq_refl).
Qed.

(** X21: on the values of the embedding (strings of code points 0 to 255,
    integer numbers) and within the recursion the fuel allows, nothing else
    makes [_parse_object] fail: on a well-typed schema it returns its lines.
    (The embedding has no lone surrogates, on which [quote] raises in a [$ref],
    no limit on the digits [str] prints, and the fuel stands for the
    interpreter's recursion limit.) *)
Theorem well_typed_schema_is_rendered (fuel : nat) (obj : json)
  (name : option string) (name_monospace : bool) (parsed_lines : list string)
  (indent_level : nat) (path : list string) (required : bool) :
  well_typed self obj ->
  depth obj < fuel ->
  exists out, _parse_object yaml_dump fuel self obj name name_monospace
                            parsed_lines indent_level path required = Ok out.
Proof.
  intros Hwt Hd.
  pose proof (parse_object_returns yaml_dump fuel self obj name name_monospace
                parsed_lines indent_level path required Hd) as Hret.
  pose proof (well_typed_never_raises fuel obj name name_monospace parsed_lines
                indent_level path required) as Hnr.
  destruct (_parse_object yaml_dump fuel self obj name name_monospace
                          parsed_lines indent_level path required)
    as [out|e|]; [eauto| |contradiction].
  exfalso. exact (Hnr e Hwt eq_refl).
Qed.

End WellTyped.

Lemma walker_returns_only_on_well_typed_witness :
  well_typed default_parser
    (JObj [("type", JStr "object");
           ("properties", JObj [("a", JObj [("type", JStr "string")])])])
  /\ exists e,
      _parse_object yaml_unused 3 default_parser
        (JObj [("type", JStr "object"); ("properties", JObj [("a", JNum 1)])])
        (Some "x") true [] 0 [] false = Raise e.
Proof.
  split.
  - apply (proj1 (walker_returns_only_on_well_typed yaml_unused default_parser 3
                    (JObj [("type", JStr "object");
                           ("properties",
                            JObj [("a", JObj [("type", JStr "string")])])])
                    (Some "x") true [] 0 [] false)
                 ["- **`x`** *(object)*" ++ nl; nl; "  - **`a`** *(string)*" ++ nl]).
    reflexivity.
  - apply (proj2 (walker_returns_only_on_well_typed yaml_unused default_parser 3
                    (JObj [("type", JStr "object");
                           ("properties", JObj [("a", JNum 1)])])
                    (Some "x") true [] 0 [] false)).
    + intros H. inversion H as [|d Hnode Hchildren]; subst.
      assert (Ha : well_typed default_parser (JNum 1)).
      { apply Hchildren.
        apply (child_property _ "properties" [("a", JNum 1)] "a" (JNum 1));
          [left; reflexivity | reflexivity | left; reflexivity]. }
      inversion Ha.
    + vm_compute. lia.
Defined.

Lemma well_typed_schema_is_rendered_witness :
  exists out,
    _parse_object yaml_unused 3 default_parser
      (JArr [JObj [("type", JStr "string")]]) (Some "x") true [] 0 [] false = Ok out.
Proof.
  apply (well_typed_schema_is_rendered yaml_unused default_parser 3
           (JArr [JObj [("type", JStr "string")]]) (Some "x") true [] 0 [] false).
  - apply well_typed_list. intros x [<-|[]].
    apply well_typed_object; [reflexivity|].
    intros v Hv.
    destruct Hv as [key children xs x Hkey Hget
                   |key sub Hkey Hget
                   |key sub Hkey Hget
                   |key props k x Hkey Hget];
      exfalso; cbn [In] in Hkey;
      repeat (destruct Hkey as [<-|Hkey]; [discriminate Hget|]); exact Hkey.
  - vm_compute. lia.
Defined.

(** ** Termination of the traversal *)

(** X13: [_parse_object] terminates on every value: given more fuel than the
    value is deep, the model never runs out of it, and any two such amounts of
    fuel give the same result, be it lines or an exception. *)
Theorem walker_terminates (yaml_dump : json -> string) (self : Parser) (obj : json)
  (name : option string) (name_monospace : bool) (parsed_lines : list string)
  (indent_level : nat) (path : list string) (required : bool) (fuel : nat) :
  depth obj < fuel ->
  _parse_object yaml_dump fuel self obj name name_monospace parsed_lines
                indent_level path required <> Timeout
  /\ forall fuel',
       depth obj < fuel' ->
       _parse_object yaml_dump fuel' self obj name name_monospace parsed_lines
                     indent_level path required
       = _parse_object yaml_dump fuel self obj name name_monospace parsed_lines
                       indent_level path required.
Proof.
  intros Hd. split.
  - now apply parse_object_returns.
  - intros fuel' Hd'. now apply parse_object_fuel_irrelevant.
Qed.

Lemma walker_terminates_witness :
  _parse_object yaml_unused 3 default_parser (JArr [JObj []; JNum 1])
                (Some "x") true [] 0 [] false <> Timeout
  /\ forall fuel',
       depth (JArr [JObj []; JNum 1]) < fuel' ->
       _parse_object yaml_unused fuel' default_parser (JArr [JObj []; JNum 1])
                     (Some "x") true [] 0 [] false
       = _parse_object yaml_unused 3 default_parser (JArr [JObj []; JNum 1])
                       (Some "x") true [] 0 [] false.
Proof.
  apply (walker_terminates yaml_unused default_parser (JArr [JObj []; JNum 1])
           (Some "x") true [] 0 [] false 3).
  vm_compute. lia.
Defined.

(** ** The outline of the document *)

Lemma walker_line_not_hash (line : string) : walker_line line -> is_hash line = false.
Proof.
  intros [|n rest|rest|n rest]; try reflexivity; destruct n; reflexivity.
Qed.

Lemma filter_not_hash (lines : list string) :
  Forall (fun line => is_hash line = false) lines -> filter is_hash lines = [].
Proof.
  induction 1 as [|x l Hx _ IH]; [reflexivity|]. cbn [filter]. now rewrite Hx.
Qed.

Lemma grows_refl (lines : list string) : grows [] lines lines.
Proof. exists []. split; [now rewrite app_nil_r | reflexivity]. Qed.

Lemma grows_trans (h1 h2 a b c : list string) :
  grows h1 a b -> grows h2 b c -> grows (h1 ++ h2) a c.
Proof.
  intros [s1 [-> H1]] [s2 [-> H2]]. exists (s1 ++ s2)%list.
  split; [now rewrite app_assoc | now rewrite filter_app, H1, H2].
Qed.

Lemma grows_quiet (lines new_lines : list string) :
  Forall (fun line => is_hash line = false) new_lines ->
  grows [] lines (lines ++ new_lines).
Proof. intros H. exists new_lines. split; [reflexivity | now apply filter_not_hash]. Qed.

Lemma grows_heading (heading : string) (lines new_lines : list string) :
  is_hash heading = true ->
  Forall (fun line => is_hash line = false) new_lines ->
  grows [heading] lines ((lines ++ [heading]) ++ new_lines).
Proof.
  intros Hh H. exists (heading :: new_lines). split; [now rewrite <- app_assoc|].
  cbn [filter]. rewrite Hh. now rewrite filter_not_hash.
Qed.

Lemma grows_nil_trans (a b c : list string) :
  grows [] a b -> grows [] b c -> grows [] a c.
Proof. exact (grows_trans [] [] a b c). Qed.

Lemma gather_props_remove (fuel : nat) (d : dict) (prop k : string) :
  String.eqb prop k = false -> String.eqb "allOf" k = false ->
  gather_props fuel (JObj (remove k d)) prop = gather_props fuel (JObj d) prop.
Proof.
  intros Hp Ha. destruct fuel as [|fuel]; [reflexivity|].
  cbn [gather_props py_contains py_getitem]. unfold contains.
  now rewrite !get_remove_neq by assumption.
Qed.

Section Outline.

Variable yaml_dump : json -> string.

Lemma walker_output_quiet (fuel : nat) (self : Parser) (obj : json)
  (name : option string) (name_monospace : bool) (indent_level : nat)
  (path : list string) (required : bool) (new_lines : list string) :
  _parse_object yaml_dump fuel self obj name name_monospace [] indent_level path
                required = Ok new_lines ->
  Forall (fun line => is_hash line = false) new_lines.
Proof.
  intros H. apply parse_object_extends in H. destruct H as [suffix [-> H]].
  eapply Forall_impl; [exact walker_line_not_hash | exact H].
Qed.

Lemma items_loop (fuel : nat) (self : Parser) (heading : string)
  (gathered : list json) :
  is_hash heading = true ->
  forall (first : bool) (output_lines : list string) (state : bool * list string),
    for_each gathered (first, output_lines)
      (fun schema_object (state : bool * list string) =>
         let (first, output_lines) := state in
         let (first, output_lines) :=
           if negb first
           then (true, lappend output_lines heading)
           else (first, output_lines) in
         new_lines <- _parse_object yaml_dump fuel self schema_object (Some "Items")
                                    false [] 0 [] false ;;
         Ok (first, lextend output_lines new_lines)) = Ok state ->
    grows (optional (negb first && nonempty gathered) heading)
          output_lines (snd state).
Proof.
  intros Hh. induction gathered as [|x g IH]; intros first lines state H.
  - injection H as <-. rewrite andb_false_r. apply grows_refl.
  - cbn [for_each] in H. apply bind_ok in H. destruct H as [s1 [Hx H]].
    destruct first; cbn [negb] in Hx; cbn beta iota in Hx;
      apply bind_ok in Hx; destruct Hx as [new_lines [Hnew Hx]];
      injection Hx as <-; apply IH in H; cbn [negb andb] in H;
      apply walker_output_quiet in Hnew.
    + apply grows_nil_trans with (lines ++ new_lines)%list;
        [now apply grows_quiet | exact H].
    + apply (grows_trans [heading] [] lines ((lines ++ [heading]) ++ new_lines)%list);
        [now apply grows_heading | exact H].
Qed.

Lemma entries_quiet (fuel : nat) (self : Parser) (path_of : string -> list string)
  (items : dict) :
  forall (output_lines out : list string),
    for_each items output_lines
      (fun (item : string * json) output_lines =>
         let (obj_name, obj) := item in
         new_lines <- _parse_object yaml_dump fuel self obj (Some obj_name) true
                                    [] 0 (path_of obj_name) false ;;
         Ok (lextend output_lines new_lines)) = Ok out ->
    grows [] output_lines out.
Proof.
  apply (for_each_preorder (grows [])); [apply grows_refl | apply grows_nil_trans|].
  intros [k v] s s' _ Hx. apply bind_ok in Hx.
  destruct Hx as [new_lines [Hnew Hx]]. injection Hx as <-.
  apply grows_quiet. exact (walker_output_quiet _ _ _ _ _ _ _ _ _ Hnew).
Qed.

Lemma pattern_properties_loop (fuel : nat) (self : Parser) (heading : string)
  (gathered : list json) :
  is_hash heading = true ->
  forall (first : bool) (output_lines : list string) (state : bool * list string),
    for_each gathered (first, output_lines)
      (fun schema_object (state : bool * list string) =>
         let (first, output_lines) := state in
         let (first, output_lines) :=
           if negb first
           then (true, lappend output_lines heading)
           else (first, output_lines) in
         items <- py_items schema_object ;;
         output_lines <-
           for_each items output_lines
             (fun (item : string * json) output_lines =>
                let (obj_name, obj) := item in
                new_lines <- _parse_object yaml_dump fuel self obj (Some obj_name)
                                           true [] 0 [] false ;;
                Ok (lextend output_lines new_lines)) ;;
         Ok (first, output_lines)) = Ok state ->
    grows (optional (negb first && nonempty gathered) heading)
          output_lines (snd state).
Proof.
  intros Hh. induction gathered as [|x g IH]; intros first lines state H.
  - injection H as <-. rewrite andb_false_r. apply grows_refl.
  - cbn [for_each] in H. apply bind_ok in H. destruct H as [s1 [Hx H]].
    destruct first; cbn [negb] in Hx; cbn beta iota in Hx;
      apply bind_ok in Hx; destruct Hx as [items [_ Hx]];
      apply bind_ok in Hx; destruct Hx as [lines' [Hl Hx]];
      injection Hx as <-; apply IH in H; cbn [negb andb] in H;
      apply (entries_quiet fuel self (fun _ => [])) in Hl.
    + apply grows_nil_trans with lines'; [exact Hl | exact H].
    + apply (grows_trans [heading] [] lines lines'); [|exact H].
      apply (grows_trans [heading] [] lines (lines ++ [heading])%list); [|exact Hl].
      rewrite <- (app_nil_r (lines ++ [heading])).
      apply grows_heading; [exact Hh | constructor].
Qed.

Lemma properties_loop_headings (fuel : nat) (self : Parser) (heading : string)
  (gathered : list json) :
  is_hash heading = true ->
  forall (first : bool) (output_lines : list string) (state : bool * list string),
    for_each gathered (first, output_lines)
      (fun schema_object (state : bool * list string) =>
         let (first, output_lines) := state in
         let (first, output_lines) :=
           if first : bool
           then (false, lappend output_lines heading)
           else (first, output_lines) in
         items <- py_items schema_object ;;
         output_lines <-
           for_each items output_lines
             (fun (item : string * json) output_lines =>
                let (obj_name, obj) := item in
                required <- listed_as_required obj_name items ;;
                new_lines <- _parse_object yaml_dump fuel self obj (Some obj_name)
                                           true [] 0 [] required ;;
                Ok (lextend output_lines new_lines)) ;;
         Ok (first, output_lines)) = Ok state ->
    grows (optional (first && nonempty gathered) heading)
          output_lines (snd state).
Proof.
  intros Hh.
  assert (Hitems : forall items (lines lines' : list string),
             for_each items lines
               (fun (item : string * json) output_lines =>
                  let (obj_name, obj) := item in
                  required <- listed_as_required obj_name items ;;
                  new_lines <- _parse_object yaml_dump fuel self obj (Some obj_name)
                                             true [] 0 [] required ;;
                  Ok (lextend output_lines new_lines)) = Ok lines' ->
             grows [] lines lines').
  { intros items.
    apply (for_each_preorder (grows [])); [apply grows_refl | apply grows_nil_trans|].
    intros [k v] s s' _ Hx. apply bind_ok in Hx. destruct Hx as [r [_ Hx]].
    apply bind_ok in Hx. destruct Hx as [new_lines [Hnew Hx]]. injection Hx as <-.
    apply grows_quiet. exact (walker_output_quiet _ _ _ _ _ _ _ _ _ Hnew). }
  induction gathered as [|x g IH]; intros first lines state H.
  - injection H as <-. rewrite andb_false_r. apply grows_refl.
  - cbn [for_each] in H. apply bind_ok in H. destruct H as [s1 [Hx H]].
    destruct first; cbn beta iota in Hx;
      apply bind_ok in Hx; destruct Hx as [items [_ Hx]];
      apply bind_ok in Hx; destruct Hx as [lines' [Hl Hx]];
      injection Hx as <-; apply IH in H; cbn [negb andb] in H;
      apply Hitems in Hl.
    + apply (grows_trans [heading] [] lines lines'); [|exact H].
      apply (grows_trans [heading] [] lines (lines ++ [heading])%list); [|exact Hl].
      rewrite <- (app_nil_r (lines ++ [heading])).
      apply grows_heading; [exact Hh | constructor].
    + apply grows_nil_trans with lines'; [exact Hl | exact H].
Qed.

Lemma extra_properties_headings (fuel : nat) (self : Parser)
  (schema_object_master : dict) (output_lines out : list string) :
  add_extra_properties yaml_dump fuel self schema_object_master output_lines = Ok out ->
  grows (optional (holds_dict "additionalProperties" schema_object_master)
                  ("## Additional Properties" ++ nl ++ nl)
         ++ optional (holds_dict "unevaluatedProperties" schema_object_master)
                     ("## Unevaluated Properties" ++ nl ++ nl))%list
        output_lines out.
Proof.
  unfold add_extra_properties. cbn [for_each]. intros H.
  apply bind_ok in H. destruct H as [l1 [H1 H]].
  apply bind_ok in H. destruct H as [l2 [H2 H]]. injection H as <-.
  cbv zeta in H1, H2. unfold holds_dict.
  change ("additional" ++ "Properties") with "additionalProperties" in H1.
  change ("unevaluated" ++ "Properties") with "unevaluatedProperties" in H2.
  apply grows_trans with l1.
  - destruct (get "additionalProperties" schema_object_master) as [[| | | | |sub]|];
      try (injection H1 as <-; apply grows_refl).
    apply bind_ok in H1. destruct H1 as [new_lines [Hnew H1]]. injection H1 as <-.
    apply grows_heading; [reflexivity|].
    exact (walker_output_quiet _ _ _ _ _ _ _ _ _ Hnew).
  - destruct (get "unevaluatedProperties" schema_object_master) as [[| | | | |sub]|];
      try (injection H2 as <-; apply grows_refl).
    apply bind_ok in H2. destruct H2 as [new_lines [Hnew H2]]. injection H2 as <-.
    apply grows_heading; [reflexivity|].
    exact (walker_output_quiet _ _ _ _ _ _ _ _ _ Hnew).
Qed.

Lemma definitions_quiet (fuel : nat) (self : Parser)
  (schema_object_master : dict) (output_lines out : list string) :
  add_definitions yaml_dump fuel self schema_object_master output_lines = Ok out ->
  grows [] output_lines out.
Proof.
  unfold add_definitions.
  apply (for_each_preorder (grows [])); [apply grows_refl | apply grows_nil_trans|].
  intros name s s' _ Hx. cbn beta in Hx.
  destruct (get name schema_object_master) as [defs|];
    [|injection Hx as <-; apply grows_refl].
  apply bind_ok in Hx. destruct Hx as [items [_ Hx]].
  exact (entries_quiet fuel self (fun obj_name => [name; obj_name]) items _ _ Hx).
Qed.

Lemma root_examples_headings (self : Parser) (schema_object_master : dict)
  (output_lines out : list string) :
  add_root_examples yaml_dump self schema_object_master output_lines = Ok out ->
  grows (optional (contains "examples" schema_object_master
                   && mem (show_examples self) ["all"; "object"])
                  ("## Examples" ++ nl ++ nl))
        output_lines out.
Proof.
  unfold add_root_examples. destruct (_ && _).
  - intros H. apply bind_ok in H. destruct H as [new_lines [Hnew H]].
    injection H as <-. apply construct_examples_lines in Hnew.
    apply grows_heading; [reflexivity|].
    eapply Forall_impl; [exact walker_line_not_hash | exact Hnew].
  - intros [= <-]. apply grows_refl.
Qed.

(** X14: the outline of a document.  [parse_schema] starts with the title line
    ([# JSON Schema] when the schema has no [title]), followed by the
    description line when there is a [description]; among the lines after
    them, those that open with a heading mark are exactly the section headings,
    in the order Items, Additional Properties, Unevaluated Properties, Pattern
    Properties, Properties, Examples, each present once or not at all.  Items,
    Pattern Properties and Properties appear when [gather_props] finds a value
    for them, the two others for an object-valued keyword, Examples when the
    root has [examples] and the parser shows them for [all] or [object];
    definitions have no heading. *)
Theorem parse_schema_outline (fuel : nat) (self : Parser)
  (schema_object_master : dict) (out : list string) :
  parse_schema yaml_dump fuel self schema_object_master = Ok out ->
  exists (items pattern_properties properties : list json) (rest : list string),
    gather_props fuel (JObj schema_object_master) "items" = Ok items
    /\ gather_props fuel (JObj schema_object_master) "patternProperties"
       = Ok pattern_properties
    /\ gather_props fuel (JObj schema_object_master) "properties" = Ok properties
    /\ out = (title_line schema_object_master
              :: description_lines schema_object_master ++ rest)%list
    /\ filter is_hash rest
       = section_headings self schema_object_master items pattern_properties
                          properties.
Proof.
  unfold parse_schema. intros H.
  apply bind_ok in H. destruct H as [l1 [H1 H]].
  apply bind_ok in H. destruct H as [l2 [H2 H]].
  apply bind_ok in H. destruct H as [l3 [H3 H]].
  apply bind_ok in H. destruct H as [l4 [H4 H]].
  apply bind_ok in H. destruct H as [l5 [H5 H]].
  unfold add_items in H1.
  apply bind_ok in H1. destruct H1 as [gi [Hgi H1]].
  apply bind_ok in H1. destruct H1 as [st1 [H1 E1]]. injection E1 as <-.
  apply items_loop in H1; [|reflexivity]. cbn [negb andb] in H1.
  apply extra_properties_headings in H2.
  unfold add_pattern_properties in H3.
  apply bind_ok in H3. destruct H3 as [gpp [Hgpp H3]].
  apply bind_ok in H3. destruct H3 as [st3 [H3 E3]]. injection E3 as <-.
  apply pattern_properties_loop in H3; [|reflexivity]. cbn [negb andb] in H3.
  unfold add_properties in H4.
  apply bind_ok in H4. destruct H4 as [gp [Hgp H4]].
  apply bind_ok in H4. destruct H4 as [st4 [H4 E4]]. injection E4 as <-.
  apply properties_loop_headings in H4; [|reflexivity]. cbn [andb] in H4.
  apply definitions_quiet in H5.
  apply root_examples_headings in H.
  pose proof (grows_trans _ _ _ _ _ H1
                (grows_trans _ _ _ _ _ H2
                   (grows_trans _ _ _ _ _ H3
                      (grows_trans _ _ _ _ _ H4
                         (grows_trans _ _ _ _ _ H5 H))))) as Hall.
  destruct Hall as [rest [-> Hrest]].
  exists gi, gpp, gp, rest.
  split; [exact Hgi|]. split; [exact Hgpp|]. split; [exact Hgp|]. split.
  - unfold add_title_and_description, title_line, description_lines.
    destruct (get "title" schema_object_master);
      destruct (get "description" schema_object_master); reflexivity.
  - rewrite Hrest. unfold section_headings. cbn [app].
    rewrite <- !app_assoc. reflexivity.
Qed.

(** X15: a key of the root object other than the eleven [parse_schema] reads
    has no effect on the document; [required], [type], [$ref], [anyOf] and
    [oneOf] are among the keys the root ignores. *)
Theorem parse_schema_ignores_other_root_keys (fuel : nat) (self : Parser)
  (schema_object_master : dict) (k : string) :
  ~ In k root_keywords ->
  parse_schema yaml_dump fuel self (remove k schema_object_master)
  = parse_schema yaml_dump fuel self schema_object_master.
Proof.
  intros H. apply not_in_keywords in H. unfold root_keywords in H.
  repeat match goal with
         | H : Forall _ (_ :: _) |- _ => inversion H; subst; clear H
         end.
  unfold parse_schema, add_title_and_description, add_items, add_extra_properties,
    add_pattern_properties, add_properties, add_definitions, add_root_examples,
    _construct_examples, contains.
  rewrite !gather_props_remove by assumption.
  cbn [for_each String.append].
  repeat rewrite get_remove_neq by assumption.
  reflexivity.
Qed.

(** X16: every object-valued entry [k] of the root's [definitions] or [$defs]
    is rendered by a line that starts with the anchor of its path: the bullet,
    [<a id=], the URL-quoted [definitions/k] or [$defs/k] between double quotes,
    [></a>], then the name in bold monospace. *)
Theorem definitions_are_anchored (fuel : nat) (self : Parser)
  (schema_object_master : dict) (name : string) (defs : dict) (k : string)
  (d : dict) (out : list string) :
  In name ["definitions"; "$defs"] ->
  get name schema_object_master = Some (JObj defs) ->
  In (k, JObj d) defs ->
  parse_schema yaml_dump fuel self schema_object_master = Ok out ->
  exists rest,
    In ("- <a id=" ++ dquote ++ quote (name ++ "/" ++ k) ++ dquote ++ "></a>**`"
        ++ k ++ "`**" ++ rest) out.
Proof.
  intros Hname Hget Hk H. unfold parse_schema in H.
  apply bind_ok in H. destruct H as [l1 [_ H]].
  apply bind_ok in H. destruct H as [l2 [_ H]].
  apply bind_ok in H. destruct H as [l3 [_ H]].
  apply bind_ok in H. destruct H as [l4 [_ H]].
  apply bind_ok in H. destruct H as [l5 [H5 H]].
  apply add_root_examples_not_header in H.
  assert (Hentries : forall (name : string) items (lines lines' : list string),
             for_each items lines
               (fun (item : string * json) output_lines =>
                  let (obj_name, obj) := item in
                  new_lines <- _parse_object yaml_dump fuel self obj (Some obj_name)
                                             true [] 0 [name; obj_name] false ;;
                  Ok (lextend output_lines new_lines)) = Ok lines' ->
             extends not_header lines lines').
  { intros name' items l0 l0'. apply for_each_extends.
    intros [k' v] t t' _ Ht. apply bind_ok in Ht.
    destruct Ht as [new_lines [Hnew Ht]]. injection Ht as <-.
    apply extends_app. exact (walker_output_not_header _ _ _ _ _ _ _ _ _ _ Hnew). }
  unfold add_definitions in H5.
  eapply (for_each_In not_header) in H5; [|clear H5|exact Hname].
  2:{ intros name' s s' _ Hx. cbn beta in Hx.
      destruct (get name' schema_object_master) as [defs'|];
        [|injection Hx as <-; apply extends_refl].
      apply bind_ok in Hx. destruct Hx as [items [_ Hx]].
      exact (Hentries _ _ _ _ Hx). }
  destruct H5 as [s1 [s2 [Hbody [_ H2]]]]. cbn beta in Hbody.
  rewrite Hget in Hbody. cbn [py_items bind] in Hbody.
  pose proof Hbody as Hloop.
  eapply (for_each_In not_header) in Hloop; [|clear Hloop|exact Hk].
  2:{ intros [k' v] t t' _ Ht. apply bind_ok in Ht.
      destruct Ht as [new_lines [Hnew Ht]]. injection Ht as <-.
      apply extends_app. exact (walker_output_not_header _ _ _ _ _ _ _ _ _ _ Hnew). }
  destruct Hloop as [t1 [t2 [Ht [_ Ht2]]]]. cbn beta iota in Ht.
  apply bind_ok in Ht. destruct Ht as [new_lines [Hnew Ht]]. injection Ht as <-.
  destruct fuel as [|fuel]; [discriminate Hnew|].
  apply parse_object_dict_extends in Hnew;
    [|intros; eapply parse_object_extends; eassumption].
  destruct Hnew as [base [_ Hnew]].
  eexists.
  apply (extends_In not_header l5 out _ H).
  apply (extends_In not_header s2 l5 _ H2).
  apply (extends_In not_header (t1 ++ new_lines)%list s2 _ Ht2).
  apply in_or_app. right.
  apply (extends_In walker_line _ _ _ Hnew).
  match goal with
  | |- In ?x (append_line ?line []) =>
      replace x with line; [apply In_append_line|]
  end.
  unfold full_line.
  cbn [tab_size Nat.mul spaces join String.concat].
  rewrite !append_assoc. cbn [String.append]. reflexivity.
Qed.

End Outline.

(** X17: [parse_schema] terminates on every schema: given more fuel than the
    schema is deep, the model never runs out of it, and any two such amounts of
    fuel give the same result, be it the document or an exception. *)
Theorem parse_schema_terminates (yaml_dump : json -> string) (self : Parser)
  (schema_object_master : dict) (fuel : nat) :
  depth (JObj schema_object_master) < fuel ->
  parse_schema yaml_dump fuel self schema_object_master <> Timeout
  /\ forall fuel',
       depth (JObj schema_object_master) < fuel' ->
       parse_schema yaml_dump fuel' self schema_object_master
       = parse_schema yaml_dump fuel self schema_object_master.
Proof.
  intros Hd. split.
  - now apply parse_schema_returns.
  - intros fuel' Hd'. now apply parse_schema_fuel_irrelevant.
Qed.

Lemma parse_schema_outline_witness :
  exists (items pattern_properties properties : list json) (rest : list string),
    gather_props 4
      (JObj [("title", JStr "T"); ("description", JStr "D");
             ("properties", JObj [("a", JObj [("type", JStr "string")])]);
             ("definitions", JObj [("b", JObj [])])]) "items" = Ok items
    /\ gather_props 4
         (JObj [("title", JStr "T"); ("description", JStr "D");
                ("properties", JObj [("a", JObj [("type", JStr "string")])]);
                ("definitions", JObj [("b", JObj [])])]) "patternProperties"
       = Ok pattern_properties
    /\ gather_props 4
         (JObj [("title", JStr "T"); ("description", JStr "D");
                ("properties", JObj [("a", JObj [("type", JStr "string")])]);
                ("definitions", JObj [("b", JObj [])])]) "properties"
       = Ok properties
    /\ ["# T" ++ nl ++ nl; "*D*" ++ nl ++ nl; "## Properties" ++ nl ++ nl;
        "- **`a`** *(string)*" ++ nl;
        "- <a id=" ++ dquote ++ "definitions/b" ++ dquote ++ "></a>**`b`**" ++ nl]%string
       = (title_line [("title", JStr "T"); ("description", JStr "D");
                      ("properties", JObj [("a", JObj [("type", JStr "string")])]);
                      ("definitions", JObj [("b", JObj [])])]
          :: description_lines
               [("title", JStr "T"); ("description", JStr "D");
                ("properties", JObj [("a", JObj [("type", JStr "string")])]);
                ("definitions", JObj [("b", JObj [])])] ++ rest)%list
    /\ filter is_hash rest
       = section_headings default_parser
           [("title", JStr "T"); ("description", JStr "D");
            ("properties", JObj [("a", JObj [("type", JStr "string")])]);
            ("definitions", JObj [("b", JObj [])])]
           items pattern_properties properties.
Proof.
  apply (parse_schema_outline yaml_unused 4 default_parser
           [("title", JStr "T"); ("description", JStr "D");
            ("properties", JObj [("a", JObj [("type", JStr "string")])]);
            ("definitions", JObj [("b", JObj [])])]).
  vm_compute. reflexivity.
Defined.

Lemma parse_schema_ignores_other_root_keys_witness :
  parse_schema yaml_unused 4 default_parser
    (remove "required"
       [("required", JArr [JStr "a"]);
        ("properties", JObj [("a", JObj [("type", JStr "string")])])])
  = parse_schema yaml_unused 4 default_parser
      [("required", JArr [JStr "a"]);
       ("properties", JObj [("a", JObj [("type", JStr "string")])])].
Proof.
  apply (parse_schema_ignores_other_root_keys yaml_unused 4 default_parser
           [("required", JArr [JStr "a"]);
            ("properties", JObj [("a", JObj [("type", JStr "string")])])]
           "required").
  vm_compute. intros H. repeat (destruct H as [H|H]; [discriminate H|]). exact H.
Defined.

Lemma definitions_are_anchored_witness :
  exists rest,
    In ("- <a id=" ++ dquote ++ quote ("$defs" ++ "/" ++ "b c") ++ dquote
        ++ "></a>**`" ++ "b c" ++ "`**" ++ rest)
       ["# JSON Schema" ++ nl ++ nl;
        "- <a id=" ++ dquote ++ "%24defs/b%20c" ++ dquote ++ "></a>**`b c`**" ++ nl].
Proof.
  apply (definitions_are_anchored yaml_unused 4 default_parser
           [("$defs", JObj [("b c", JObj [])])] "$defs" [("b c", JObj [])] "b c" []).
  - right. left. reflexivity.
  - reflexivity.
  - left. reflexivity.
  - vm_compute. reflexivity.
Defined.

Lemma parse_schema_terminates_witness :
  parse_schema yaml_unused 3 default_parser [("items", JObj [("type", JNum 1)])]
  <> Timeout
  /\ forall fuel',
       depth (JObj [("items", JObj [("type", JNum 1)])]) < fuel' ->
       parse_schema yaml_unused fuel' default_parser
                    [("items", JObj [("type", JNum 1)])]
       = parse_schema yaml_unused 3 default_parser
                      [("items", JObj [("type", JNum 1)])].
Proof.
  apply (parse_schema_terminates yaml_unused default_parser
           [("items", JObj [("type", JNum 1)])] 3).
  vm_compute. lia.
Defined.

(** ** What [gather_props] gathers *)

Lemma concat_results_In {A : Type} (rs : list (res (list A))) (out : list A) :
  concat_results rs = Ok out ->
  (forall r, In r rs -> exists l, r = Ok l)
  /\ forall v, In v out <-> exists l, In (Ok l) rs /\ In v l.
Proof.
  revert out. induction rs as [|r rs IH]; intros out H; cbn [concat_results] in H.
  - injection H as <-. split; [intros r []|]. intros v. split; [intros []|].
    intros [l [[] _]].
  - apply bind_ok in H. destruct H as [lines [-> H]].
    apply bind_ok in H. destruct H as [more [Hmore H]]. injection H as <-.
    destruct (IH _ Hmore) as [Hall Hin]. split.
    + intros r [<-|Hr]; [eauto | exact (Hall r Hr)].
    + intros v. rewrite in_app_iff, Hin. split.
      * intros [Hv|[l [Hl Hv]]]; [exists lines | exists l]; split; auto;
          [now left | now right].
      * intros [l [[E|Hl] Hv]]; [injection E as <-; now left | right; eauto].
Qed.

(** X18: when [gather_props] returns, it has gathered exactly the values the
    key [prop] has in the object it was given and in the objects reached from
    it through [allOf] branches, and the value of the object itself comes
    first. *)
Theorem gather_props_collects (fuel : nat) (prop : string) :
  forall (obj : json) (gathered : list json),
    gather_props fuel obj prop = Ok gathered ->
    (forall v, In v gathered <->
               exists d, all_of_reach obj (JObj d) /\ get prop d = Some v)
    /\ (forall d v, obj = JObj d -> get prop d = Some v ->
                    exists more, gathered = v :: more).
Proof.
  induction fuel as [|fuel IH]; intros obj gathered H; [discriminate H|].
  destruct obj as [| | |s|l|d].
  - discriminate H.
  - discriminate H.
  - discriminate H.
  - cbn [gather_props py_contains py_getitem bind] in H.
    destruct (is_substring prop s); [discriminate H|]. cbn [bind] in H.
    destruct (is_substring "allOf" s); [discriminate H|]. injection H as <-.
    split; [|intros d v E; discriminate E].
    intros v. split; [intros []|]. intros [d [Hr _]]. inversion Hr.
  - cbn [gather_props py_contains py_getitem bind] in H.
    destruct (existsb (py_eq (JStr prop)) l); [discriminate H|]. cbn [bind] in H.
    destruct (existsb (py_eq (JStr "allOf")) l); [discriminate H|].
    injection H as <-.
    split; [|intros d v E; discriminate E].
    intros v. split; [intros []|]. intros [d [Hr _]]. inversion Hr.
  - rewrite gather_props_branch_order in H. cbv zeta in H.
    destruct (get "allOf" d) as [all_of|] eqn:Hall.
    + apply bind_ok in H. destruct H as [xs [Hxs H]].
      apply bind_ok in H. destruct H as [more [Hmore H]]. injection H as <-.
      apply concat_results_In in Hmore. destruct Hmore as [Hok Hin].
      split.
      * intros v. rewrite in_app_iff, Hin. split.
        -- intros [Hv|[g [Hg Hv]]].
           ++ exists d. split; [apply reach_self|].
              destruct (get prop d) as [v0|]; [|destruct Hv].
              destruct Hv as [<-|[]]. reflexivity.
           ++ apply in_map_iff in Hg. destruct Hg as [x [Hgx Hx]].
              apply (proj1 (IH _ _ Hgx)) in Hv. destruct Hv as [d' [Hr Hd']].
              exists d'. split; [|exact Hd'].
              exact (reach_branch d all_of xs x _ Hall Hxs Hx Hr).
        -- intros [d' [Hr Hd']]. inversion Hr as [|d0 a0 xs0 x v0 Ha Hxs0 Hx Hr']; subst.
           ++ left. rewrite Hd'. now left.
           ++ right. rewrite Hall in Ha. injection Ha as <-.
              rewrite Hxs in Hxs0. injection Hxs0 as <-.
              pose proof (in_map (fun branch => gather_props fuel branch prop) xs x Hx)
                as Hgx. cbv beta in Hgx.
              destruct (Hok _ Hgx) as [g Hg].
              exists g. split; [rewrite <- Hg; exact Hgx|].
              apply (proj1 (IH _ _ Hg)). eauto.
      * intros d' v E Hv. injection E as <-. rewrite Hv. eexists. reflexivity.
    + injection H as <-. split.
      * intros v. split.
        -- intros Hv. exists d. split; [apply reach_self|].
           destruct (get prop d) as [v0|]; [|destruct Hv].
           destruct Hv as [<-|[]]. reflexivity.
        -- intros [d' [Hr Hd']].
           inversion Hr as [|d0 a0 xs0 x v0 Ha Hxs0 Hx Hr']; subst.
           ++ rewrite Hd'. now left.
           ++ rewrite Hall in Ha. discriminate Ha.
      * intros d' v E Hv. injection E as <-. rewrite Hv. eexists. reflexivity.
Qed.

Lemma gather_props_collects_witness :
  (forall v,
      In v [JNum 1; JNum 2] <->
      exists d,
        all_of_reach (JObj [("items", JNum 1);
                            ("allOf", JArr [JObj [("items", JNum 2)]; JObj []])])
                     (JObj d)
        /\ get "items" d = Some v)
  /\ (forall d v,
         JObj [("items", JNum 1);
               ("allOf", JArr [JObj [("items", JNum 2)]; JObj []])] = JObj d ->
         get "items" d = Some v ->
         exists more, [JNum 1; JNum 2] = v :: more).
Proof.
  apply (gather_props_collects 3 "items"
           (JObj [("items", JNum 1);
                  ("allOf", JArr [JObj [("items", JNum 2)]; JObj []])])).
  reflexivity.
Defined.

(** ** The YAML dumper *)

Section BlocksExt.

Variables parse1 parse2 :
  json -> option string -> bool -> list string -> nat -> list string -> bool ->
  res (list string).

Hypothesis parse_ext :
  forall obj name name_monospace parsed_lines indent_level path required,
    parse2 obj name name_monospace parsed_lines indent_level path required
    = parse1 obj name name_monospace parsed_lines indent_level path required.

Lemma parse_composition_ext (obj : dict) (parsed_lines : list string)
  (indent_level : nat) :
  parse_composition parse2 obj parsed_lines indent_level
  = parse_composition parse1 obj parsed_lines indent_level.
Proof.
  unfold parse_composition. apply for_each_ext. intros [key label] s.
  destruct (get key obj); [|reflexivity].
  apply bind_ext. intros xs. apply for_each_ext. intros x t. apply parse_ext.
Qed.

Lemma parse_items_and_definitions_ext (obj : dict) (parsed_lines : list string)
  (indent_level : nat) :
  parse_items_and_definitions parse2 obj parsed_lines indent_level
  = parse_items_and_definitions parse1 obj parsed_lines indent_level.
Proof.
  unfold parse_items_and_definitions. apply for_each_ext. intros key s.
  destruct (get key obj); [apply parse_ext | reflexivity].
Qed.

Lemma parse_extra_properties_ext (obj : dict) (parsed_lines : list string)
  (indent_level : nat) :
  parse_extra_properties parse2 obj parsed_lines indent_level
  = parse_extra_properties parse1 obj parsed_lines indent_level.
Proof.
  unfold parse_extra_properties. apply for_each_ext. intros key s. cbv zeta.
  destruct (get (key ++ "Properties") obj) as [[| | | | |sub]|]; try reflexivity.
  apply parse_ext.
Qed.

Lemma parse_child_properties_ext (obj : dict) (parsed_lines : list string)
  (indent_level : nat) :
  parse_child_properties parse2 obj parsed_lines indent_level
  = parse_child_properties parse1 obj parsed_lines indent_level.
Proof.
  unfold parse_child_properties. apply for_each_ext. intros key s.
  destruct (get key obj); [|reflexivity].
  apply bind_ext. intros items. apply for_each_ext. intros [k x] t.
  apply bind_ext. intros r. apply parse_ext.
Qed.

End BlocksExt.

Section Dumper.

Variables yaml_dump1 yaml_dump2 : json -> string.
Variable self : Parser.
Hypothesis json_examples : examples_as_yaml self = false.

Lemma construct_examples_same_dumper (obj : dict) (indent_level : nat)
  (add_header : bool) :
  _construct_examples yaml_dump2 self obj indent_level add_header
  = _construct_examples yaml_dump1 self obj indent_level add_header.
Proof. unfold _construct_examples. rewrite json_examples. reflexivity. Qed.

Lemma parse_object_same_dumper (fuel : nat) :
  forall obj name name_monospace parsed_lines indent_level path required,
    _parse_object yaml_dump2 fuel self obj name name_monospace parsed_lines
                  indent_level path required
    = _parse_object yaml_dump1 fuel self obj name name_monospace parsed_lines
                    indent_level path required.
Proof.
  induction fuel as [|fuel IH]; intros obj name mono pl i path req; [reflexivity|].
  destruct obj as [| | | |elements|d]; try reflexivity.
  - rewrite !parse_object_list. apply for_each_ext. intros x s. apply IH.
  - rewrite !parse_object_dict.
    apply bind_ext. intros base.
    rewrite (parse_composition_ext _ _ IH). apply bind_ext. intros pl1.
    rewrite (parse_items_and_definitions_ext _ _ IH). apply bind_ext. intros pl2.
    rewrite (parse_extra_properties_ext _ _ IH). apply bind_ext. intros pl3.
    rewrite (parse_child_properties_ext _ _ IH). apply bind_ext. intros pl4.
    unfold add_examples. now rewrite construct_examples_same_dumper.
Qed.

Lemma add_items_same_dumper (fuel : nat) (m : dict) (lines : list string) :
  add_items yaml_dump2 fuel self m lines = add_items yaml_dump1 fuel self m lines.
Proof.
  unfold add_items. apply bind_ext. intros g. f_equal.
  apply for_each_ext. intros x [first l]. destruct (negb first);
    now rewrite parse_object_same_dumper.
Qed.

Lemma add_extra_properties_same_dumper (fuel : nat) (m : dict) (lines : list string) :
  add_extra_properties yaml_dump2 fuel self m lines
  = add_extra_properties yaml_dump1 fuel self m lines.
Proof.
  unfold add_extra_properties. apply for_each_ext. intros extra l. cbv zeta.
  destruct (get (extra ++ "Properties") m) as [[| | | | |sub]|]; try reflexivity.
  now rewrite parse_object_same_dumper.
Qed.

Lemma add_pattern_properties_same_dumper (fuel : nat) (m : dict)
  (lines : list string) :
  add_pattern_properties yaml_dump2 fuel self m lines
  = add_pattern_properties yaml_dump1 fuel self m lines.
Proof.
  unfold add_pattern_properties. apply bind_ext. intros g. f_equal.
  apply for_each_ext. intros x [first l].
  destruct (negb first); apply bind_ext; intros items; f_equal;
    apply for_each_ext; intros [k v] t; now rewrite parse_object_same_dumper.
Qed.

Lemma add_properties_same_dumper (fuel : nat) (m : dict) (lines : list string) :
  add_properties yaml_dump2 fuel self m lines
  = add_properties yaml_dump1 fuel self m lines.
Proof.
  unfold add_properties. apply bind_ext. intros g. f_equal.
  apply for_each_ext. intros x [first l].
  destruct first; apply bind_ext; intros items; f_equal;
    apply for_each_ext; intros [k v] t; apply bind_ext; intros r;
    now rewrite parse_object_same_dumper.
Qed.

Lemma add_definitions_same_dumper (fuel : nat) (m : dict) (lines : list string) :
  add_definitions yaml_dump2 fuel self m lines
  = add_definitions yaml_dump1 fuel self m lines.
Proof.
  unfold add_definitions. apply for_each_ext. intros name l.
  destruct (get name m); [|reflexivity].
  apply bind_ext. intros items. apply for_each_ext. intros [k v] t.
  now rewrite parse_object_same_dumper.
Qed.

(** X19: a parser built with [examples_as_yaml] off never consults the YAML
    dumper: whatever [yaml.dump] would return, [parse_schema] gives the same
    document or the same exception. *)
Theorem json_examples_never_use_yaml (fuel : nat) (schema_object_master : dict) :
  parse_schema yaml_dump2 fuel self schema_object_master
  = parse_schema yaml_dump1 fuel self schema_object_master.
Proof.
  unfold parse_schema. cbv zeta.
  rewrite add_items_same_dumper. apply bind_ext. intros l1.
  rewrite add_extra_properties_same_dumper. apply bind_ext. intros l2.
  rewrite add_pattern_properties_same_dumper. apply bind_ext. intros l3.
  rewrite add_properties_same_dumper. apply bind_ext. intros l4.
  rewrite add_definitions_same_dumper. apply bind_ext. intros l5.
  unfold add_root_examples. now rewrite construct_examples_same_dumper.
Qed.

End Dumper.

Lemma json_examples_never_use_yaml_witness :
  parse_schema (fun _ => "y") 3 default_parser
    [("examples", JArr [JNum 1])]
  = parse_schema yaml_unused 3 default_parser [("examples", JArr [JNum 1])].
Proof.
  apply (json_examples_never_use_yaml yaml_unused (fun _ => "y") default_parser).
  reflexivity.
Defined.
